(** * ev-alert-web: the charger-alert pipeline of [functions/index.js]

    A shallow embedding of the Cloud Function [alertBlockedCharger], of its
    helper [getPublicUrl] and of the client's [normalizePlate] ([src/App.js]),
    with the properties the specification states about them.

    Modelling conventions.
    - A JavaScript string is a [string]: the sequence of the bytes of its
      UTF-8 encoding.  [startsWith], [replace], [indexOf], [substring] and
      [encodeURIComponent] are modelled on those bytes.  [toUpperCase] and
      the regular-expression class [\s] are modelled on ASCII, which is what
      licence plates are made of: bytes above 127 are left alone.  What is
      stated about the normal form of a plate is stated for plates of
      ASCII characters; the module [CodeUnits] reads a string as the
      language does, as 16-bit code units, and shows what happens
      outside ASCII.
    - The storage client makes no call for an empty bucket or file name:
      [bucket('')] and [file('')] throw.  [getPublicUrl] is modelled for
      the other names, and what is stated about the parts of an address
      is stated for a bucket and a path that are not empty.
    - An optional field of a document is an [option string]; [None] is
      JavaScript's [undefined].
    - A JavaScript number is only ever carried around and rendered with
      [toString]; it is represented by that rendering.
    - Every awaited call to a collaborator (object store, recognition
      service, registry, push service, audit store) is answered by an oracle
      of the record [services]; an oracle may answer with a thrown error.
      A run yields the completion of the handler's promise and the
      chronological list of the calls it made, each with its success flag.
    - [console.log] and [console.error] are not calls to a collaborator and
      are left out.

    The second half of the file embeds the rest of the program: the callable
    function [manageChargerSubscription], the handlers of the client
    ([src/App.js]) and the web-push set-up, with the properties their code
    shows. *)

From Stdlib Require Import String Ascii List ZArith NArith Bool Lia.
From Stdlib Require FMapPositive.
Import ListNotations.

Local Open Scope list_scope.
Local Open Scope string_scope.

(** ** JavaScript string primitives *)

Module JS.

(** Truthiness of a string that may be [undefined]: [undefined] and the
    empty string are falsy. *)
Definition truthy (v : option string) : bool :=
  match v with
  | Some (String _ _) => true
  | _ => false
  end.

(** [v || d] for an optional string [v] and a string [d]. *)
Definition or_else (v : option string) (d : string) : string :=
  match v with
  | Some (String c r) => String c r
  | _ => d
  end.

(** [s.startsWith(p)]. *)
Definition startsWith (s p : string) : bool := String.prefix p s.

(** Drops the first [n] bytes. *)
Fixpoint drop (n : nat) (s : string) : string :=
  match n, s with
  | O, _ => s
  | S _, EmptyString => EmptyString
  | S k, String _ r => drop k r
  end.

(** Keeps the first [n] bytes. *)
Fixpoint take (n : nat) (s : string) : string :=
  match n, s with
  | O, _ => EmptyString
  | S _, EmptyString => EmptyString
  | S k, String c r => String c (take k r)
  end.

(** [s.replace(pat, rep)] with a string pattern: the first occurrence only. *)
Fixpoint replace (pat rep s : string) : string :=
  if String.prefix pat s then rep ++ drop (String.length pat) s
  else match s with
       | EmptyString => EmptyString
       | String c r => String c (replace pat rep r)
       end.

(** [s.indexOf(pat)]: the position of the first occurrence, [-1] if none. *)
Fixpoint indexOf (pat s : string) : Z :=
  if String.prefix pat s then 0%Z
  else match s with
       | EmptyString => (-1)%Z
       | String _ r =>
           let i := indexOf pat r in
           if (i <? 0)%Z then (-1)%Z else (i + 1)%Z
       end.

(** Clamps an index argument of [substring] into [0 .. length]. *)
Definition clamp (len : nat) (i : Z) : nat :=
  if (i <? 0)%Z then O else Nat.min (Z.to_nat i) len.

(** [s.substring(a, b)]: both indexes are clamped, and swapped when [a > b]. *)
Definition substring (s : string) (a b : Z) : string :=
  let a' := clamp (String.length s) a in
  let b' := clamp (String.length s) b in
  let lo := Nat.min a' b' in
  let hi := Nat.max a' b' in
  take (hi - lo) (drop lo s).

(** [s.substring(a)]: up to the end of the string. *)
Definition substring_from (s : string) (a : Z) : string :=
  drop (clamp (String.length s) a) s.

Definition is_lower (c : ascii) : bool :=
  ((97 <=? N_of_ascii c) && (N_of_ascii c <=? 122))%N.

Definition upper_char (c : ascii) : ascii :=
  if is_lower c then ascii_of_N (N_of_ascii c - 32) else c.

(** [s.toUpperCase()] on ASCII text: the letters [a] to [z] go to their
    capitals, every other byte stays. *)
Fixpoint toUpperCase (s : string) : string :=
  match s with
  | EmptyString => EmptyString
  | String c r => String (upper_char c) (toUpperCase r)
  end.

(** The class [\s] on ASCII text: tab, line feed, vertical tab, form feed,
    carriage return and space. *)
Definition is_space (c : ascii) : bool :=
  let n := N_of_ascii c in
  (((9 <=? n) && (n <=? 13)) || (n =? 32))%N.

(** [s.replace(/\s/g, '')]: every white-space byte is removed, one match at
    a time. *)
Fixpoint remove_spaces (s : string) : string :=
  match s with
  | EmptyString => EmptyString
  | String c r => if is_space c then remove_spaces r
                  else String c (remove_spaces r)
  end.

(** [s.replace(/\s+/g, '')]: every maximal run of white space is one match and
    is removed as a whole; [skip] consumes the rest of the run. *)
Fixpoint remove_space_runs (s : string) : string :=
  match s with
  | EmptyString => EmptyString
  | String c r =>
      if is_space c then
        (fix skip (t : string) : string :=
           match t with
           | EmptyString => EmptyString
           | String d u => if is_space d then skip u
                           else String d (remove_space_runs u)
           end) r
      else String c (remove_space_runs r)
  end.

Definition hex_digit (n : N) : ascii :=
  if (n <? 10)%N then ascii_of_N (48 + n) else ascii_of_N (55 + n).

(** The bytes [encodeURIComponent] leaves alone: letters, digits and
    [- _ . ! ~ * ' ( )]. *)
Definition is_unreserved (c : ascii) : bool :=
  let n := N_of_ascii c in
  (((65 <=? n) && (n <=? 90)) || ((97 <=? n) && (n <=? 122))
   || ((48 <=? n) && (n <=? 57))
   || (n =? 45) || (n =? 95) || (n =? 46) || (n =? 33) || (n =? 126)
   || (n =? 42) || (n =? 39) || (n =? 40) || (n =? 41))%N.

(** [encodeURIComponent(s)]: every other byte of the UTF-8 encoding becomes
    [%XX] with upper-case hexadecimal digits. *)
Fixpoint encodeURIComponent (s : string) : string :=
  match s with
  | EmptyString => EmptyString
  | String c r =>
      if is_unreserved c then String c (encodeURIComponent r)
      else String "%" (String (hex_digit (N_of_ascii c / 16))
                         (String (hex_digit (N_of_ascii c mod 16))
                            (encodeURIComponent r)))
  end.

End JS.

(** ** Plate normalization *)

(** [src/App.js], [normalizePlate]:
    [(p || '').toUpperCase().replace(/\s+/g, '')]. *)
Definition normalizePlate (p : option string) : string :=
  JS.remove_space_runs (JS.toUpperCase (JS.or_else p EmptyString)).

(** [functions/index.js], line 107: the normalization the trigger applies to
    the plate of the first candidate,
    [results[0].plate.toUpperCase().replace(/\s/g, '')]. *)
Definition normalizeDetected (plate : string) : string :=
  JS.remove_spaces (JS.toUpperCase plate).


(** ** Data model *)

(** The document of [chargerUsage/{docId}] that fires the trigger.  Only
    [imageUrl] is required; every field may be missing. *)
Record UsageReport := {
  imageUrl : option string;
  chargerId : option string;
  location : option string;
  reportedBy : option string
}.

(** A JavaScript number, identified by what [toString()] renders. *)
Record number := Number { toString : string }.

(** One element of [response.data.results]. *)
Record Candidate := {
  plate : string;
  score : number
}.

(** A document of the [userPlates] collection. *)
Record OwnerRecord := {
  owner_plate : string;
  userId : string
}.

(** A JSON value: the body an upstream service sends with an error. *)
#[local] Unset Elimination Schemes.
Inductive json :=
| JNull
| JBool (b : bool)
| JNumber (n : number)
| JString (s : string)
| JArray (l : list json)
| JObject (l : list (string * json)).
#[local] Set Elimination Schemes.

Definition json_truthy (j : json) : bool :=
  match j with
  | JNull => false
  | JBool b => b
  | JNumber n => negb (toString n =? "0") && negb (toString n =? "NaN")
  | JString s => negb (s =? EmptyString)
  | JArray _ => true
  | JObject _ => true
  end.

(** [error.response] of an axios error. *)
Record HttpResponse := {
  status : Z;
  data : option json
}.

(** A thrown [Error]: its message and, for an HTTP error, the response. *)
Record Error := {
  message : string;
  response : option HttpResponse
}.

(** The request [axios.post(url, body, config)] sends. *)
Record PlateRequest := {
  post_url : string;
  upload_url : string;
  regions : list string;
  authorization : string;
  timeout : Z
}.

(** What the awaited [axios.post] resolves to: [response.data?.results];
    [data] or [results] may be missing. *)
Record AxiosResponse := {
  response_data : option (option (list Candidate))
}.

(** The message handed to [admin.messaging().send]. *)
Record Message := {
  notification_title : string;
  notification_body : string;
  data_type : string;
  data_plate : string;
  data_ownerId : string;
  data_chargerId : string;
  data_location : string;
  data_confidence : string;
  data_click_action : string;
  topic : string;
  android_priority : string;
  android_sound : string;
  android_channelId : string;
  apns_sound : string;
  apns_badge : Z
}.

(** [admin.firestore.FieldValue.serverTimestamp()]. *)
Inductive FieldValue := serverTimestamp.

(** A document of the [alerts] collection. *)
Record AlertRecord := {
  alert_recipientId : string;
  alert_recipientPlate : string;
  alert_plate : string;
  alert_location : string;
  alert_chargerId : string;
  alert_reportedBy : string;
  alert_imageUrl : string;
  alert_publicImageUrl : string;
  alert_confidence : number;
  alert_detectionTimestamp : FieldValue;
  alert_status : string;
  alert_notificationMethod : string;
  alert_topic : string
}.

(** A document of the [unregisteredPlates] collection. *)
Record UnregisteredPlateRecord := {
  unregistered_plate : string;
  unregistered_imageUrl : string;
  unregistered_location : option string;
  unregistered_chargerId : option string;
  unregistered_reportedBy : option string;
  unregistered_confidence : number;
  unregistered_timestamp : FieldValue
}.

(** A document of the [failedDetections] collection. *)
Record FailedDetectionRecord := {
  failed_imageUrl : string;
  failed_chargerId : option string;
  failed_location : option string;
  failed_error : string;
  failed_errorDetails : json;
  failed_timestamp : FieldValue
}.

(** [db.collection(c).add(doc)] for the three audit collections. *)
Inductive AuditRecord :=
| alerts (r : AlertRecord)
| unregisteredPlates (r : UnregisteredPlateRecord)
| failedDetections (r : FailedDetectionRecord).

(** ** Collaborators and effects *)

(** The awaited calls of the function. *)
Inductive Call :=
| file_exists (bucketName filePath : string)
| file_makePublic (bucketName filePath : string)
| axios_post (req : PlateRequest)
| userPlates_get (plate : string)
| messaging_send (m : Message)
| collection_add (r : AuditRecord).

(** How the collaborators answer.  [userPlates] is the registry as the
    query finds it, or the error the read throws. *)
Record Services := {
  storage_exists : string -> string -> Error + bool;
  storage_makePublic : string -> string -> option Error;
  plate_reader : PlateRequest -> Error + AxiosResponse;
  userPlates : Error + list OwnerRecord;
  fcm_send : Message -> option Error;
  firestore_add : AuditRecord -> option Error
}.

(** A call of the trace with its success flag: [true] when the awaited
    promise resolved, [false] when it threw. *)
Definition Event : Type := Call * bool.

(** An asynchronous computation: what its promise settles to (a thrown
    error or a value) and the calls made, oldest first. *)
Definition Async (A : Type) : Type := (Error + A) * list Event.

Definition ret {A} (a : A) : Async A := (inr a, []).

Definition throw {A} (e : Error) : Async A := (inl e, []).

Definition bind {A B} (m : Async A) (k : A -> Async B) : Async B :=
  match m with
  | (inl e, t) => (inl e, t)
  | (inr a, t) => let (r, t') := k a in (r, (t ++ t')%list)
  end.

(** [try { m } catch (error) { h error }]. *)
Definition try_catch {A} (m : Async A) (h : Error -> Async A) : Async A :=
  match m with
  | (inl e, t) => let (r, t') := h e in (r, (t ++ t')%list)
  | (inr a, t) => (inr a, t)
  end.

(** An awaited call that resolves to a value or throws. *)
Definition await {A} (c : Call) (answer : Error + A) : Async A :=
  match answer with
  | inl e => (inl e, [(c, false)])
  | inr a => (inr a, [(c, true)])
  end.

(** An awaited call whose value is not used: what the promise settles to
    and whether it resolved. *)
Definition settled (answer : option Error) : Error + unit :=
  match answer with
  | Some e => inl e
  | None => inr tt
  end.

Definition resolved (answer : option Error) : bool :=
  match answer with
  | Some _ => false
  | None => true
  end.

Definition await_ (c : Call) (answer : option Error) : Async unit :=
  (settled answer, [(c, resolved answer)]).

Declare Scope async_scope.
Delimit Scope async_scope with async.
Notation "x <- m ;; k" := (bind m (fun x => k))
  (at level 100, m at next level, right associativity) : async_scope.
Notation "m ;;; k" := (bind m (fun _ => k))
  (at level 100, right associativity) : async_scope.
Local Open Scope async_scope.

Definition completion {A} (run : Async A) : Error + A := fst run.
Definition calls {A} (run : Async A) : list Event := snd run.

(** ** The pipeline *)

Section Pipeline.

Variable cloud : Services.

(** [getPublicUrl] ([functions/index.js], lines 12-53).  The [catch] of the
    function logs the error and throws it again.  The handles
    [admin.storage().bucket(bucketName)] and [bucket.file(filePath)] of
    lines 31-32 make no call; they are taken to be there, which they are
    for names that are not empty. *)
Definition getPublicUrl (gsUrl : string) : Async string :=
  if negb (JS.startsWith gsUrl "gs://") then ret gsUrl
  else
    try_catch
      (let gsPath := JS.replace "gs://" EmptyString gsUrl in
       let firstSlash := JS.indexOf "/" gsPath in
       let bucketName := JS.substring gsPath 0 firstSlash in
       let filePath := JS.substring_from gsPath (firstSlash + 1) in
       exists_ <- await (file_exists bucketName filePath)
                        (storage_exists cloud bucketName filePath) ;;
       if negb exists_ then
         throw {| message := "File does not exist: " ++ filePath;
                  response := None |}
       else
         await_ (file_makePublic bucketName filePath)
                (storage_makePublic cloud bucketName filePath) ;;;
         let publicUrl := "https://storage.googleapis.com/" ++ bucketName
                          ++ "/" ++ JS.encodeURIComponent filePath in
         ret publicUrl)
      (fun error => throw error).

(** The request of lines 87-97. *)
Definition plate_request (imageUrl plateApiKey : string) : PlateRequest :=
  {| post_url := "https://api.platerecognizer.com/v1/plate-reader/";
     upload_url := imageUrl;
     regions := ["gb"];
     authorization := "Token " ++ plateApiKey;
     timeout := 30000 |}.

(** [response.data?.results || []]: an array, even an empty one, is
    truthy. *)
Definition results_of (r : AxiosResponse) : list Candidate :=
  match response_data r with
  | Some (Some results) => results
  | _ => []
  end.

(** [db.collection("userPlates").where("plate", "==", p).limit(1).get()]:
    the documents of the snapshot. *)
Definition plate_query (docs : list OwnerRecord) (p : string)
  : list OwnerRecord :=
  firstn 1 (filter (fun d => owner_plate d =? p) docs).

(** The document of lines 124-132. *)
Definition unregistered_record (d : UsageReport) (image : string)
    (detectedPlate : string) (confidence : number)
  : UnregisteredPlateRecord :=
  {| unregistered_plate := detectedPlate;
     unregistered_imageUrl := image;
     unregistered_location := location d;
     unregistered_chargerId := chargerId d;
     unregistered_reportedBy := reportedBy d;
     unregistered_confidence := confidence;
     unregistered_timestamp := serverTimestamp |}.

(** The message of lines 143-173. *)
Definition alert_message (d : UsageReport) (detectedPlate ownerId : string)
    (confidence : number) : Message :=
  {| notification_title := "Charger Occupied";
     notification_body := "Charger " ++ JS.or_else (chargerId d) "Unknown"
                          ++ " is now used by " ++ detectedPlate;
     data_type := "charger_alert";
     data_plate := detectedPlate;
     data_ownerId := ownerId;
     data_chargerId := JS.or_else (chargerId d) "unknown";
     data_location := JS.or_else (location d) EmptyString;
     data_confidence := toString confidence;
     data_click_action := "FLUTTER_NOTIFICATION_CLICK";
     topic := "charger_alerts";
     android_priority := "high";
     android_sound := "default";
     android_channelId := "charger_alerts";
     apns_sound := "default";
     apns_badge := 1 |}.

(** The document of lines 179-193. *)
Definition alert_record (d : UsageReport) (image publicImage : string)
    (detectedPlate ownerId : string) (confidence : number) : AlertRecord :=
  {| alert_recipientId := ownerId;
     alert_recipientPlate := detectedPlate;
     alert_plate := detectedPlate;
     alert_location := JS.or_else (location d) "Unknown";
     alert_chargerId := JS.or_else (chargerId d) "unknown";
     alert_reportedBy := JS.or_else (reportedBy d) "anonymous";
     alert_imageUrl := image;
     alert_publicImageUrl := publicImage;
     alert_confidence := confidence;
     alert_detectionTimestamp := serverTimestamp;
     alert_status := "sent";
     alert_notificationMethod := "topic";
     alert_topic := "charger_alerts" |}.

(** [error.response?.data || null]. *)
Definition error_details (error : Error) : json :=
  match response error with
  | Some r => match data r with
              | Some j => if json_truthy j then j else JNull
              | None => JNull
              end
  | None => JNull
  end.

(** The document of lines 210-217. *)
Definition failed_record (d : UsageReport) (image : string) (error : Error)
  : FailedDetectionRecord :=
  {| failed_imageUrl := image;
     failed_chargerId := chargerId d;
     failed_location := location d;
     failed_error := message error;
     failed_errorDetails := error_details error;
     failed_timestamp := serverTimestamp |}.

(** The guard of line 67, [!data || !data.imageUrl || !plateApiKey]; when
    it lets the event through, the payload, its image address and the key. *)
Definition validate (plateApiKey : option string) (data : option UsageReport)
  : option (UsageReport * string * string) :=
  match data with
  | None => None
  | Some d =>
      match imageUrl d, plateApiKey with
      | Some (String c u), Some (String k y) =>
          Some (d, String c u, String k y)
      | _, _ => None
      end
  end.

(** Lines 78-81: [let imageUrl = data.imageUrl] and its conversion when
    it is a [gs://] address. *)
Definition resolve_image (image : string) : Async string :=
  if JS.startsWith image "gs://" then getPublicUrl image else ret image.

(** The [try] block (lines 75-196).  Each [return] ends the branch it
    stands in. *)
Definition try_block (d : UsageReport) (image key : string) : Async unit :=
  imageUrl <- resolve_image image ;;
  response <- await (axios_post (plate_request imageUrl key))
                    (plate_reader cloud (plate_request imageUrl key)) ;;
  match results_of response with
  | [] => ret tt
  | first :: _ =>
      let detectedPlate := normalizeDetected (plate first) in
      let confidence := score first in
      plateQuery <- await (userPlates_get detectedPlate)
                      (match userPlates cloud with
                       | inl e => inl e
                       | inr docs => inr (plate_query docs detectedPlate)
                       end) ;;
      match plateQuery with
      | [] =>
          await_ (collection_add (unregisteredPlates
                    (unregistered_record d image detectedPlate confidence)))
                 (firestore_add cloud (unregisteredPlates
                    (unregistered_record d image detectedPlate confidence)))
      | ownerData :: _ =>
          let ownerId := userId ownerData in
          let message := alert_message d detectedPlate ownerId confidence in
          await_ (messaging_send message) (fcm_send cloud message) ;;;
          await_ (collection_add (alerts
                    (alert_record d image imageUrl detectedPlate ownerId
                       confidence)))
                 (firestore_add cloud (alerts
                    (alert_record d image imageUrl detectedPlate ownerId
                       confidence)))
      end
  end.

(** The [catch] block (lines 198-218). *)
Definition catch_block (d : UsageReport) (image : string) (error : Error)
  : Async unit :=
  await_ (collection_add (failedDetections (failed_record d image error)))
         (firestore_add cloud (failedDetections (failed_record d image error))).

(** The trigger [alertBlockedCharger] (lines 59-220): [plateApiKey] is
    [process.env.PLATE_RECOGNIZER_KEY] and [data] is [event.data?.data()]. *)
Definition alertBlockedCharger (plateApiKey : option string)
    (data : option UsageReport) : Async unit :=
  match validate plateApiKey data with
  | None => ret tt
  | Some (d, image, key) =>
      try_catch (try_block d image key) (catch_block d image)
  end.

(** The runs of the [try] block, by the place where it ends: the states of
    the orchestrator. *)
Inductive try_block_run (d : UsageReport) (image key : string)
  : Async unit -> Prop :=
| resolution_failed e pre :
    resolve_image image = (inl e, pre) ->
    try_block_run d image key (inl e, pre)
| detection_failed url pre e :
    resolve_image image = (inr url, pre) ->
    plate_reader cloud (plate_request url key) = inl e ->
    try_block_run d image key
      (inl e, pre ++ [(axios_post (plate_request url key), false)])%list
| no_plate url pre resp :
    resolve_image image = (inr url, pre) ->
    plate_reader cloud (plate_request url key) = inr resp ->
    results_of resp = [] ->
    try_block_run d image key
      (inr tt, pre ++ [(axios_post (plate_request url key), true)])%list
| registry_failed url pre resp first rest e :
    resolve_image image = (inr url, pre) ->
    plate_reader cloud (plate_request url key) = inr resp ->
    results_of resp = first :: rest ->
    userPlates cloud = inl e ->
    try_block_run d image key
      (inl e, pre ++ [(axios_post (plate_request url key), true);
                      (userPlates_get (normalizeDetected (plate first)),
                       false)])%list
| owner_unregistered url pre resp first rest docs :
    resolve_image image = (inr url, pre) ->
    plate_reader cloud (plate_request url key) = inr resp ->
    results_of resp = first :: rest ->
    userPlates cloud = inr docs ->
    plate_query docs (normalizeDetected (plate first)) = [] ->
    let doc := unregisteredPlates
                 (unregistered_record d image (normalizeDetected (plate first))
                    (score first)) in
    try_block_run d image key
      (settled (firestore_add cloud doc),
       pre ++ [(axios_post (plate_request url key), true);
               (userPlates_get (normalizeDetected (plate first)), true);
               (collection_add doc, resolved (firestore_add cloud doc))])%list
| dispatch_failed url pre resp first rest docs owner others e :
    resolve_image image = (inr url, pre) ->
    plate_reader cloud (plate_request url key) = inr resp ->
    results_of resp = first :: rest ->
    userPlates cloud = inr docs ->
    plate_query docs (normalizeDetected (plate first)) = owner :: others ->
    let m := alert_message d (normalizeDetected (plate first)) (userId owner)
               (score first) in
    fcm_send cloud m = Some e ->
    try_block_run d image key
      (inl e,
       pre ++ [(axios_post (plate_request url key), true);
               (userPlates_get (normalizeDetected (plate first)), true);
               (messaging_send m, false)])%list
| dispatched url pre resp first rest docs owner others :
    resolve_image image = (inr url, pre) ->
    plate_reader cloud (plate_request url key) = inr resp ->
    results_of resp = first :: rest ->
    userPlates cloud = inr docs ->
    plate_query docs (normalizeDetected (plate first)) = owner :: others ->
    let m := alert_message d (normalizeDetected (plate first)) (userId owner)
               (score first) in
    fcm_send cloud m = None ->
    let doc := alerts
                 (alert_record d image url (normalizeDetected (plate first))
                    (userId owner) (score first)) in
    try_block_run d image key
      (settled (firestore_add cloud doc),
       pre ++ [(axios_post (plate_request url key), true);
               (userPlates_get (normalizeDetected (plate first)), true);
               (messaging_send m, true);
               (collection_add doc, resolved (firestore_add cloud doc))])%list.

End Pipeline.

(** ** Observations on a trace *)

(** The messages handed to the push service, sent or not. *)
Fixpoint topic_sends (t : list Event) : list Message :=
  match t with
  | [] => []
  | (messaging_send m, _) :: r => m :: topic_sends r
  | _ :: r => topic_sends r
  end.

(** The plates the registry was asked for. *)
Fixpoint registry_reads (t : list Event) : list string :=
  match t with
  | [] => []
  | (userPlates_get p, _) :: r => p :: registry_reads r
  | _ :: r => registry_reads r
  end.

(** The documents handed to the audit store, stored or not. *)
Fixpoint audit_calls (t : list Event) : list AuditRecord :=
  match t with
  | [] => []
  | (collection_add a, _) :: r => a :: audit_calls r
  | _ :: r => audit_calls r
  end.

(** The documents the audit store holds after the run: the [add] calls
    that resolved. *)
Fixpoint written (t : list Event) : list AuditRecord :=
  match t with
  | [] => []
  | (collection_add a, true) :: r => a :: written r
  | _ :: r => written r
  end.

(** The calls to the object store. *)
Definition is_storage_call (ev : Event) : bool :=
  match fst ev with
  | file_exists _ _ | file_makePublic _ _ => true
  | _ => false
  end.

Definition storage_only (t : list Event) : Prop :=
  Forall (fun ev => is_storage_call ev = true) t.

(** ** Sample collaborators *)

(** Collaborators that answer every call the same way. *)
Definition sample_cloud (exists_ : Error + bool)
    (reader : Error + AxiosResponse) (registry : Error + list OwnerRecord)
    (send : option Error) (add : AuditRecord -> option Error) : Services :=
  {| storage_exists := fun _ _ => exists_;
     storage_makePublic := fun _ _ => None;
     plate_reader := fun _ => reader;
     userPlates := registry;
     fcm_send := fun _ => send;
     firestore_add := add |}.

(** The report of the scenarios of the specification; it is also what the
    client writes, which sets neither [location] nor [reportedBy]. *)
Definition sample_report : UsageReport :=
  {| imageUrl := Some "gs://bucket/x.jpg";
     chargerId := Some "C1";
     location := None;
     reportedBy := None |}.

(** A report that carries every optional field. *)
Definition full_report : UsageReport :=
  {| imageUrl := Some "gs://bucket/x.jpg";
     chargerId := Some "C1";
     location := Some "Car park A";
     reportedBy := Some "U7" |}.

Definition sample_results : AxiosResponse :=
  {| response_data :=
       Some (Some [ {| plate := "ab12 cde"; score := Number "0.91" |} ]) |}.

Definition sample_registry : list OwnerRecord :=
  [ {| owner_plate := "AB12CDE"; userId := "U1" |} ].

Definition dispatch_error : Error :=
  {| message := "messaging/internal-error"; response := None |}.

Definition timeout_error : Error :=
  {| message := "timeout of 30000ms exceeded"; response := None |}.

Definition sample_public_image : string :=
  "https://storage.googleapis.com/bucket/x.jpg".

Definition sample_request : PlateRequest :=
  plate_request sample_public_image "k".

Definition sample_message : Message :=
  alert_message sample_report "AB12CDE" "U1" (Number "0.91").

Definition full_message : Message :=
  alert_message full_report "AB12CDE" "U1" (Number "0.91").

Definition sample_alert : AlertRecord :=
  alert_record sample_report "gs://bucket/x.jpg" sample_public_image
    "AB12CDE" "U1" (Number "0.91").

Definition accept_all : AuditRecord -> option Error := fun _ => None.

(** Every collaborator answers; the owner is registered. *)
Definition registered_cloud : Services :=
  sample_cloud (inr true) (inr sample_results) (inr sample_registry) None
    accept_all.

(** The registry knows another plate only. *)
Definition unregistered_cloud : Services :=
  sample_cloud (inr true) (inr sample_results)
    (inr [ {| owner_plate := "XY99ZZZ"; userId := "U2" |} ]) None accept_all.

(** The recognition service finds no plate. *)
Definition no_plate_cloud : Services :=
  sample_cloud (inr true) (inr {| response_data := Some (Some []) |})
    (inr sample_registry) None accept_all.

(** The call to the recognition service times out. *)
Definition timeout_cloud : Services :=
  sample_cloud (inr true) (inl timeout_error) (inr sample_registry) None
    accept_all.

(** The push service rejects the message. *)
Definition failing_send_cloud : Services :=
  sample_cloud (inr true) (inr sample_results) (inr sample_registry)
    (Some dispatch_error) accept_all.

(** The requests sent to the recognition service. *)
Fixpoint recognition_requests (t : list Event) : list PlateRequest :=
  match t with
  | [] => []
  | (axios_post req, _) :: r => req :: recognition_requests r
  | _ :: r => recognition_requests r
  end.

(** The plate a document of the audit store is about. *)
Definition audit_plate (a : AuditRecord) : option string :=
  match a with
  | alerts r => Some (alert_plate r)
  | unregisteredPlates r => Some (unregistered_plate r)
  | failedDetections _ => None
  end.

(** The audit store rejects every document. *)
Definition reject_all : AuditRecord -> option Error :=
  fun _ => Some {| message := "14 UNAVAILABLE"; response := None |}.

(** Whether a document of the audit store holds [undefined]: the optional
    fields the records of lines 124-132 and 210-217 copy from the report as
    they are.  The fields of an AlertRecord are defaulted and never
    [undefined]. *)
Definition holds_undefined (a : AuditRecord) : bool :=
  match a with
  | alerts _ => false
  | unregisteredPlates r =>
      match unregistered_location r, unregistered_chargerId r,
            unregistered_reportedBy r with
      | Some _, Some _, Some _ => false
      | _, _, _ => true
      end
  | failedDetections r =>
      match failed_chargerId r, failed_location r with
      | Some _, Some _ => false
      | _, _ => true
      end
  end.

(** The audit store as [admin.firestore()] of line 7 gives it, with the
    settings it has by default: [add] throws for a document that holds
    [undefined], and nothing is stored. *)
Definition firestore_validation (refusal : Error)
  : AuditRecord -> option Error :=
  fun a => if holds_undefined a then Some refusal else None.

Definition undefined_value : Error :=
  {| message := "Cannot use undefined as a Firestore value";
     response := None |}.

(** Whether every byte of a string passes a test. *)
Fixpoint all_chars (test : ascii -> bool) (s : string) : bool :=
  match s with
  | EmptyString => true
  | String c r => test c && all_chars test r
  end.

(** The bytes of ASCII text.  On a string of such bytes the byte is the
    code unit, and [JS.toUpperCase] and [JS.is_space] are the language's
    [toUpperCase] and [\s]. *)
Definition is_ascii (c : ascii) : bool := (N_of_ascii c <? 128)%N.

(** The bytes of a percent-encoded string. *)
Definition url_safe (c : ascii) : bool :=
  JS.is_unreserved c || (c =? "%")%char.

(** The bytes of a normalized plate. *)
Definition canonical_byte (c : ascii) : bool :=
  negb (JS.is_space c) && negb (JS.is_lower c).

(** The value of a hexadecimal digit, and the reading of a
    percent-encoded string.  They are not part of the program; they serve
    to show that [encodeURIComponent] loses nothing. *)
Definition hex_value (c : ascii) : N :=
  let n := N_of_ascii c in
  if (n <? 58)%N then (n - 48)%N else (n - 55)%N.

Fixpoint percent_decode (s : string) : string :=
  match s with
  | EmptyString => EmptyString
  | String c r =>
      if (c =? "%")%char then
        match r with
        | String h (String l r') =>
            String (ascii_of_N (16 * hex_value h + hex_value l))
                   (percent_decode r')
        | _ => String c (percent_decode r)
        end
      else String c (percent_decode r)
  end.

(** ** Plate normalization on code units

    A JavaScript string is a sequence of 16-bit code units; [toUpperCase]
    reads it as code points, a high surrogate followed by a low surrogate
    being one code point, and [\s] is a class of code units.  The byte
    strings above do not show this; the definitions below do. *)
Module CodeUnits.

Definition is_high_surrogate (u : N) : bool :=
  ((0xD800 <=? u) && (u <=? 0xDBFF))%N.

Definition is_low_surrogate (u : N) : bool :=
  ((0xDC00 <=? u) && (u <=? 0xDFFF))%N.

(** The code points of text: all but the surrogates. *)
Definition is_scalar_value (c : N) : bool :=
  ((c <? 0xD800) || ((0xE000 <=? c) && (c <=? 0x10FFFF)))%N.

(** The code points of a string; a surrogate without its partner stands
    for itself. *)
Fixpoint code_points (s : list N) : list N :=
  match s with
  | [] => []
  | u :: r =>
      match r with
      | l :: r' =>
          if is_high_surrogate u && is_low_surrogate l
          then (0x10000 + (u - 0xD800) * 0x400 + (l - 0xDC00))%N
               :: code_points r'
          else u :: code_points r
      | [] => [u]
      end
  end.

(** The code units of a code point, and of a list of code points. *)
Definition code_units (c : N) : list N :=
  if (c <? 0x10000)%N then [c]
  else [ (0xD800 + (c - 0x10000) / 0x400)%N;
         (0xDC00 + (c - 0x10000) mod 0x400)%N ].

Definition utf16 (cs : list N) : list N := flat_map code_units cs.

(** A string is well formed when its code units are 16-bit numbers and
    every surrogate has its partner. *)
Fixpoint well_formed (s : list N) : bool :=
  match s with
  | [] => true
  | u :: r =>
      if is_high_surrogate u then
        match r with
        | l :: r' => is_low_surrogate l && well_formed r'
        | [] => false
        end
      else negb (is_low_surrogate u) && (u <? 0x10000)%N && well_formed r
  end.

(** The upper-case mappings of the Unicode Character Database (version
    14.0): the code points that [toUpperCase] changes, each with the code
    points it becomes; the simple mappings of [UnicodeData.txt] and the
    unconditional ones of [SpecialCasing.txt]. *)
Definition upper_case_mappings : list (N * list N) := [
  (0x61, [0x41]); (0x62, [0x42]); (0x63, [0x43]); (0x64, [0x44]);
    (0x65, [0x45]); (0x66, [0x46]); (0x67, [0x47]); (0x68, [0x48]);
    (0x69, [0x49]); (0x6A, [0x4A]); (0x6B, [0x4B]); (0x6C, [0x4C]);
    (0x6D, [0x4D]); (0x6E, [0x4E]); (0x6F, [0x4F]); (0x70, [0x50]);
    (0x71, [0x51]); (0x72, [0x52]); (0x73, [0x53]); (0x74, [0x54]);
    (0x75, [0x55]); (0x76, [0x56]); (0x77, [0x57]); (0x78, [0x58]);
    (0x79, [0x59]); (0x7A, [0x5A]); (0xB5, [0x39C]); (0xDF, [0x53; 0x53]);
    (0xE0, [0xC0]); (0xE1, [0xC1]); (0xE2, [0xC2]); (0xE3, [0xC3]);
    (0xE4, [0xC4]); (0xE5, [0xC5]); (0xE6, [0xC6]); (0xE7, [0xC7]);
    (0xE8, [0xC8]); (0xE9, [0xC9]); (0xEA, [0xCA]); (0xEB, [0xCB]);
    (0xEC, [0xCC]); (0xED, [0xCD]); (0xEE, [0xCE]); (0xEF, [0xCF]);
    (0xF0, [0xD0]); (0xF1, [0xD1]); (0xF2, [0xD2]); (0xF3, [0xD3]);
    (0xF4, [0xD4]); (0xF5, [0xD5]); (0xF6, [0xD6]); (0xF8, [0xD8]);
    (0xF9, [0xD9]); (0xFA, [0xDA]); (0xFB, [0xDB]); (0xFC, [0xDC]);
    (0xFD, [0xDD]); (0xFE, [0xDE]); (0xFF, [0x178]); (0x101, [0x100]);
    (0x103, [0x102]); (0x105, [0x104]); (0x107, [0x106]); (0x109, [0x108]);
    (0x10B, [0x10A]); (0x10D, [0x10C]); (0x10F, [0x10E]); (0x111, [0x110]);
    (0x113, [0x112]); (0x115, [0x114]); (0x117, [0x116]); (0x119, [0x118]);
    (0x11B, [0x11A]); (0x11D, [0x11C]); (0x11F, [0x11E]); (0x121, [0x120]);
    (0x123, [0x122]); (0x125, [0x124]); (0x127, [0x126]); (0x129, [0x128]);
    (0x12B, [0x12A]); (0x12D, [0x12C]); (0x12F, [0x12E]); (0x131, [0x49]);
    (0x133, [0x132]); (0x135, [0x134]); (0x137, [0x136]); (0x13A, [0x139]);
    (0x13C, [0x13B]); (0x13E, [0x13D]); (0x140, [0x13F]); (0x142, [0x141]);
    (0x144, [0x143]); (0x146, [0x145]); (0x148, [0x147]);
    (0x149, [0x2BC; 0x4E]); (0x14B, [0x14A]); (0x14D, [0x14C]);
    (0x14F, [0x14E]); (0x151, [0x150]); (0x153, [0x152]); (0x155, [0x154]);
    (0x157, [0x156]); (0x159, [0x158]); (0x15B, [0x15A]); (0x15D, [0x15C]);
    (0x15F, [0x15E]); (0x161, [0x160]); (0x163, [0x162]); (0x165, [0x164]);
    (0x167, [0x166]); (0x169, [0x168]); (0x16B, [0x16A]); (0x16D, [0x16C]);
    (0x16F, [0x16E]); (0x171, [0x170]); (0x173, [0x172]); (0x175, [0x174]);
    (0x177, [0x176]); (0x17A, [0x179]); (0x17C, [0x17B]); (0x17E, [0x17D]);
    (0x17F, [0x53]); (0x180, [0x243]); (0x183, [0x182]); (0x185, [0x184]);
    (0x188, [0x187]); (0x18C, [0x18B]); (0x192, [0x191]); (0x195, [0x1F6]);
    (0x199, [0x198]); (0x19A, [0x23D]); (0x19E, [0x220]); (0x1A1, [0x1A0]);
    (0x1A3, [0x1A2]); (0x1A5, [0x1A4]); (0x1A8, [0x1A7]); (0x1AD, [0x1AC]);
    (0x1B0, [0x1AF]); (0x1B4, [0x1B3]); (0x1B6, [0x1B5]); (0x1B9, [0x1B8]);
    (0x1BD, [0x1BC]); (0x1BF, [0x1F7]); (0x1C5, [0x1C4]); (0x1C6, [0x1C4]);
    (0x1C8, [0x1C7]); (0x1C9, [0x1C7]); (0x1CB, [0x1CA]); (0x1CC, [0x1CA]);
    (0x1CE, [0x1CD]); (0x1D0, [0x1CF]); (0x1D2, [0x1D1]); (0x1D4, [0x1D3]);
    (0x1D6, [0x1D5]); (0x1D8, [0x1D7]); (0x1DA, [0x1D9]); (0x1DC, [0x1DB]);
    (0x1DD, [0x18E]); (0x1DF, [0x1DE]); (0x1E1, [0x1E0]); (0x1E3, [0x1E2]);
    (0x1E5, [0x1E4]); (0x1E7, [0x1E6]); (0x1E9, [0x1E8]); (0x1EB, [0x1EA]);
    (0x1ED, [0x1EC]); (0x1EF, [0x1EE]); (0x1F0, [0x4A; 0x30C]);
    (0x1F2, [0x1F1]); (0x1F3, [0x1F1]); (0x1F5, [0x1F4]); (0x1F9, [0x1F8]);
    (0x1FB, [0x1FA]); (0x1FD, [0x1FC]); (0x1FF, [0x1FE]); (0x201, [0x200]);
    (0x203, [0x202]); (0x205, [0x204]); (0x207, [0x206]); (0x209, [0x208]);
    (0x20B, [0x20A]); (0x20D, [0x20C]); (0x20F, [0x20E]); (0x211, [0x210]);
    (0x213, [0x212]); (0x215, [0x214]); (0x217, [0x216]); (0x219, [0x218]);
    (0x21B, [0x21A]); (0x21D, [0x21C]); (0x21F, [0x21E]); (0x223, [0x222]);
    (0x225, [0x224]); (0x227, [0x226]); (0x229, [0x228]); (0x22B, [0x22A]);
    (0x22D, [0x22C]); (0x22F, [0x22E]); (0x231, [0x230]); (0x233, [0x232]);
    (0x23C, [0x23B]); (0x23F, [0x2C7E]); (0x240, [0x2C7F]); (0x242, [0x241]);
    (0x247, [0x246]); (0x249, [0x248]); (0x24B, [0x24A]); (0x24D, [0x24C]);
    (0x24F, [0x24E]); (0x250, [0x2C6F]); (0x251, [0x2C6D]);
    (0x252, [0x2C70]); (0x253, [0x181]); (0x254, [0x186]); (0x256, [0x189]);
    (0x257, [0x18A]); (0x259, [0x18F]); (0x25B, [0x190]); (0x25C, [0xA7AB]);
    (0x260, [0x193]); (0x261, [0xA7AC]); (0x263, [0x194]); (0x265, [0xA78D]);
    (0x266, [0xA7AA]); (0x268, [0x197]); (0x269, [0x196]); (0x26A, [0xA7AE]);
    (0x26B, [0x2C62]); (0x26C, [0xA7AD]); (0x26F, [0x19C]);
    (0x271, [0x2C6E]); (0x272, [0x19D]); (0x275, [0x19F]); (0x27D, [0x2C64]);
    (0x280, [0x1A6]); (0x282, [0xA7C5]); (0x283, [0x1A9]); (0x287, [0xA7B1]);
    (0x288, [0x1AE]); (0x289, [0x244]); (0x28A, [0x1B1]); (0x28B, [0x1B2]);
    (0x28C, [0x245]); (0x292, [0x1B7]); (0x29D, [0xA7B2]); (0x29E, [0xA7B0]);
    (0x345, [0x399]); (0x371, [0x370]); (0x373, [0x372]); (0x377, [0x376]);
    (0x37B, [0x3FD]); (0x37C, [0x3FE]); (0x37D, [0x3FF]);
    (0x390, [0x399; 0x308; 0x301]); (0x3AC, [0x386]); (0x3AD, [0x388]);
    (0x3AE, [0x389]); (0x3AF, [0x38A]); (0x3B0, [0x3A5; 0x308; 0x301]);
    (0x3B1, [0x391]); (0x3B2, [0x392]); (0x3B3, [0x393]); (0x3B4, [0x394]);
    (0x3B5, [0x395]); (0x3B6, [0x396]); (0x3B7, [0x397]); (0x3B8, [0x398]);
    (0x3B9, [0x399]); (0x3BA, [0x39A]); (0x3BB, [0x39B]); (0x3BC, [0x39C]);
    (0x3BD, [0x39D]); (0x3BE, [0x39E]); (0x3BF, [0x39F]); (0x3C0, [0x3A0]);
    (0x3C1, [0x3A1]); (0x3C2, [0x3A3]); (0x3C3, [0x3A3]); (0x3C4, [0x3A4]);
    (0x3C5, [0x3A5]); (0x3C6, [0x3A6]); (0x3C7, [0x3A7]); (0x3C8, [0x3A8]);
    (0x3C9, [0x3A9]); (0x3CA, [0x3AA]); (0x3CB, [0x3AB]); (0x3CC, [0x38C]);
    (0x3CD, [0x38E]); (0x3CE, [0x38F]); (0x3D0, [0x392]); (0x3D1, [0x398]);
    (0x3D5, [0x3A6]); (0x3D6, [0x3A0]); (0x3D7, [0x3CF]); (0x3D9, [0x3D8]);
    (0x3DB, [0x3DA]); (0x3DD, [0x3DC]); (0x3DF, [0x3DE]); (0x3E1, [0x3E0]);
    (0x3E3, [0x3E2]); (0x3E5, [0x3E4]); (0x3E7, [0x3E6]); (0x3E9, [0x3E8]);
    (0x3EB, [0x3EA]); (0x3ED, [0x3EC]); (0x3EF, [0x3EE]); (0x3F0, [0x39A]);
    (0x3F1, [0x3A1]); (0x3F2, [0x3F9]); (0x3F3, [0x37F]); (0x3F5, [0x395]);
    (0x3F8, [0x3F7]); (0x3FB, [0x3FA]); (0x430, [0x410]); (0x431, [0x411]);
    (0x432, [0x412]); (0x433, [0x413]); (0x434, [0x414]); (0x435, [0x415]);
    (0x436, [0x416]); (0x437, [0x417]); (0x438, [0x418]); (0x439, [0x419]);
    (0x43A, [0x41A]); (0x43B, [0x41B]); (0x43C, [0x41C]); (0x43D, [0x41D]);
    (0x43E, [0x41E]); (0x43F, [0x41F]); (0x440, [0x420]); (0x441, [0x421]);
    (0x442, [0x422]); (0x443, [0x423]); (0x444, [0x424]); (0x445, [0x425]);
    (0x446, [0x426]); (0x447, [0x427]); (0x448, [0x428]); (0x449, [0x429]);
    (0x44A, [0x42A]); (0x44B, [0x42B]); (0x44C, [0x42C]); (0x44D, [0x42D]);
    (0x44E, [0x42E]); (0x44F, [0x42F]); (0x450, [0x400]); (0x451, [0x401]);
    (0x452, [0x402]); (0x453, [0x403]); (0x454, [0x404]); (0x455, [0x405]);
    (0x456, [0x406]); (0x457, [0x407]); (0x458, [0x408]); (0x459, [0x409]);
    (0x45A, [0x40A]); (0x45B, [0x40B]); (0x45C, [0x40C]); (0x45D, [0x40D]);
    (0x45E, [0x40E]); (0x45F, [0x40F]); (0x461, [0x460]); (0x463, [0x462]);
    (0x465, [0x464]); (0x467, [0x466]); (0x469, [0x468]); (0x46B, [0x46A]);
    (0x46D, [0x46C]); (0x46F, [0x46E]); (0x471, [0x470]); (0x473, [0x472]);
    (0x475, [0x474]); (0x477, [0x476]); (0x479, [0x478]); (0x47B, [0x47A]);
    (0x47D, [0x47C]); (0x47F, [0x47E]); (0x481, [0x480]); (0x48B, [0x48A]);
    (0x48D, [0x48C]); (0x48F, [0x48E]); (0x491, [0x490]); (0x493, [0x492]);
    (0x495, [0x494]); (0x497, [0x496]); (0x499, [0x498]); (0x49B, [0x49A]);
    (0x49D, [0x49C]); (0x49F, [0x49E]); (0x4A1, [0x4A0]); (0x4A3, [0x4A2]);
    (0x4A5, [0x4A4]); (0x4A7, [0x4A6]); (0x4A9, [0x4A8]); (0x4AB, [0x4AA]);
    (0x4AD, [0x4AC]); (0x4AF, [0x4AE]); (0x4B1, [0x4B0]); (0x4B3, [0x4B2]);
    (0x4B5, [0x4B4]); (0x4B7, [0x4B6]); (0x4B9, [0x4B8]); (0x4BB, [0x4BA]);
    (0x4BD, [0x4BC]); (0x4BF, [0x4BE]); (0x4C2, [0x4C1]); (0x4C4, [0x4C3]);
    (0x4C6, [0x4C5]); (0x4C8, [0x4C7]); (0x4CA, [0x4C9]); (0x4CC, [0x4CB]);
    (0x4CE, [0x4CD]); (0x4CF, [0x4C0]); (0x4D1, [0x4D0]); (0x4D3, [0x4D2]);
    (0x4D5, [0x4D4]); (0x4D7, [0x4D6]); (0x4D9, [0x4D8]); (0x4DB, [0x4DA]);
    (0x4DD, [0x4DC]); (0x4DF, [0x4DE]); (0x4E1, [0x4E0]); (0x4E3, [0x4E2]);
    (0x4E5, [0x4E4]); (0x4E7, [0x4E6]); (0x4E9, [0x4E8]); (0x4EB, [0x4EA]);
    (0x4ED, [0x4EC]); (0x4EF, [0x4EE]); (0x4F1, [0x4F0]); (0x4F3, [0x4F2]);
    (0x4F5, [0x4F4]); (0x4F7, [0x4F6]); (0x4F9, [0x4F8]); (0x4FB, [0x4FA]);
    (0x4FD, [0x4FC]); (0x4FF, [0x4FE]); (0x501, [0x500]); (0x503, [0x502]);
    (0x505, [0x504]); (0x507, [0x506]); (0x509, [0x508]); (0x50B, [0x50A]);
    (0x50D, [0x50C]); (0x50F, [0x50E]); (0x511, [0x510]); (0x513, [0x512]);
    (0x515, [0x514]); (0x517, [0x516]); (0x519, [0x518]); (0x51B, [0x51A]);
    (0x51D, [0x51C]); (0x51F, [0x51E]); (0x521, [0x520]); (0x523, [0x522]);
    (0x525, [0x524]); (0x527, [0x526]); (0x529, [0x528]); (0x52B, [0x52A]);
    (0x52D, [0x52C]); (0x52F, [0x52E]); (0x561, [0x531]); (0x562, [0x532]);
    (0x563, [0x533]); (0x564, [0x534]); (0x565, [0x535]); (0x566, [0x536]);
    (0x567, [0x537]); (0x568, [0x538]); (0x569, [0x539]); (0x56A, [0x53A]);
    (0x56B, [0x53B]); (0x56C, [0x53C]); (0x56D, [0x53D]); (0x56E, [0x53E]);
    (0x56F, [0x53F]); (0x570, [0x540]); (0x571, [0x541]); (0x572, [0x542]);
    (0x573, [0x543]); (0x574, [0x544]); (0x575, [0x545]); (0x576, [0x546]);
    (0x577, [0x547]); (0x578, [0x548]); (0x579, [0x549]); (0x57A, [0x54A]);
    (0x57B, [0x54B]); (0x57C, [0x54C]); (0x57D, [0x54D]); (0x57E, [0x54E]);
    (0x57F, [0x54F]); (0x580, [0x550]); (0x581, [0x551]); (0x582, [0x552]);
    (0x583, [0x553]); (0x584, [0x554]); (0x585, [0x555]); (0x586, [0x556]);
    (0x587, [0x535; 0x552]); (0x10D0, [0x1C90]); (0x10D1, [0x1C91]);
    (0x10D2, [0x1C92]); (0x10D3, [0x1C93]); (0x10D4, [0x1C94]);
    (0x10D5, [0x1C95]); (0x10D6, [0x1C96]); (0x10D7, [0x1C97]);
    (0x10D8, [0x1C98]); (0x10D9, [0x1C99]); (0x10DA, [0x1C9A]);
    (0x10DB, [0x1C9B]); (0x10DC, [0x1C9C]); (0x10DD, [0x1C9D]);
    (0x10DE, [0x1C9E]); (0x10DF, [0x1C9F]); (0x10E0, [0x1CA0]);
    (0x10E1, [0x1CA1]); (0x10E2, [0x1CA2]); (0x10E3, [0x1CA3]);
    (0x10E4, [0x1CA4]); (0x10E5, [0x1CA5]); (0x10E6, [0x1CA6]);
    (0x10E7, [0x1CA7]); (0x10E8, [0x1CA8]); (0x10E9, [0x1CA9]);
    (0x10EA, [0x1CAA]); (0x10EB, [0x1CAB]); (0x10EC, [0x1CAC]);
    (0x10ED, [0x1CAD]); (0x10EE, [0x1CAE]); (0x10EF, [0x1CAF]);
    (0x10F0, [0x1CB0]); (0x10F1, [0x1CB1]); (0x10F2, [0x1CB2]);
    (0x10F3, [0x1CB3]); (0x10F4, [0x1CB4]); (0x10F5, [0x1CB5]);
    (0x10F6, [0x1CB6]); (0x10F7, [0x1CB7]); (0x10F8, [0x1CB8]);
    (0x10F9, [0x1CB9]); (0x10FA, [0x1CBA]); (0x10FD, [0x1CBD]);
    (0x10FE, [0x1CBE]); (0x10FF, [0x1CBF]); (0x13F8, [0x13F0]);
    (0x13F9, [0x13F1]); (0x13FA, [0x13F2]); (0x13FB, [0x13F3]);
    (0x13FC, [0x13F4]); (0x13FD, [0x13F5]); (0x1C80, [0x412]);
    (0x1C81, [0x414]); (0x1C82, [0x41E]); (0x1C83, [0x421]);
    (0x1C84, [0x422]); (0x1C85, [0x422]); (0x1C86, [0x42A]);
    (0x1C87, [0x462]); (0x1C88, [0xA64A]); (0x1D79, [0xA77D]);
    (0x1D7D, [0x2C63]); (0x1D8E, [0xA7C6]); (0x1E01, [0x1E00]);
    (0x1E03, [0x1E02]); (0x1E05, [0x1E04]); (0x1E07, [0x1E06]);
    (0x1E09, [0x1E08]); (0x1E0B, [0x1E0A]); (0x1E0D, [0x1E0C]);
    (0x1E0F, [0x1E0E]); (0x1E11, [0x1E10]); (0x1E13, [0x1E12]);
    (0x1E15, [0x1E14]); (0x1E17, [0x1E16]); (0x1E19, [0x1E18]);
    (0x1E1B, [0x1E1A]); (0x1E1D, [0x1E1C]); (0x1E1F, [0x1E1E]);
    (0x1E21, [0x1E20]); (0x1E23, [0x1E22]); (0x1E25, [0x1E24]);
    (0x1E27, [0x1E26]); (0x1E29, [0x1E28]); (0x1E2B, [0x1E2A]);
    (0x1E2D, [0x1E2C]); (0x1E2F, [0x1E2E]); (0x1E31, [0x1E30]);
    (0x1E33, [0x1E32]); (0x1E35, [0x1E34]); (0x1E37, [0x1E36]);
    (0x1E39, [0x1E38]); (0x1E3B, [0x1E3A]); (0x1E3D, [0x1E3C]);
    (0x1E3F, [0x1E3E]); (0x1E41, [0x1E40]); (0x1E43, [0x1E42]);
    (0x1E45, [0x1E44]); (0x1E47, [0x1E46]); (0x1E49, [0x1E48]);
    (0x1E4B, [0x1E4A]); (0x1E4D, [0x1E4C]); (0x1E4F, [0x1E4E]);
    (0x1E51, [0x1E50]); (0x1E53, [0x1E52]); (0x1E55, [0x1E54]);
    (0x1E57, [0x1E56]); (0x1E59, [0x1E58]); (0x1E5B, [0x1E5A]);
    (0x1E5D, [0x1E5C]); (0x1E5F, [0x1E5E]); (0x1E61, [0x1E60]);
    (0x1E63, [0x1E62]); (0x1E65, [0x1E64]); (0x1E67, [0x1E66]);
    (0x1E69, [0x1E68]); (0x1E6B, [0x1E6A]); (0x1E6D, [0x1E6C]);
    (0x1E6F, [0x1E6E]); (0x1E71, [0x1E70]); (0x1E73, [0x1E72]);
    (0x1E75, [0x1E74]); (0x1E77, [0x1E76]); (0x1E79, [0x1E78]);
    (0x1E7B, [0x1E7A]); (0x1E7D, [0x1E7C]); (0x1E7F, [0x1E7E]);
    (0x1E81, [0x1E80]); (0x1E83, [0x1E82]); (0x1E85, [0x1E84]);
    (0x1E87, [0x1E86]); (0x1E89, [0x1E88]); (0x1E8B, [0x1E8A]);
    (0x1E8D, [0x1E8C]); (0x1E8F, [0x1E8E]); (0x1E91, [0x1E90]);
    (0x1E93, [0x1E92]); (0x1E95, [0x1E94]); (0x1E96, [0x48; 0x331]);
    (0x1E97, [0x54; 0x308]); (0x1E98, [0x57; 0x30A]);
    (0x1E99, [0x59; 0x30A]); (0x1E9A, [0x41; 0x2BE]); (0x1E9B, [0x1E60]);
    (0x1EA1, [0x1EA0]); (0x1EA3, [0x1EA2]); (0x1EA5, [0x1EA4]);
    (0x1EA7, [0x1EA6]); (0x1EA9, [0x1EA8]); (0x1EAB, [0x1EAA]);
    (0x1EAD, [0x1EAC]); (0x1EAF, [0x1EAE]); (0x1EB1, [0x1EB0]);
    (0x1EB3, [0x1EB2]); (0x1EB5, [0x1EB4]); (0x1EB7, [0x1EB6]);
    (0x1EB9, [0x1EB8]); (0x1EBB, [0x1EBA]); (0x1EBD, [0x1EBC]);
    (0x1EBF, [0x1EBE]); (0x1EC1, [0x1EC0]); (0x1EC3, [0x1EC2]);
    (0x1EC5, [0x1EC4]); (0x1EC7, [0x1EC6]); (0x1EC9, [0x1EC8]);
    (0x1ECB, [0x1ECA]); (0x1ECD, [0x1ECC]); (0x1ECF, [0x1ECE]);
    (0x1ED1, [0x1ED0]); (0x1ED3, [0x1ED2]); (0x1ED5, [0x1ED4]);
    (0x1ED7, [0x1ED6]); (0x1ED9, [0x1ED8]); (0x1EDB, [0x1EDA]);
    (0x1EDD, [0x1EDC]); (0x1EDF, [0x1EDE]); (0x1EE1, [0x1EE0]);
    (0x1EE3, [0x1EE2]); (0x1EE5, [0x1EE4]); (0x1EE7, [0x1EE6]);
    (0x1EE9, [0x1EE8]); (0x1EEB, [0x1EEA]); (0x1EED, [0x1EEC]);
    (0x1EEF, [0x1EEE]); (0x1EF1, [0x1EF0]); (0x1EF3, [0x1EF2]);
    (0x1EF5, [0x1EF4]); (0x1EF7, [0x1EF6]); (0x1EF9, [0x1EF8]);
    (0x1EFB, [0x1EFA]); (0x1EFD, [0x1EFC]); (0x1EFF, [0x1EFE]);
    (0x1F00, [0x1F08]); (0x1F01, [0x1F09]); (0x1F02, [0x1F0A]);
    (0x1F03, [0x1F0B]); (0x1F04, [0x1F0C]); (0x1F05, [0x1F0D]);
    (0x1F06, [0x1F0E]); (0x1F07, [0x1F0F]); (0x1F10, [0x1F18]);
    (0x1F11, [0x1F19]); (0x1F12, [0x1F1A]); (0x1F13, [0x1F1B]);
    (0x1F14, [0x1F1C]); (0x1F15, [0x1F1D]); (0x1F20, [0x1F28]);
    (0x1F21, [0x1F29]); (0x1F22, [0x1F2A]); (0x1F23, [0x1F2B]);
    (0x1F24, [0x1F2C]); (0x1F25, [0x1F2D]); (0x1F26, [0x1F2E]);
    (0x1F27, [0x1F2F]); (0x1F30, [0x1F38]); (0x1F31, [0x1F39]);
    (0x1F32, [0x1F3A]); (0x1F33, [0x1F3B]); (0x1F34, [0x1F3C]);
    (0x1F35, [0x1F3D]); (0x1F36, [0x1F3E]); (0x1F37, [0x1F3F]);
    (0x1F40, [0x1F48]); (0x1F41, [0x1F49]); (0x1F42, [0x1F4A]);
    (0x1F43, [0x1F4B]); (0x1F44, [0x1F4C]); (0x1F45, [0x1F4D]);
    (0x1F50, [0x3A5; 0x313]); (0x1F51, [0x1F59]);
    (0x1F52, [0x3A5; 0x313; 0x300]); (0x1F53, [0x1F5B]);
    (0x1F54, [0x3A5; 0x313; 0x301]); (0x1F55, [0x1F5D]);
    (0x1F56, [0x3A5; 0x313; 0x342]); (0x1F57, [0x1F5F]); (0x1F60, [0x1F68]);
    (0x1F61, [0x1F69]); (0x1F62, [0x1F6A]); (0x1F63, [0x1F6B]);
    (0x1F64, [0x1F6C]); (0x1F65, [0x1F6D]); (0x1F66, [0x1F6E]);
    (0x1F67, [0x1F6F]); (0x1F70, [0x1FBA]); (0x1F71, [0x1FBB]);
    (0x1F72, [0x1FC8]); (0x1F73, [0x1FC9]); (0x1F74, [0x1FCA]);
    (0x1F75, [0x1FCB]); (0x1F76, [0x1FDA]); (0x1F77, [0x1FDB]);
    (0x1F78, [0x1FF8]); (0x1F79, [0x1FF9]); (0x1F7A, [0x1FEA]);
    (0x1F7B, [0x1FEB]); (0x1F7C, [0x1FFA]); (0x1F7D, [0x1FFB]);
    (0x1F80, [0x1F08; 0x399]); (0x1F81, [0x1F09; 0x399]);
    (0x1F82, [0x1F0A; 0x399]); (0x1F83, [0x1F0B; 0x399]);
    (0x1F84, [0x1F0C; 0x399]); (0x1F85, [0x1F0D; 0x399]);
    (0x1F86, [0x1F0E; 0x399]); (0x1F87, [0x1F0F; 0x399]);
    (0x1F88, [0x1F08; 0x399]); (0x1F89, [0x1F09; 0x399]);
    (0x1F8A, [0x1F0A; 0x399]); (0x1F8B, [0x1F0B; 0x399]);
    (0x1F8C, [0x1F0C; 0x399]); (0x1F8D, [0x1F0D; 0x399]);
    (0x1F8E, [0x1F0E; 0x399]); (0x1F8F, [0x1F0F; 0x399]);
    (0x1F90, [0x1F28; 0x399]); (0x1F91, [0x1F29; 0x399]);
    (0x1F92, [0x1F2A; 0x399]); (0x1F93, [0x1F2B; 0x399]);
    (0x1F94, [0x1F2C; 0x399]); (0x1F95, [0x1F2D; 0x399]);
    (0x1F96, [0x1F2E; 0x399]); (0x1F97, [0x1F2F; 0x399]);
    (0x1F98, [0x1F28; 0x399]); (0x1F99, [0x1F29; 0x399]);
    (0x1F9A, [0x1F2A; 0x399]); (0x1F9B, [0x1F2B; 0x399]);
    (0x1F9C, [0x1F2C; 0x399]); (0x1F9D, [0x1F2D; 0x399]);
    (0x1F9E, [0x1F2E; 0x399]); (0x1F9F, [0x1F2F; 0x399]);
    (0x1FA0, [0x1F68; 0x399]); (0x1FA1, [0x1F69; 0x399]);
    (0x1FA2, [0x1F6A; 0x399]); (0x1FA3, [0x1F6B; 0x399]);
    (0x1FA4, [0x1F6C; 0x399]); (0x1FA5, [0x1F6D; 0x399]);
    (0x1FA6, [0x1F6E; 0x399]); (0x1FA7, [0x1F6F; 0x399]);
    (0x1FA8, [0x1F68; 0x399]); (0x1FA9, [0x1F69; 0x399]);
    (0x1FAA, [0x1F6A; 0x399]); (0x1FAB, [0x1F6B; 0x399]);
    (0x1FAC, [0x1F6C; 0x399]); (0x1FAD, [0x1F6D; 0x399]);
    (0x1FAE, [0x1F6E; 0x399]); (0x1FAF, [0x1F6F; 0x399]); (0x1FB0, [0x1FB8]);
    (0x1FB1, [0x1FB9]); (0x1FB2, [0x1FBA; 0x399]); (0x1FB3, [0x391; 0x399]);
    (0x1FB4, [0x386; 0x399]); (0x1FB6, [0x391; 0x342]);
    (0x1FB7, [0x391; 0x342; 0x399]); (0x1FBC, [0x391; 0x399]);
    (0x1FBE, [0x399]); (0x1FC2, [0x1FCA; 0x399]); (0x1FC3, [0x397; 0x399]);
    (0x1FC4, [0x389; 0x399]); (0x1FC6, [0x397; 0x342]);
    (0x1FC7, [0x397; 0x342; 0x399]); (0x1FCC, [0x397; 0x399]);
    (0x1FD0, [0x1FD8]); (0x1FD1, [0x1FD9]); (0x1FD2, [0x399; 0x308; 0x300]);
    (0x1FD3, [0x399; 0x308; 0x301]); (0x1FD6, [0x399; 0x342]);
    (0x1FD7, [0x399; 0x308; 0x342]); (0x1FE0, [0x1FE8]); (0x1FE1, [0x1FE9]);
    (0x1FE2, [0x3A5; 0x308; 0x300]); (0x1FE3, [0x3A5; 0x308; 0x301]);
    (0x1FE4, [0x3A1; 0x313]); (0x1FE5, [0x1FEC]); (0x1FE6, [0x3A5; 0x342]);
    (0x1FE7, [0x3A5; 0x308; 0x342]); (0x1FF2, [0x1FFA; 0x399]);
    (0x1FF3, [0x3A9; 0x399]); (0x1FF4, [0x38F; 0x399]);
    (0x1FF6, [0x3A9; 0x342]); (0x1FF7, [0x3A9; 0x342; 0x399]);
    (0x1FFC, [0x3A9; 0x399]); (0x214E, [0x2132]); (0x2170, [0x2160]);
    (0x2171, [0x2161]); (0x2172, [0x2162]); (0x2173, [0x2163]);
    (0x2174, [0x2164]); (0x2175, [0x2165]); (0x2176, [0x2166]);
    (0x2177, [0x2167]); (0x2178, [0x2168]); (0x2179, [0x2169]);
    (0x217A, [0x216A]); (0x217B, [0x216B]); (0x217C, [0x216C]);
    (0x217D, [0x216D]); (0x217E, [0x216E]); (0x217F, [0x216F]);
    (0x2184, [0x2183]); (0x24D0, [0x24B6]); (0x24D1, [0x24B7]);
    (0x24D2, [0x24B8]); (0x24D3, [0x24B9]); (0x24D4, [0x24BA]);
    (0x24D5, [0x24BB]); (0x24D6, [0x24BC]); (0x24D7, [0x24BD]);
    (0x24D8, [0x24BE]); (0x24D9, [0x24BF]); (0x24DA, [0x24C0]);
    (0x24DB, [0x24C1]); (0x24DC, [0x24C2]); (0x24DD, [0x24C3]);
    (0x24DE, [0x24C4]); (0x24DF, [0x24C5]); (0x24E0, [0x24C6]);
    (0x24E1, [0x24C7]); (0x24E2, [0x24C8]); (0x24E3, [0x24C9]);
    (0x24E4, [0x24CA]); (0x24E5, [0x24CB]); (0x24E6, [0x24CC]);
    (0x24E7, [0x24CD]); (0x24E8, [0x24CE]); (0x24E9, [0x24CF]);
    (0x2C30, [0x2C00]); (0x2C31, [0x2C01]); (0x2C32, [0x2C02]);
    (0x2C33, [0x2C03]); (0x2C34, [0x2C04]); (0x2C35, [0x2C05]);
    (0x2C36, [0x2C06]); (0x2C37, [0x2C07]); (0x2C38, [0x2C08]);
    (0x2C39, [0x2C09]); (0x2C3A, [0x2C0A]); (0x2C3B, [0x2C0B]);
    (0x2C3C, [0x2C0C]); (0x2C3D, [0x2C0D]); (0x2C3E, [0x2C0E]);
    (0x2C3F, [0x2C0F]); (0x2C40, [0x2C10]); (0x2C41, [0x2C11]);
    (0x2C42, [0x2C12]); (0x2C43, [0x2C13]); (0x2C44, [0x2C14]);
    (0x2C45, [0x2C15]); (0x2C46, [0x2C16]); (0x2C47, [0x2C17]);
    (0x2C48, [0x2C18]); (0x2C49, [0x2C19]); (0x2C4A, [0x2C1A]);
    (0x2C4B, [0x2C1B]); (0x2C4C, [0x2C1C]); (0x2C4D, [0x2C1D]);
    (0x2C4E, [0x2C1E]); (0x2C4F, [0x2C1F]); (0x2C50, [0x2C20]);
    (0x2C51, [0x2C21]); (0x2C52, [0x2C22]); (0x2C53, [0x2C23]);
    (0x2C54, [0x2C24]); (0x2C55, [0x2C25]); (0x2C56, [0x2C26]);
    (0x2C57, [0x2C27]); (0x2C58, [0x2C28]); (0x2C59, [0x2C29]);
    (0x2C5A, [0x2C2A]); (0x2C5B, [0x2C2B]); (0x2C5C, [0x2C2C]);
    (0x2C5D, [0x2C2D]); (0x2C5E, [0x2C2E]); (0x2C5F, [0x2C2F]);
    (0x2C61, [0x2C60]); (0x2C65, [0x23A]); (0x2C66, [0x23E]);
    (0x2C68, [0x2C67]); (0x2C6A, [0x2C69]); (0x2C6C, [0x2C6B]);
    (0x2C73, [0x2C72]); (0x2C76, [0x2C75]); (0x2C81, [0x2C80]);
    (0x2C83, [0x2C82]); (0x2C85, [0x2C84]); (0x2C87, [0x2C86]);
    (0x2C89, [0x2C88]); (0x2C8B, [0x2C8A]); (0x2C8D, [0x2C8C]);
    (0x2C8F, [0x2C8E]); (0x2C91, [0x2C90]); (0x2C93, [0x2C92]);
    (0x2C95, [0x2C94]); (0x2C97, [0x2C96]); (0x2C99, [0x2C98]);
    (0x2C9B, [0x2C9A]); (0x2C9D, [0x2C9C]); (0x2C9F, [0x2C9E]);
    (0x2CA1, [0x2CA0]); (0x2CA3, [0x2CA2]); (0x2CA5, [0x2CA4]);
    (0x2CA7, [0x2CA6]); (0x2CA9, [0x2CA8]); (0x2CAB, [0x2CAA]);
    (0x2CAD, [0x2CAC]); (0x2CAF, [0x2CAE]); (0x2CB1, [0x2CB0]);
    (0x2CB3, [0x2CB2]); (0x2CB5, [0x2CB4]); (0x2CB7, [0x2CB6]);
    (0x2CB9, [0x2CB8]); (0x2CBB, [0x2CBA]); (0x2CBD, [0x2CBC]);
    (0x2CBF, [0x2CBE]); (0x2CC1, [0x2CC0]); (0x2CC3, [0x2CC2]);
    (0x2CC5, [0x2CC4]); (0x2CC7, [0x2CC6]); (0x2CC9, [0x2CC8]);
    (0x2CCB, [0x2CCA]); (0x2CCD, [0x2CCC]); (0x2CCF, [0x2CCE]);
    (0x2CD1, [0x2CD0]); (0x2CD3, [0x2CD2]); (0x2CD5, [0x2CD4]);
    (0x2CD7, [0x2CD6]); (0x2CD9, [0x2CD8]); (0x2CDB, [0x2CDA]);
    (0x2CDD, [0x2CDC]); (0x2CDF, [0x2CDE]); (0x2CE1, [0x2CE0]);
    (0x2CE3, [0x2CE2]); (0x2CEC, [0x2CEB]); (0x2CEE, [0x2CED]);
    (0x2CF3, [0x2CF2]); (0x2D00, [0x10A0]); (0x2D01, [0x10A1]);
    (0x2D02, [0x10A2]); (0x2D03, [0x10A3]); (0x2D04, [0x10A4]);
    (0x2D05, [0x10A5]); (0x2D06, [0x10A6]); (0x2D07, [0x10A7]);
    (0x2D08, [0x10A8]); (0x2D09, [0x10A9]); (0x2D0A, [0x10AA]);
    (0x2D0B, [0x10AB]); (0x2D0C, [0x10AC]); (0x2D0D, [0x10AD]);
    (0x2D0E, [0x10AE]); (0x2D0F, [0x10AF]); (0x2D10, [0x10B0]);
    (0x2D11, [0x10B1]); (0x2D12, [0x10B2]); (0x2D13, [0x10B3]);
    (0x2D14, [0x10B4]); (0x2D15, [0x10B5]); (0x2D16, [0x10B6]);
    (0x2D17, [0x10B7]); (0x2D18, [0x10B8]); (0x2D19, [0x10B9]);
    (0x2D1A, [0x10BA]); (0x2D1B, [0x10BB]); (0x2D1C, [0x10BC]);
    (0x2D1D, [0x10BD]); (0x2D1E, [0x10BE]); (0x2D1F, [0x10BF]);
    (0x2D20, [0x10C0]); (0x2D21, [0x10C1]); (0x2D22, [0x10C2]);
    (0x2D23, [0x10C3]); (0x2D24, [0x10C4]); (0x2D25, [0x10C5]);
    (0x2D27, [0x10C7]); (0x2D2D, [0x10CD]); (0xA641, [0xA640]);
    (0xA643, [0xA642]); (0xA645, [0xA644]); (0xA647, [0xA646]);
    (0xA649, [0xA648]); (0xA64B, [0xA64A]); (0xA64D, [0xA64C]);
    (0xA64F, [0xA64E]); (0xA651, [0xA650]); (0xA653, [0xA652]);
    (0xA655, [0xA654]); (0xA657, [0xA656]); (0xA659, [0xA658]);
    (0xA65B, [0xA65A]); (0xA65D, [0xA65C]); (0xA65F, [0xA65E]);
    (0xA661, [0xA660]); (0xA663, [0xA662]); (0xA665, [0xA664]);
    (0xA667, [0xA666]); (0xA669, [0xA668]); (0xA66B, [0xA66A]);
    (0xA66D, [0xA66C]); (0xA681, [0xA680]); (0xA683, [0xA682]);
    (0xA685, [0xA684]); (0xA687, [0xA686]); (0xA689, [0xA688]);
    (0xA68B, [0xA68A]); (0xA68D, [0xA68C]); (0xA68F, [0xA68E]);
    (0xA691, [0xA690]); (0xA693, [0xA692]); (0xA695, [0xA694]);
    (0xA697, [0xA696]); (0xA699, [0xA698]); (0xA69B, [0xA69A]);
    (0xA723, [0xA722]); (0xA725, [0xA724]); (0xA727, [0xA726]);
    (0xA729, [0xA728]); (0xA72B, [0xA72A]); (0xA72D, [0xA72C]);
    (0xA72F, [0xA72E]); (0xA733, [0xA732]); (0xA735, [0xA734]);
    (0xA737, [0xA736]); (0xA739, [0xA738]); (0xA73B, [0xA73A]);
    (0xA73D, [0xA73C]); (0xA73F, [0xA73E]); (0xA741, [0xA740]);
    (0xA743, [0xA742]); (0xA745, [0xA744]); (0xA747, [0xA746]);
    (0xA749, [0xA748]); (0xA74B, [0xA74A]); (0xA74D, [0xA74C]);
    (0xA74F, [0xA74E]); (0xA751, [0xA750]); (0xA753, [0xA752]);
    (0xA755, [0xA754]); (0xA757, [0xA756]); (0xA759, [0xA758]);
    (0xA75B, [0xA75A]); (0xA75D, [0xA75C]); (0xA75F, [0xA75E]);
    (0xA761, [0xA760]); (0xA763, [0xA762]); (0xA765, [0xA764]);
    (0xA767, [0xA766]); (0xA769, [0xA768]); (0xA76B, [0xA76A]);
    (0xA76D, [0xA76C]); (0xA76F, [0xA76E]); (0xA77A, [0xA779]);
    (0xA77C, [0xA77B]); (0xA77F, [0xA77E]); (0xA781, [0xA780]);
    (0xA783, [0xA782]); (0xA785, [0xA784]); (0xA787, [0xA786]);
    (0xA78C, [0xA78B]); (0xA791, [0xA790]); (0xA793, [0xA792]);
    (0xA794, [0xA7C4]); (0xA797, [0xA796]); (0xA799, [0xA798]);
    (0xA79B, [0xA79A]); (0xA79D, [0xA79C]); (0xA79F, [0xA79E]);
    (0xA7A1, [0xA7A0]); (0xA7A3, [0xA7A2]); (0xA7A5, [0xA7A4]);
    (0xA7A7, [0xA7A6]); (0xA7A9, [0xA7A8]); (0xA7B5, [0xA7B4]);
    (0xA7B7, [0xA7B6]); (0xA7B9, [0xA7B8]); (0xA7BB, [0xA7BA]);
    (0xA7BD, [0xA7BC]); (0xA7BF, [0xA7BE]); (0xA7C1, [0xA7C0]);
    (0xA7C3, [0xA7C2]); (0xA7C8, [0xA7C7]); (0xA7CA, [0xA7C9]);
    (0xA7D1, [0xA7D0]); (0xA7D7, [0xA7D6]); (0xA7D9, [0xA7D8]);
    (0xA7F6, [0xA7F5]); (0xAB53, [0xA7B3]); (0xAB70, [0x13A0]);
    (0xAB71, [0x13A1]); (0xAB72, [0x13A2]); (0xAB73, [0x13A3]);
    (0xAB74, [0x13A4]); (0xAB75, [0x13A5]); (0xAB76, [0x13A6]);
    (0xAB77, [0x13A7]); (0xAB78, [0x13A8]); (0xAB79, [0x13A9]);
    (0xAB7A, [0x13AA]); (0xAB7B, [0x13AB]); (0xAB7C, [0x13AC]);
    (0xAB7D, [0x13AD]); (0xAB7E, [0x13AE]); (0xAB7F, [0x13AF]);
    (0xAB80, [0x13B0]); (0xAB81, [0x13B1]); (0xAB82, [0x13B2]);
    (0xAB83, [0x13B3]); (0xAB84, [0x13B4]); (0xAB85, [0x13B5]);
    (0xAB86, [0x13B6]); (0xAB87, [0x13B7]); (0xAB88, [0x13B8]);
    (0xAB89, [0x13B9]); (0xAB8A, [0x13BA]); (0xAB8B, [0x13BB]);
    (0xAB8C, [0x13BC]); (0xAB8D, [0x13BD]); (0xAB8E, [0x13BE]);
    (0xAB8F, [0x13BF]); (0xAB90, [0x13C0]); (0xAB91, [0x13C1]);
    (0xAB92, [0x13C2]); (0xAB93, [0x13C3]); (0xAB94, [0x13C4]);
    (0xAB95, [0x13C5]); (0xAB96, [0x13C6]); (0xAB97, [0x13C7]);
    (0xAB98, [0x13C8]); (0xAB99, [0x13C9]); (0xAB9A, [0x13CA]);
    (0xAB9B, [0x13CB]); (0xAB9C, [0x13CC]); (0xAB9D, [0x13CD]);
    (0xAB9E, [0x13CE]); (0xAB9F, [0x13CF]); (0xABA0, [0x13D0]);
    (0xABA1, [0x13D1]); (0xABA2, [0x13D2]); (0xABA3, [0x13D3]);
    (0xABA4, [0x13D4]); (0xABA5, [0x13D5]); (0xABA6, [0x13D6]);
    (0xABA7, [0x13D7]); (0xABA8, [0x13D8]); (0xABA9, [0x13D9]);
    (0xABAA, [0x13DA]); (0xABAB, [0x13DB]); (0xABAC, [0x13DC]);
    (0xABAD, [0x13DD]); (0xABAE, [0x13DE]); (0xABAF, [0x13DF]);
    (0xABB0, [0x13E0]); (0xABB1, [0x13E1]); (0xABB2, [0x13E2]);
    (0xABB3, [0x13E3]); (0xABB4, [0x13E4]); (0xABB5, [0x13E5]);
    (0xABB6, [0x13E6]); (0xABB7, [0x13E7]); (0xABB8, [0x13E8]);
    (0xABB9, [0x13E9]); (0xABBA, [0x13EA]); (0xABBB, [0x13EB]);
    (0xABBC, [0x13EC]); (0xABBD, [0x13ED]); (0xABBE, [0x13EE]);
    (0xABBF, [0x13EF]); (0xFB00, [0x46; 0x46]); (0xFB01, [0x46; 0x49]);
    (0xFB02, [0x46; 0x4C]); (0xFB03, [0x46; 0x46; 0x49]);
    (0xFB04, [0x46; 0x46; 0x4C]); (0xFB05, [0x53; 0x54]);
    (0xFB06, [0x53; 0x54]); (0xFB13, [0x544; 0x546]);
    (0xFB14, [0x544; 0x535]); (0xFB15, [0x544; 0x53B]);
    (0xFB16, [0x54E; 0x546]); (0xFB17, [0x544; 0x53D]); (0xFF41, [0xFF21]);
    (0xFF42, [0xFF22]); (0xFF43, [0xFF23]); (0xFF44, [0xFF24]);
    (0xFF45, [0xFF25]); (0xFF46, [0xFF26]); (0xFF47, [0xFF27]);
    (0xFF48, [0xFF28]); (0xFF49, [0xFF29]); (0xFF4A, [0xFF2A]);
    (0xFF4B, [0xFF2B]); (0xFF4C, [0xFF2C]); (0xFF4D, [0xFF2D]);
    (0xFF4E, [0xFF2E]); (0xFF4F, [0xFF2F]); (0xFF50, [0xFF30]);
    (0xFF51, [0xFF31]); (0xFF52, [0xFF32]); (0xFF53, [0xFF33]);
    (0xFF54, [0xFF34]); (0xFF55, [0xFF35]); (0xFF56, [0xFF36]);
    (0xFF57, [0xFF37]); (0xFF58, [0xFF38]); (0xFF59, [0xFF39]);
    (0xFF5A, [0xFF3A]); (0x10428, [0x10400]); (0x10429, [0x10401]);
    (0x1042A, [0x10402]); (0x1042B, [0x10403]); (0x1042C, [0x10404]);
    (0x1042D, [0x10405]); (0x1042E, [0x10406]); (0x1042F, [0x10407]);
    (0x10430, [0x10408]); (0x10431, [0x10409]); (0x10432, [0x1040A]);
    (0x10433, [0x1040B]); (0x10434, [0x1040C]); (0x10435, [0x1040D]);
    (0x10436, [0x1040E]); (0x10437, [0x1040F]); (0x10438, [0x10410]);
    (0x10439, [0x10411]); (0x1043A, [0x10412]); (0x1043B, [0x10413]);
    (0x1043C, [0x10414]); (0x1043D, [0x10415]); (0x1043E, [0x10416]);
    (0x1043F, [0x10417]); (0x10440, [0x10418]); (0x10441, [0x10419]);
    (0x10442, [0x1041A]); (0x10443, [0x1041B]); (0x10444, [0x1041C]);
    (0x10445, [0x1041D]); (0x10446, [0x1041E]); (0x10447, [0x1041F]);
    (0x10448, [0x10420]); (0x10449, [0x10421]); (0x1044A, [0x10422]);
    (0x1044B, [0x10423]); (0x1044C, [0x10424]); (0x1044D, [0x10425]);
    (0x1044E, [0x10426]); (0x1044F, [0x10427]); (0x104D8, [0x104B0]);
    (0x104D9, [0x104B1]); (0x104DA, [0x104B2]); (0x104DB, [0x104B3]);
    (0x104DC, [0x104B4]); (0x104DD, [0x104B5]); (0x104DE, [0x104B6]);
    (0x104DF, [0x104B7]); (0x104E0, [0x104B8]); (0x104E1, [0x104B9]);
    (0x104E2, [0x104BA]); (0x104E3, [0x104BB]); (0x104E4, [0x104BC]);
    (0x104E5, [0x104BD]); (0x104E6, [0x104BE]); (0x104E7, [0x104BF]);
    (0x104E8, [0x104C0]); (0x104E9, [0x104C1]); (0x104EA, [0x104C2]);
    (0x104EB, [0x104C3]); (0x104EC, [0x104C4]); (0x104ED, [0x104C5]);
    (0x104EE, [0x104C6]); (0x104EF, [0x104C7]); (0x104F0, [0x104C8]);
    (0x104F1, [0x104C9]); (0x104F2, [0x104CA]); (0x104F3, [0x104CB]);
    (0x104F4, [0x104CC]); (0x104F5, [0x104CD]); (0x104F6, [0x104CE]);
    (0x104F7, [0x104CF]); (0x104F8, [0x104D0]); (0x104F9, [0x104D1]);
    (0x104FA, [0x104D2]); (0x104FB, [0x104D3]); (0x10597, [0x10570]);
    (0x10598, [0x10571]); (0x10599, [0x10572]); (0x1059A, [0x10573]);
    (0x1059B, [0x10574]); (0x1059C, [0x10575]); (0x1059D, [0x10576]);
    (0x1059E, [0x10577]); (0x1059F, [0x10578]); (0x105A0, [0x10579]);
    (0x105A1, [0x1057A]); (0x105A3, [0x1057C]); (0x105A4, [0x1057D]);
    (0x105A5, [0x1057E]); (0x105A6, [0x1057F]); (0x105A7, [0x10580]);
    (0x105A8, [0x10581]); (0x105A9, [0x10582]); (0x105AA, [0x10583]);
    (0x105AB, [0x10584]); (0x105AC, [0x10585]); (0x105AD, [0x10586]);
    (0x105AE, [0x10587]); (0x105AF, [0x10588]); (0x105B0, [0x10589]);
    (0x105B1, [0x1058A]); (0x105B3, [0x1058C]); (0x105B4, [0x1058D]);
    (0x105B5, [0x1058E]); (0x105B6, [0x1058F]); (0x105B7, [0x10590]);
    (0x105B8, [0x10591]); (0x105B9, [0x10592]); (0x105BB, [0x10594]);
    (0x105BC, [0x10595]); (0x10CC0, [0x10C80]); (0x10CC1, [0x10C81]);
    (0x10CC2, [0x10C82]); (0x10CC3, [0x10C83]); (0x10CC4, [0x10C84]);
    (0x10CC5, [0x10C85]); (0x10CC6, [0x10C86]); (0x10CC7, [0x10C87]);
    (0x10CC8, [0x10C88]); (0x10CC9, [0x10C89]); (0x10CCA, [0x10C8A]);
    (0x10CCB, [0x10C8B]); (0x10CCC, [0x10C8C]); (0x10CCD, [0x10C8D]);
    (0x10CCE, [0x10C8E]); (0x10CCF, [0x10C8F]); (0x10CD0, [0x10C90]);
    (0x10CD1, [0x10C91]); (0x10CD2, [0x10C92]); (0x10CD3, [0x10C93]);
    (0x10CD4, [0x10C94]); (0x10CD5, [0x10C95]); (0x10CD6, [0x10C96]);
    (0x10CD7, [0x10C97]); (0x10CD8, [0x10C98]); (0x10CD9, [0x10C99]);
    (0x10CDA, [0x10C9A]); (0x10CDB, [0x10C9B]); (0x10CDC, [0x10C9C]);
    (0x10CDD, [0x10C9D]); (0x10CDE, [0x10C9E]); (0x10CDF, [0x10C9F]);
    (0x10CE0, [0x10CA0]); (0x10CE1, [0x10CA1]); (0x10CE2, [0x10CA2]);
    (0x10CE3, [0x10CA3]); (0x10CE4, [0x10CA4]); (0x10CE5, [0x10CA5]);
    (0x10CE6, [0x10CA6]); (0x10CE7, [0x10CA7]); (0x10CE8, [0x10CA8]);
    (0x10CE9, [0x10CA9]); (0x10CEA, [0x10CAA]); (0x10CEB, [0x10CAB]);
    (0x10CEC, [0x10CAC]); (0x10CED, [0x10CAD]); (0x10CEE, [0x10CAE]);
    (0x10CEF, [0x10CAF]); (0x10CF0, [0x10CB0]); (0x10CF1, [0x10CB1]);
    (0x10CF2, [0x10CB2]); (0x118C0, [0x118A0]); (0x118C1, [0x118A1]);
    (0x118C2, [0x118A2]); (0x118C3, [0x118A3]); (0x118C4, [0x118A4]);
    (0x118C5, [0x118A5]); (0x118C6, [0x118A6]); (0x118C7, [0x118A7]);
    (0x118C8, [0x118A8]); (0x118C9, [0x118A9]); (0x118CA, [0x118AA]);
    (0x118CB, [0x118AB]); (0x118CC, [0x118AC]); (0x118CD, [0x118AD]);
    (0x118CE, [0x118AE]); (0x118CF, [0x118AF]); (0x118D0, [0x118B0]);
    (0x118D1, [0x118B1]); (0x118D2, [0x118B2]); (0x118D3, [0x118B3]);
    (0x118D4, [0x118B4]); (0x118D5, [0x118B5]); (0x118D6, [0x118B6]);
    (0x118D7, [0x118B7]); (0x118D8, [0x118B8]); (0x118D9, [0x118B9]);
    (0x118DA, [0x118BA]); (0x118DB, [0x118BB]); (0x118DC, [0x118BC]);
    (0x118DD, [0x118BD]); (0x118DE, [0x118BE]); (0x118DF, [0x118BF]);
    (0x16E60, [0x16E40]); (0x16E61, [0x16E41]); (0x16E62, [0x16E42]);
    (0x16E63, [0x16E43]); (0x16E64, [0x16E44]); (0x16E65, [0x16E45]);
    (0x16E66, [0x16E46]); (0x16E67, [0x16E47]); (0x16E68, [0x16E48]);
    (0x16E69, [0x16E49]); (0x16E6A, [0x16E4A]); (0x16E6B, [0x16E4B]);
    (0x16E6C, [0x16E4C]); (0x16E6D, [0x16E4D]); (0x16E6E, [0x16E4E]);
    (0x16E6F, [0x16E4F]); (0x16E70, [0x16E50]); (0x16E71, [0x16E51]);
    (0x16E72, [0x16E52]); (0x16E73, [0x16E53]); (0x16E74, [0x16E54]);
    (0x16E75, [0x16E55]); (0x16E76, [0x16E56]); (0x16E77, [0x16E57]);
    (0x16E78, [0x16E58]); (0x16E79, [0x16E59]); (0x16E7A, [0x16E5A]);
    (0x16E7B, [0x16E5B]); (0x16E7C, [0x16E5C]); (0x16E7D, [0x16E5D]);
    (0x16E7E, [0x16E5E]); (0x16E7F, [0x16E5F]); (0x1E922, [0x1E900]);
    (0x1E923, [0x1E901]); (0x1E924, [0x1E902]); (0x1E925, [0x1E903]);
    (0x1E926, [0x1E904]); (0x1E927, [0x1E905]); (0x1E928, [0x1E906]);
    (0x1E929, [0x1E907]); (0x1E92A, [0x1E908]); (0x1E92B, [0x1E909]);
    (0x1E92C, [0x1E90A]); (0x1E92D, [0x1E90B]); (0x1E92E, [0x1E90C]);
    (0x1E92F, [0x1E90D]); (0x1E930, [0x1E90E]); (0x1E931, [0x1E90F]);
    (0x1E932, [0x1E910]); (0x1E933, [0x1E911]); (0x1E934, [0x1E912]);
    (0x1E935, [0x1E913]); (0x1E936, [0x1E914]); (0x1E937, [0x1E915]);
    (0x1E938, [0x1E916]); (0x1E939, [0x1E917]); (0x1E93A, [0x1E918]);
    (0x1E93B, [0x1E919]); (0x1E93C, [0x1E91A]); (0x1E93D, [0x1E91B]);
    (0x1E93E, [0x1E91C]); (0x1E93F, [0x1E91D]); (0x1E940, [0x1E91E]);
    (0x1E941, [0x1E91F]); (0x1E942, [0x1E920]); (0x1E943, [0x1E921])
]%N.

Definition upper_case_map : FMapPositive.PositiveMap.t (list N) :=
  Eval vm_compute in
    fold_left (fun m kv => match fst kv with
                           | Npos k => FMapPositive.PositiveMap.add k (snd kv) m
                           | N0 => m
                           end)
      upper_case_mappings (FMapPositive.PositiveMap.empty (list N)).

(** The upper case of a code point; a code point without a mapping, a
    surrogate among them, stays. *)
Definition upper_code_point (c : N) : list N :=
  match c with
  | Npos k => match FMapPositive.PositiveMap.find k upper_case_map with
              | Some l => l
              | None => [c]
              end
  | N0 => [c]
  end.

(** [s.toUpperCase()]. *)
Definition toUpperCase (s : list N) : list N :=
  utf16 (flat_map upper_code_point (code_points s)).

(** The class [\s]: the white space and the line terminators of the
    language. *)
Definition is_space (u : N) : bool :=
  (((0x9 <=? u) && (u <=? 0xD)) || (u =? 0x20) || (u =? 0xA0)
   || (u =? 0x1680) || ((0x2000 <=? u) && (u <=? 0x200A))
   || (u =? 0x2028) || (u =? 0x2029) || (u =? 0x202F) || (u =? 0x205F)
   || (u =? 0x3000) || (u =? 0xFEFF))%N.

(** [s.replace(/\s/g, '')]. *)
Fixpoint remove_spaces (s : list N) : list N :=
  match s with
  | [] => []
  | u :: r => if is_space u then remove_spaces r else u :: remove_spaces r
  end.

(** [s.replace(/\s+/g, '')]. *)
Fixpoint remove_space_runs (s : list N) : list N :=
  match s with
  | [] => []
  | u :: r =>
      if is_space u then
        (fix skip (t : list N) : list N :=
           match t with
           | [] => []
           | v :: w => if is_space v then skip w
                       else v :: remove_space_runs w
           end) r
      else u :: remove_space_runs r
  end.

(** Line 107 and [normalizePlate], on code units. *)
Definition normalizeDetected (plate : list N) : list N :=
  remove_spaces (toUpperCase plate).

Definition normalizePlate (p : option (list N)) : list N :=
  remove_space_runs (toUpperCase (match p with
                                  | Some (u :: r) => u :: r
                                  | _ => []
                                  end)).

(** The code units of a string of ASCII bytes. *)
Fixpoint of_ascii (s : string) : list N :=
  match s with
  | EmptyString => []
  | String c r => N_of_ascii c :: of_ascii r
  end.

(** The small letter long I of the Deseret alphabet, U+10428, with a space
    between its two code units. *)
Definition split_pair : list N := [0xD801; 0x20; 0xDC28]%N.

(** Whether a mapping of the table maps to text that upper-casing leaves
    alone and that has no white space. *)
Definition stable_mapping (kv : positive * list N) : bool :=
  forallb (fun c => is_scalar_value c && negb (is_space c)
                    && match c with
                       | Npos k =>
                           match FMapPositive.PositiveMap.find k upper_case_map with
                           | Some _ => false
                           | None => true
                           end
                       | N0 => true
                       end)
          (snd kv).

End CodeUnits.

(** ** Effects of the other functions *)

(** The computations of the callable function and of the client: what the
    promise settles to, a thrown value of type [E] or a result, and the
    calls of type [C] made, oldest first, each with its success flag. *)
Module Effect.

Definition t (C E A : Type) : Type := (E + A) * list (C * bool).

Definition pure {C E A} (a : A) : t C E A := (inr a, []).

Definition raise {C E A} (e : E) : t C E A := (inl e, []).

Definition bind {C E A B} (m : t C E A) (k : A -> t C E B) : t C E B :=
  match m with
  | (inl e, l) => (inl e, l)
  | (inr a, l) => let (r, l') := k a in (r, (l ++ l')%list)
  end.

(** [try { m } catch (error) { h error }]; the handler may throw values
    of another type. *)
Definition catch {C E E' A} (m : t C E A) (h : E -> t C E' A) : t C E' A :=
  match m with
  | (inl e, l) => let (r, l') := h e in (r, (l ++ l')%list)
  | (inr a, l) => (inr a, l)
  end.

(** An awaited call that resolves to a value or throws an [Error]. *)
Definition call {C E A} (c : C) (wrap : Error -> E) (answer : Error + A)
  : t C E A :=
  match answer with
  | inl e => (inl (wrap e), [(c, false)])
  | inr a => (inr a, [(c, true)])
  end.

(** An awaited call whose value is not used. *)
Definition call_ {C E} (c : C) (wrap : Error -> E) (answer : option Error)
  : t C E unit :=
  match answer with
  | Some e => (inl (wrap e), [(c, false)])
  | None => (inr tt, [(c, true)])
  end.

(** A call that cannot throw. *)
Definition show {C E} (c : C) : t C E unit := (inr tt, [(c, true)]).

Definition outcome {C E A} (run : t C E A) : E + A := fst run.
Definition trace {C E A} (run : t C E A) : list (C * bool) := snd run.

End Effect.

Declare Scope effect_scope.
Delimit Scope effect_scope with effect.
Notation "x <- m ;; k" := (Effect.bind m (fun x => k))
  (at level 100, m at next level, right associativity) : effect_scope.
Notation "m ;;; k" := (Effect.bind m (fun _ => k))
  (at level 100, right associativity) : effect_scope.

(** ** The callable function [manageChargerSubscription] *)

Module Callable.

(** [new HttpsError(code, message)]. *)
Record HttpsError := {
  code : string;
  https_message : string
}.

(** What the [try] block of the function may throw: the error of a call,
    or the [HttpsError] the block throws itself. *)
Inductive Thrown :=
| ThrownError (e : Error)
| ThrownHttps (h : HttpsError).

(** [error.message]. *)
Definition thrown_message (x : Thrown) : string :=
  match x with
  | ThrownError e => message e
  | ThrownHttps h => https_message h
  end.

(** [request.auth]. *)
Record Auth := { uid : string }.

(** The object [request.data]. *)
Record RequestData := {
  data_token : option string;
  data_action : option string
}.

(** A request; its [data] is [null] when the caller sent none. *)
Record Request := {
  auth : option Auth;
  request_data : option RequestData
}.

(** The token and the action of a request, [undefined] when it has
    none. *)
Definition token (d : option RequestData) : option string :=
  match d with
  | Some o => data_token o
  | None => None
  end.

Definition action (d : option RequestData) : option string :=
  match d with
  | Some o => data_action o
  | None => None
  end.

(** What the promise of the function rejects with: an [HttpsError], or the
    [TypeError] of the destructuring of line 232, which stands before the
    [try] and throws when [request.data] is [null]. *)
Inductive Rejection :=
| Https (h : HttpsError)
| TypeError.

(** The document [set] on [subscriptions/{uid}] with [{ merge: true }]. *)
Record Subscription := {
  subscription_userId : string;
  subscription_topic : string;
  subscription_token : string;
  subscription_subscribedAt : FieldValue;
  subscription_active : bool
}.

(** The fields of the [update] of [subscriptions/{uid}]. *)
Record Unsubscription := {
  unsubscription_active : bool;
  unsubscription_unsubscribedAt : FieldValue
}.

(** What the function returns. *)
Record Result := {
  result_status : string;
  result_message : string;
  result_topic : string
}.

(** The awaited calls of the function. *)
Inductive AdminCall :=
| subscribeToTopic (registrationToken topicName : string)
| unsubscribeFromTopic (registrationToken topicName : string)
| subscriptions_set (docId : string) (doc : Subscription)
| subscriptions_update (docId : string) (fields : Unsubscription).

(** How the push service and the document store answer. *)
Record Admin := {
  messaging_subscribeToTopic : string -> string -> option Error;
  messaging_unsubscribeFromTopic : string -> string -> option Error;
  doc_set : string -> Subscription -> option Error;
  doc_update : string -> Unsubscription -> option Error
}.

Local Open Scope effect_scope.

(** [manageChargerSubscription] ([functions/index.js], lines 225-283). *)
Definition manageChargerSubscription (admin : Admin) (request : Request)
  : Effect.t AdminCall Rejection Result :=
  match auth request with
  | None =>
      Effect.raise (Https {| code := "unauthenticated";
                             https_message :=
                               "Must be logged in to change settings." |})
  | Some a =>
    match request_data request with
    | None => Effect.raise TypeError
    | Some data =>
      match data_token data, data_action data with
      | Some (String c0 r0), Some (String c1 r1) =>
          let token := String c0 r0 in
          let action := String c1 r1 in
          let topic := "charger_alerts" in
          Effect.catch
            (if action =? "subscribe" then
               Effect.call_ (subscribeToTopic token topic) ThrownError
                 (messaging_subscribeToTopic admin token topic) ;;;
               Effect.call_
                 (subscriptions_set (uid a)
                    {| subscription_userId := uid a;
                       subscription_topic := topic;
                       subscription_token := token;
                       subscription_subscribedAt := serverTimestamp;
                       subscription_active := true |})
                 ThrownError
                 (doc_set admin (uid a)
                    {| subscription_userId := uid a;
                       subscription_topic := topic;
                       subscription_token := token;
                       subscription_subscribedAt := serverTimestamp;
                       subscription_active := true |}) ;;;
               Effect.pure {| result_status := "success";
                              result_message :=
                                "Subscribed to charger alerts";
                              result_topic := topic |}
             else if action =? "unsubscribe" then
               Effect.call_ (unsubscribeFromTopic token topic) ThrownError
                 (messaging_unsubscribeFromTopic admin token topic) ;;;
               Effect.call_
                 (subscriptions_update (uid a)
                    {| unsubscription_active := false;
                       unsubscription_unsubscribedAt := serverTimestamp |})
                 ThrownError
                 (doc_update admin (uid a)
                    {| unsubscription_active := false;
                       unsubscription_unsubscribedAt := serverTimestamp |}) ;;;
               Effect.pure {| result_status := "success";
                              result_message := "Unsubscribed from alerts";
                              result_topic := topic |}
             else
               Effect.raise
                 (ThrownHttps
                    {| code := "invalid-argument";
                       https_message :=
                         "Action must be 'subscribe' or 'unsubscribe'" |}))
            (fun error =>
               Effect.raise (Https {| code := "internal";
                                      https_message :=
                                        thrown_message error |}))
      | _, _ =>
          Effect.raise (Https {| code := "invalid-argument";
                                 https_message :=
                                   "Missing token or action" |})
      end
    end
  end.

(** The documents of the two branches and the errors of the function. *)
Definition topic_name : string := "charger_alerts".

Definition subscription_of (a : Auth) (tk : string) : Subscription :=
  {| subscription_userId := uid a;
     subscription_topic := topic_name;
     subscription_token := tk;
     subscription_subscribedAt := serverTimestamp;
     subscription_active := true |}.

Definition unsubscription : Unsubscription :=
  {| unsubscription_active := false;
     unsubscription_unsubscribedAt := serverTimestamp |}.

Definition internal (e : string) : Rejection :=
  Https {| code := "internal"; https_message := e |}.

(** The runs of the function, by the place where it ends. *)
Inductive run_of (admin : Admin) (request : Request)
  : Effect.t AdminCall Rejection Result -> Prop :=
| unauthenticated :
    auth request = None ->
    run_of admin request
      (inl (Https {| code := "unauthenticated";
                     https_message :=
                       "Must be logged in to change settings." |}),
       [])
| missing_argument a :
    auth request = Some a ->
    JS.truthy (token (request_data request)) = false
    \/ JS.truthy (action (request_data request)) = false ->
    request_data request <> None ->
    run_of admin request
      (inl (Https {| code := "invalid-argument";
                     https_message := "Missing token or action" |}), [])
| unknown_action a tk act :
    auth request = Some a ->
    token (request_data request) = Some tk -> JS.truthy (Some tk) = true ->
    action (request_data request) = Some act -> JS.truthy (Some act) = true ->
    act <> "subscribe" -> act <> "unsubscribe" ->
    run_of admin request
      (inl (internal "Action must be 'subscribe' or 'unsubscribe'"), [])
| subscribe_rejected a tk e :
    auth request = Some a ->
    token (request_data request) = Some tk -> JS.truthy (Some tk) = true ->
    action (request_data request) = Some "subscribe" ->
    messaging_subscribeToTopic admin tk topic_name = Some e ->
    run_of admin request
      (inl (internal (message e)), [(subscribeToTopic tk topic_name, false)])
| subscribe_unrecorded a tk e :
    auth request = Some a ->
    token (request_data request) = Some tk -> JS.truthy (Some tk) = true ->
    action (request_data request) = Some "subscribe" ->
    messaging_subscribeToTopic admin tk topic_name = None ->
    doc_set admin (uid a) (subscription_of a tk) = Some e ->
    run_of admin request
      (inl (internal (message e)),
       [(subscribeToTopic tk topic_name, true);
        (subscriptions_set (uid a) (subscription_of a tk), false)])
| subscribed a tk :
    auth request = Some a ->
    token (request_data request) = Some tk -> JS.truthy (Some tk) = true ->
    action (request_data request) = Some "subscribe" ->
    messaging_subscribeToTopic admin tk topic_name = None ->
    doc_set admin (uid a) (subscription_of a tk) = None ->
    run_of admin request
      (inr {| result_status := "success";
              result_message := "Subscribed to charger alerts";
              result_topic := topic_name |},
       [(subscribeToTopic tk topic_name, true);
        (subscriptions_set (uid a) (subscription_of a tk), true)])
| unsubscribe_rejected a tk e :
    auth request = Some a ->
    token (request_data request) = Some tk -> JS.truthy (Some tk) = true ->
    action (request_data request) = Some "unsubscribe" ->
    messaging_unsubscribeFromTopic admin tk topic_name = Some e ->
    run_of admin request
      (inl (internal (message e)),
       [(unsubscribeFromTopic tk topic_name, false)])
| unsubscribe_unrecorded a tk e :
    auth request = Some a ->
    token (request_data request) = Some tk -> JS.truthy (Some tk) = true ->
    action (request_data request) = Some "unsubscribe" ->
    messaging_unsubscribeFromTopic admin tk topic_name = None ->
    doc_update admin (uid a) unsubscription = Some e ->
    run_of admin request
      (inl (internal (message e)),
       [(unsubscribeFromTopic tk topic_name, true);
        (subscriptions_update (uid a) unsubscription, false)])
| unsubscribed a tk :
    auth request = Some a ->
    token (request_data request) = Some tk -> JS.truthy (Some tk) = true ->
    action (request_data request) = Some "unsubscribe" ->
    messaging_unsubscribeFromTopic admin tk topic_name = None ->
    doc_update admin (uid a) unsubscription = None ->
    run_of admin request
      (inr {| result_status := "success";
              result_message := "Unsubscribed from alerts";
              result_topic := topic_name |},
       [(unsubscribeFromTopic tk topic_name, true);
        (subscriptions_update (uid a) unsubscription, true)])
| missing_data a :
    auth request = Some a ->
    request_data request = None ->
    run_of admin request (inl TypeError, []).

(** The topic operations of a trace, and its writes to [subscriptions]. *)
Definition is_topic_call (c : AdminCall) : bool :=
  match c with
  | subscribeToTopic _ _ | unsubscribeFromTopic _ _ => true
  | _ => false
  end.

Definition is_store_call (c : AdminCall) : bool :=
  match c with
  | subscriptions_set _ _ | subscriptions_update _ _ => true
  | _ => false
  end.

(** Answers of sample collaborators. *)
Definition accepting : Admin :=
  {| messaging_subscribeToTopic := fun _ _ => None;
     messaging_unsubscribeFromTopic := fun _ _ => None;
     doc_set := fun _ _ => None;
     doc_update := fun _ _ => None |}.

(** The push service rejects every topic operation. *)
Definition rejecting : Admin :=
  {| messaging_subscribeToTopic := fun _ _ =>
       Some {| message := "messaging/invalid-registration-token";
               response := None |};
     messaging_unsubscribeFromTopic := fun _ _ =>
       Some {| message := "messaging/invalid-registration-token";
               response := None |};
     doc_set := fun _ _ => None;
     doc_update := fun _ _ => None |}.

(** The document of the user does not exist: [update] throws. *)
Definition without_document : Admin :=
  {| messaging_subscribeToTopic := fun _ _ => None;
     messaging_unsubscribeFromTopic := fun _ _ => None;
     doc_set := fun _ _ => None;
     doc_update := fun _ _ =>
       Some {| message := "5 NOT_FOUND: No document to update";
               response := None |} |}.

Definition request_of (a : string) : Request :=
  {| auth := Some {| uid := "U1" |};
     request_data := Some {| data_token := Some "tok";
                             data_action := Some a |} |}.

(** A call of a signed-in user that carries no data. *)
Definition request_without_data : Request :=
  {| auth := Some {| uid := "U1" |}; request_data := None |}.

End Callable.

(** ** The client ([src/App.js]) *)

Module Client.

(** The signed-in user of the component state. *)
Record User := { user_uid : string }.

(** A [Blob] or [File]: its media type and its size in bytes. *)
Record Blob := {
  blob_type : option string;
  blob_size : Z
}.

(** A document the client adds to [chargerUsage]; [imageUrl] is set by
    [createChargerUsageWithImage] only. *)
Record ChargerUsage := {
  usage_chargerId : string;
  usage_plate : string;
  usage_userId : string;
  usage_status : string;
  usage_imageUrl : option string;
  usage_createdAt : FieldValue
}.

(** What the trigger reads of such a document: [data.imageUrl],
    [data.chargerId], [data.location] and [data.reportedBy]. *)
Definition usage_report (doc : ChargerUsage) : UsageReport :=
  {| imageUrl := usage_imageUrl doc;
     chargerId := Some (usage_chargerId doc);
     location := None;
     reportedBy := None |}.

(** The calls of the handlers. *)
Inductive ClientCall :=
| alert (text : string)
| setDoc_userPlates (docId : string) (doc : OwnerRecord)
| addDoc_chargerUsage (doc : ChargerUsage)
| uploadBytes (path : string) (blob : Blob) (contentType : string)
| Camera_getPhoto
| fetch (dataUrl : string)
| res_blob.

(** The environment of the handlers: [storage.app.options.storageBucket],
    [Date.now()], and how the services answer.  [fetch] resolves to a
    response, whose [blob()] resolves to a blob. *)
Record Browser := {
  storageBucket : string;
  Date_now : number;
  firestore_setDoc : string -> OwnerRecord -> option Error;
  firestore_addDoc : ChargerUsage -> option Error;
  storage_uploadBytes : string -> Blob -> string -> option Error;
  camera_getPhoto : Error + string;
  window_fetch : string -> Error + (Error + Blob)
}.

Local Open Scope effect_scope.

Section Handlers.

Variable browser : Browser.

(** The component state: [user] and [plate]. *)
Variable user : option User.
Variable plate : string.

Definition Handler (A : Type) : Type := Effect.t ClientCall Error A.

Definition id_error (e : Error) : Error := e.

(** [savePlate]. *)
Definition savePlate : Handler unit :=
  match user with
  | None => Effect.pure tt
  | Some u =>
      let normalized := normalizePlate (Some plate) in
      if negb (JS.truthy (Some normalized)) then
        Effect.show (alert "Please enter a license plate.")
      else
        Effect.catch
          (Effect.call_
             (setDoc_userPlates (user_uid u)
                {| owner_plate := normalized; userId := user_uid u |})
             id_error
             (firestore_setDoc browser (user_uid u)
                {| owner_plate := normalized; userId := user_uid u |}) ;;;
           Effect.show (alert "License plate saved!"))
          (fun error => Effect.show (alert (message error)))
  end.

(** [occupyCharger]. *)
Definition occupyCharger (chargerId : string) : Handler unit :=
  match user with
  | None => Effect.pure tt
  | Some u =>
      let normalized := normalizePlate (Some plate) in
      if negb (JS.truthy (Some normalized)) then
        Effect.show (alert "Enter your plate first (saved or typed).")
      else
        Effect.catch
          (Effect.call_
             (addDoc_chargerUsage
                {| usage_chargerId := chargerId;
                   usage_plate := normalized;
                   usage_userId := user_uid u;
                   usage_status := "occupied";
                   usage_imageUrl := None;
                   usage_createdAt := serverTimestamp |})
             id_error
             (firestore_addDoc browser
                {| usage_chargerId := chargerId;
                   usage_plate := normalized;
                   usage_userId := user_uid u;
                   usage_status := "occupied";
                   usage_imageUrl := None;
                   usage_createdAt := serverTimestamp |}) ;;;
           Effect.show (alert "Marked charger as occupied!"))
          (fun error => Effect.show (alert (message error)))
  end.

(** [blobFromDataUrl]. *)
Definition blobFromDataUrl (dataUrl : string) : Handler Blob :=
  res <- Effect.call (fetch dataUrl) id_error (window_fetch browser dataUrl) ;;
  Effect.call res_blob id_error res.

(** [uploadToStorageAndGetGsUrl]. *)
Definition uploadToStorageAndGetGsUrl (blob : Blob) (uid : string)
  : Handler string :=
  let bucket := storageBucket browser in
  let filename := "chargerUploads/" ++ uid ++ "/"
                  ++ toString (Date_now browser) ++ ".jpg" in
  Effect.call_
    (uploadBytes filename blob (JS.or_else (blob_type blob) "image/jpeg"))
    id_error
    (storage_uploadBytes browser filename blob
       (JS.or_else (blob_type blob) "image/jpeg")) ;;;
  Effect.pure ("gs://" ++ bucket ++ "/" ++ filename).

(** [createChargerUsageWithImage]; it has no [try] of its own. *)
Definition createChargerUsageWithImage (chargerId imageUrl : string)
  : Handler unit :=
  match user with
  | None => Effect.pure tt
  | Some u =>
      let normalized := normalizePlate (Some plate) in
      if negb (JS.truthy (Some normalized)) then
        Effect.show (alert "Enter your plate first (saved or typed).")
      else
        Effect.call_
          (addDoc_chargerUsage
             {| usage_chargerId := chargerId;
                usage_plate := normalized;
                usage_userId := user_uid u;
                usage_status := "occupied";
                usage_imageUrl := Some imageUrl;
                usage_createdAt := serverTimestamp |})
          id_error
          (firestore_addDoc browser
             {| usage_chargerId := chargerId;
                usage_plate := normalized;
                usage_userId := user_uid u;
                usage_status := "occupied";
                usage_imageUrl := Some imageUrl;
                usage_createdAt := serverTimestamp |})
  end.

(** [takePhotoForCharger]. *)
Definition takePhotoForCharger (chargerId : string) : Handler unit :=
  Effect.catch
    (match user with
     | None => Effect.pure tt
     | Some u =>
         dataUrl <- Effect.call Camera_getPhoto id_error
                      (camera_getPhoto browser) ;;
         blob <- blobFromDataUrl dataUrl ;;
         gsUrl <- uploadToStorageAndGetGsUrl blob (user_uid u) ;;
         createChargerUsageWithImage chargerId gsUrl ;;;
         Effect.show (alert "Photo uploaded and report created!")
     end)
    (fun e =>
       Effect.show
         (alert "Photo capture failed (did you deny camera permission?)."))
    .

(** [uploadFileForCharger]; [file] is [e.target.files?.[0]]. *)
Definition uploadFileForCharger (chargerId : string) (file : option Blob)
  : Handler unit :=
  Effect.catch
    (match user with
     | None => Effect.pure tt
     | Some u =>
         match file with
         | None => Effect.pure tt
         | Some f =>
             if negb (match blob_type f with
                      | Some t => JS.startsWith t "image/"
                      | None => false
                      end) then
               Effect.show (alert "Please choose an image.")
             else if (blob_size f >? 8 * 1024 * 1024)%Z then
               Effect.show
                 (alert "Image too large. Please use one under 8MB.")
             else
               gsUrl <- uploadToStorageAndGetGsUrl f (user_uid u) ;;
               createChargerUsageWithImage chargerId gsUrl ;;;
               Effect.show (alert "Image uploaded and report created!")
         end
     end)
    (fun e => Effect.show (alert "Upload failed.")).

End Handlers.

(** A browser whose services accept every call, with the bucket of
    [src/firebase.js]. *)
Definition sample_browser : Browser :=
  {| storageBucket := "ev-alert-web.firebasestorage.app";
     Date_now := Number "1700000000000";
     firestore_setDoc := fun _ _ => None;
     firestore_addDoc := fun _ => None;
     storage_uploadBytes := fun _ _ _ => None;
     camera_getPhoto := inr "data:image/jpeg;base64,AAAA";
     window_fetch := fun _ =>
       inr (inr {| blob_type := Some "image/jpeg"; blob_size := 4 |}) |}.

(** A browser whose document store is out of reach. *)
Definition offline_browser : Browser :=
  {| storageBucket := "ev-alert-web.firebasestorage.app";
     Date_now := Number "1700000000000";
     firestore_setDoc := fun _ _ =>
       Some {| message := "Failed to get document because the client is offline.";
               response := None |};
     firestore_addDoc := fun _ =>
       Some {| message := "Failed to get document because the client is offline.";
               response := None |};
     storage_uploadBytes := fun _ _ _ => None;
     camera_getPhoto := inr "data:image/jpeg;base64,AAAA";
     window_fetch := fun _ =>
       inr (inr {| blob_type := Some "image/jpeg"; blob_size := 4 |}) |}.

Definition sample_user : User := {| user_uid := "U1" |}.

Definition sample_file : Blob :=
  {| blob_type := Some "image/png"; blob_size := 8388608 |}.

End Client.

(** ** Web push ([src/firebase.js], [src/push/web.js], [src/App.js]) *)

Module WebPush.

(** The calls of the web-push set-up. *)
Inductive PushCall :=
| isSupported
| getToken (vapidKey : string)
| onMessage
| setDoc_userTokens (docId : string) (token : string).

(** [process.env.REACT_APP_FIREBASE_VAPID_KEY] and the answers of the
    messaging SDK and of the document store; [getToken] may resolve to no
    token. *)
Record Page := {
  vapidKey_env : option string;
  messaging_isSupported : Error + bool;
  messaging_getToken : string -> Error + option string;
  firestore_setToken : string -> string -> option Error
}.

Local Open Scope effect_scope.

Section SetUp.

Variable page : Page.

Definition Push (A : Type) : Type := Effect.t PushCall Error A.

(** [getWebMessaging] ([src/firebase.js]): the messaging instance, or
    [null]; the instance itself carries no information. *)
Definition getWebMessaging : Push (option unit) :=
  supported <- Effect.call isSupported Client.id_error
                 (messaging_isSupported page) ;;
  Effect.pure (if supported then Some tt else None).

(** [initWebPush]: the token, or [null]. *)
Definition initWebPush : Push (option string) :=
  messaging <- getWebMessaging ;;
  match messaging with
  | None => Effect.pure None
  | Some _ =>
      match vapidKey_env page with
      | Some (String c r) =>
          let vapidKey := String c r in
          token <- Effect.call (getToken vapidKey) Client.id_error
                     (messaging_getToken page vapidKey) ;;
          Effect.show onMessage ;;;
          Effect.pure token
      | _ => Effect.pure None
      end
  end.

(** [setupWebPush] of the component, run when a user is signed in. *)
Definition setupWebPush (user : option Client.User) : Push unit :=
  match user with
  | None => Effect.pure tt
  | Some u =>
      Effect.catch
        (messaging <- getWebMessaging ;;
         match messaging with
         | None => Effect.pure tt
         | Some _ =>
             match vapidKey_env page with
             | Some (String c r) =>
                 let vapidKey := String c r in
                 token <- Effect.call (getToken vapidKey) Client.id_error
                            (messaging_getToken page vapidKey) ;;
                 match token with
                 | Some (String c' r') =>
                     Effect.call_
                       (setDoc_userTokens (Client.user_uid u)
                          (String c' r'))
                       Client.id_error
                       (firestore_setToken page (Client.user_uid u)
                          (String c' r'))
                 | _ => Effect.pure tt
                 end
             | _ => Effect.pure tt
             end
         end)
        (fun error => Effect.pure tt)
  end.

End SetUp.

(** A page of a browser with web push. *)
Definition sample_page : Page :=
  {| vapidKey_env := Some "BKey";
     messaging_isSupported := inr true;
     messaging_getToken := fun _ => inr (Some "fcm-token");
     firestore_setToken := fun _ _ => None |}.

End WebPush.

(** * Properties *)

(** ** Traces *)

Lemma topic_sends_app t u :
  topic_sends (t ++ u)%list = (topic_sends t ++ topic_sends u)%list.
Proof.
  induction t as [|[c b] t IH]; simpl; [reflexivity|].
  destruct c; simpl; rewrite IH; reflexivity.
Qed.

Lemma registry_reads_app t u :
  registry_reads (t ++ u)%list = (registry_reads t ++ registry_reads u)%list.
Proof.
  induction t as [|[c b] t IH]; simpl; [reflexivity|].
  destruct c; simpl; rewrite IH; reflexivity.
Qed.

Lemma audit_calls_app t u :
  audit_calls (t ++ u)%list = (audit_calls t ++ audit_calls u)%list.
Proof.
  induction t as [|[c b] t IH]; simpl; [reflexivity|].
  destruct c; simpl; rewrite IH; reflexivity.
Qed.

Lemma written_app t u :
  written (t ++ u)%list = (written t ++ written u)%list.
Proof.
  induction t as [|[c b] t IH]; simpl; [reflexivity|].
  destruct c; try destruct b; simpl; rewrite IH; reflexivity.
Qed.

Create Rewrite HintDb trace.
#[local] Hint Rewrite topic_sends_app registry_reads_app audit_calls_app
  written_app : trace.

Lemma storage_only_silent t :
  storage_only t ->
  topic_sends t = [] /\ registry_reads t = [] /\ audit_calls t = []
  /\ written t = [].
Proof.
  induction 1 as [|[c b] t Hc _ IH]; simpl; [auto|].
  destruct c; try discriminate Hc; exact IH.
Qed.

Lemma storage_only_In t ev :
  storage_only t -> In ev t -> is_storage_call ev = true.
Proof.
  unfold storage_only. rewrite Forall_forall. auto.
Qed.

(** A call that is not to the object store and stands in a trace that
    starts with object-store calls only stands behind them. *)
Lemma storage_prefix_split pre l t1 ev t2 :
  storage_only pre -> is_storage_call ev = false ->
  (pre ++ l)%list = (t1 ++ ev :: t2)%list ->
  exists t1', t1 = (pre ++ t1')%list /\ l = (t1' ++ ev :: t2)%list.
Proof.
  intros Hpre Hev. revert t1.
  induction Hpre as [|a pre Ha _ IH]; intros t1 H; simpl in H.
  - exists t1. auto.
  - destruct t1 as [|b t1]; simpl in H; inversion H; subst.
    + congruence.
    + destruct (IH t1 H2) as [t1' [-> ->]]. exists t1'. auto.
Qed.

(** ** Address resolution *)

Section Resolution.

Variable cloud : Services.

Lemma getPublicUrl_storage_only url :
  storage_only (calls (getPublicUrl cloud url)).
Proof.
  unfold getPublicUrl, storage_only.
  destruct (JS.startsWith url "gs://"); simpl; [|constructor].
  destruct (storage_exists cloud _ _) as [e|[|]]; simpl;
    repeat constructor.
  destruct (storage_makePublic cloud _ _); simpl; repeat constructor.
Qed.

Lemma resolve_image_storage_only image :
  storage_only (calls (resolve_image cloud image)).
Proof.
  unfold resolve_image. destruct (JS.startsWith image "gs://").
  - apply getPublicUrl_storage_only.
  - constructor.
Qed.

End Resolution.

Lemma https_is_not_gs rest :
  JS.startsWith ("https://storage.googleapis.com/" ++ rest) "gs://" = false.
Proof. reflexivity. Qed.

Lemma startsWith_append p s : JS.startsWith (p ++ s) p = true.
Proof.
  unfold JS.startsWith. induction p as [|a p IH]; simpl.
  - destruct s; reflexivity.
  - destruct (ascii_dec a a); [exact IH|congruence].
Qed.

(** Whatever [getPublicUrl] resolves to is no [gs://] address. *)
Lemma getPublicUrl_result_public cloud url url' :
  completion (getPublicUrl cloud url) = inr url' ->
  JS.startsWith url' "gs://" = false.
Proof.
  unfold getPublicUrl, completion.
  destruct (JS.startsWith url "gs://") eqn:Hgs; simpl.
  - destruct (storage_exists cloud _ _) as [e|[|]]; simpl;
      try discriminate.
    destruct (storage_makePublic cloud _ _); simpl; try discriminate.
    intros H. inversion H. apply https_is_not_gs.
  - intros H. inversion H. subst. exact Hgs.
Qed.

(** C9: an address that does not start with [gs://] is returned unchanged,
    with no call to the object store; resolution is therefore idempotent:
    what [getPublicUrl] returns for a [gs://] address is an [https://]
    address of the public host, and any address it returns is returned
    unchanged by a second resolution. *)
Theorem getPublicUrl_identity_idempotent (cloud : Services) (url : string) :
  (JS.startsWith url "gs://" = false ->
   getPublicUrl cloud url = (inr url, []))
  /\ (forall url', completion (getPublicUrl cloud url) = inr url' ->
      getPublicUrl cloud url' = (inr url', [])
      /\ (JS.startsWith url "gs://" = true ->
          JS.startsWith url' "https://storage.googleapis.com/" = true)).
Proof.
  split.
  - intros H. unfold getPublicUrl. rewrite H. reflexivity.
  - intros url' H. split.
    + apply getPublicUrl_result_public in H.
      unfold getPublicUrl. rewrite H. reflexivity.
    + intros Hgs. revert H. unfold getPublicUrl, completion. rewrite Hgs.
      simpl.
      destruct (storage_exists cloud _ _) as [e|[|]]; simpl;
        try discriminate.
      destruct (storage_makePublic cloud _ _); simpl; try discriminate.
      intros H. injection H as <-.
      apply (startsWith_append "https://storage.googleapis.com/").
Qed.

Lemma getPublicUrl_identity_idempotent_witness :
  let cloud := sample_cloud (inr true) (inr sample_results)
                 (inr sample_registry) None (fun _ => None) in
  getPublicUrl cloud "https://example.org/x.jpg"
  = (inr "https://example.org/x.jpg", [])
  /\ getPublicUrl cloud "gs://bucket/dir/x y.jpg"
     = (inr "https://storage.googleapis.com/bucket/dir%2Fx%20y.jpg",
        [(file_exists "bucket" "dir/x y.jpg", true);
         (file_makePublic "bucket" "dir/x y.jpg", true)])
  /\ getPublicUrl cloud
       "https://storage.googleapis.com/bucket/dir%2Fx%20y.jpg"
     = (inr "https://storage.googleapis.com/bucket/dir%2Fx%20y.jpg", [])
  /\ JS.startsWith "https://storage.googleapis.com/bucket/dir%2Fx%20y.jpg"
       "https://storage.googleapis.com/" = true.
Proof.
  intros cloud.
  split; [|split; [|split]].
  - apply (proj1 (getPublicUrl_identity_idempotent cloud
                    "https://example.org/x.jpg")).
    reflexivity.
  - reflexivity.
  - apply (proj2 (getPublicUrl_identity_idempotent cloud
                    "gs://bucket/dir/x y.jpg")).
    reflexivity.
  - apply (proj2 (getPublicUrl_identity_idempotent cloud
                    "gs://bucket/dir/x y.jpg")
             "https://storage.googleapis.com/bucket/dir%2Fx%20y.jpg");
      reflexivity.
Defined.

(** ** Plate normalization *)

Lemma upper_char_idempotent c : JS.upper_char (JS.upper_char c) = JS.upper_char c.
Proof. destruct c as [[] [] [] [] [] [] [] []]; reflexivity. Qed.

Lemma is_space_upper_char c : JS.is_space (JS.upper_char c) = JS.is_space c.
Proof. destruct c as [[] [] [] [] [] [] [] []]; reflexivity. Qed.

(** Removing white space run by run or byte by byte gives the same
    string. *)
Lemma remove_space_runs_spec s : JS.remove_space_runs s = JS.remove_spaces s.
Proof.
  induction s as [|c r IH]; simpl; [reflexivity|].
  destruct (JS.is_space c); [|rewrite IH; reflexivity].
  rewrite <- IH. destruct r as [|d u]; reflexivity.
Qed.

Lemma normalizeDetected_idempotent p :
  normalizeDetected (normalizeDetected p) = normalizeDetected p.
Proof.
  unfold normalizeDetected.
  induction p as [|c r IH]; simpl; [reflexivity|].
  destruct (JS.is_space (JS.upper_char c)) eqn:Hc; [exact IH|].
  simpl. rewrite upper_char_idempotent, Hc, IH. reflexivity.
Qed.

Lemma normalizePlate_normalizeDetected p :
  normalizePlate (Some p) = normalizeDetected p.
Proof.
  unfold normalizePlate, normalizeDetected.
  rewrite remove_space_runs_spec. destruct p; reflexivity.
Qed.

Lemma normalizeDetected_toUpperCase p :
  normalizeDetected (JS.toUpperCase p) = normalizeDetected p.
Proof.
  unfold normalizeDetected. f_equal.
  induction p as [|c r IH]; simpl; [reflexivity|].
  rewrite upper_char_idempotent, IH. reflexivity.
Qed.

Lemma normalizeDetected_remove_spaces p :
  normalizeDetected (JS.remove_spaces p) = normalizeDetected p.
Proof.
  unfold normalizeDetected.
  induction p as [|c r IH]; simpl; [reflexivity|].
  rewrite is_space_upper_char.
  destruct (JS.is_space c) eqn:Hc; [exact IH|].
  simpl. rewrite is_space_upper_char, Hc, IH. reflexivity.
Qed.

(** On ASCII text the result of the normalization is ASCII text. *)
Lemma is_ascii_upper_char c : is_ascii (JS.upper_char c) = is_ascii c.
Proof. destruct c as [[] [] [] [] [] [] [] []]; reflexivity. Qed.

Lemma normalizeDetected_ascii p :
  all_chars is_ascii p = true ->
  all_chars is_ascii (normalizeDetected p) = true.
Proof.
  unfold normalizeDetected.
  induction p as [|c r IH]; simpl; [reflexivity|].
  intros H. apply andb_prop in H. destruct H as [Hc Hr].
  destruct (JS.is_space (JS.upper_char c)); [auto|].
  simpl. rewrite is_ascii_upper_char, Hc. auto.
Qed.

(** The normal form has no white space and no lower-case letter. *)
Lemma upper_char_not_lower c : JS.is_lower (JS.upper_char c) = false.
Proof. destruct c as [[] [] [] [] [] [] [] []]; reflexivity. Qed.

Lemma normalizeDetected_canonical p :
  all_chars canonical_byte (normalizeDetected p) = true.
Proof.
  unfold normalizeDetected.
  induction p as [|c r IH]; simpl; [reflexivity|].
  destruct (JS.is_space (JS.upper_char c)) eqn:Hs; [exact IH|].
  simpl. unfold canonical_byte at 1.
  rewrite Hs, upper_char_not_lower, IH. reflexivity.
Qed.

(** *** Code units *)

(** Decides the comparisons of a goal one by one. *)
Ltac compare :=
  repeat (match goal with
          | H : context [(?a <=? ?b)%N] |- _ => destruct (N.leb_spec a b)
          | H : context [(?a <? ?b)%N] |- _ => destruct (N.ltb_spec a b)
          | H : context [(?a =? ?b)%N] |- _ => destruct (N.eqb_spec a b)
          | |- context [(?a <=? ?b)%N] => destruct (N.leb_spec a b)
          | |- context [(?a <? ?b)%N] => destruct (N.ltb_spec a b)
          | |- context [(?a =? ?b)%N] => destruct (N.eqb_spec a b)
          end;
          cbn [andb orb negb] in *; try discriminate; try lia);
  try reflexivity; try lia.

Lemma utf16_app cs ds :
  CodeUnits.utf16 (cs ++ ds)%list
  = (CodeUnits.utf16 cs ++ CodeUnits.utf16 ds)%list.
Proof. apply flat_map_app. Qed.

Lemma code_points_cons u r :
  CodeUnits.is_high_surrogate u = false ->
  CodeUnits.code_points (u :: r) = u :: CodeUnits.code_points r.
Proof.
  intros H. destruct r as [|l r']; [reflexivity|].
  cbn [CodeUnits.code_points]. rewrite H. reflexivity.
Qed.

Lemma code_points_pair h l r :
  CodeUnits.is_high_surrogate h = true ->
  CodeUnits.is_low_surrogate l = true ->
  CodeUnits.code_points (h :: l :: r)
  = (0x10000 + (h - 0xD800) * 0x400 + (l - 0xDC00))%N
    :: CodeUnits.code_points r.
Proof.
  intros Hh Hl. cbn [CodeUnits.code_points]. rewrite Hh, Hl. reflexivity.
Qed.

(** The code units of a code point of text: itself, or a surrogate pair
    that reads back as the code point; none of them is white space unless
    the code point is. *)
Lemma code_units_scalar c :
  CodeUnits.is_scalar_value c = true ->
  (CodeUnits.code_units c = [c]
   /\ CodeUnits.is_high_surrogate c = false
   /\ CodeUnits.is_low_surrogate c = false
   /\ (c <? 0x10000)%N = true)
  \/ (exists h l,
        CodeUnits.code_units c = [h; l]
        /\ CodeUnits.is_high_surrogate h = true
        /\ CodeUnits.is_low_surrogate l = true
        /\ (0x10000 + (h - 0xD800) * 0x400 + (l - 0xDC00))%N = c
        /\ CodeUnits.is_space h = false /\ CodeUnits.is_space l = false
        /\ CodeUnits.is_space c = false).
Proof.
  unfold CodeUnits.is_scalar_value, CodeUnits.code_units.
  intros Hc. destruct (N.ltb_spec c 0x10000) as [Hlt|Hge].
  - left. unfold CodeUnits.is_high_surrogate, CodeUnits.is_low_surrogate.
    repeat split; compare.
  - right.
    pose proof (N.div_mod' (c - 0x10000) 0x400) as Hdm.
    pose proof (N.mod_lt (c - 0x10000) 0x400) as Hm.
    assert (Hmax : (c <= 0x10FFFF)%N) by compare.
    revert Hdm Hm.
    generalize ((c - 0x10000) / 0x400)%N, ((c - 0x10000) mod 0x400)%N.
    intros q m Hdm Hm. specialize (Hm ltac:(lia)).
    exists (0xD800 + q)%N, (0xDC00 + m)%N.
    unfold CodeUnits.is_high_surrogate, CodeUnits.is_low_surrogate,
      CodeUnits.is_space.
    clear Hc. repeat split; compare.
Qed.

Lemma code_points_utf16 cs :
  Forall (fun c => CodeUnits.is_scalar_value c = true) cs ->
  CodeUnits.code_points (CodeUnits.utf16 cs) = cs.
Proof.
  induction 1 as [|c cs Hc _ IH]; [reflexivity|].
  change (CodeUnits.utf16 (c :: cs))
    with (CodeUnits.code_units c ++ CodeUnits.utf16 cs)%list.
  destruct (code_units_scalar c Hc)
    as [(-> & Hh & _)|(h & l & -> & Hh & Hl & <- & _)]; simpl app.
  - rewrite (code_points_cons _ _ Hh), IH. reflexivity.
  - rewrite (code_points_pair _ _ _ Hh Hl), IH. reflexivity.
Qed.

Lemma well_formed_utf16 cs :
  Forall (fun c => CodeUnits.is_scalar_value c = true) cs ->
  CodeUnits.well_formed (CodeUnits.utf16 cs) = true.
Proof.
  induction 1 as [|c cs Hc _ IH]; [reflexivity|].
  change (CodeUnits.utf16 (c :: cs))
    with (CodeUnits.code_units c ++ CodeUnits.utf16 cs)%list.
  destruct (code_units_scalar c Hc)
    as [(-> & Hh & Hl & Hu)|(h & l & -> & Hh & Hl & _)]; simpl.
  - rewrite Hh, Hl, Hu, IH. reflexivity.
  - rewrite Hh, Hl, IH. reflexivity.
Qed.

Lemma remove_spaces_utf16 cs :
  Forall (fun c => CodeUnits.is_scalar_value c = true) cs ->
  CodeUnits.remove_spaces (CodeUnits.utf16 cs)
  = CodeUnits.utf16 (filter (fun c => negb (CodeUnits.is_space c)) cs).
Proof.
  induction 1 as [|c cs Hc _ IH]; [reflexivity|].
  change (CodeUnits.utf16 (c :: cs))
    with (CodeUnits.code_units c ++ CodeUnits.utf16 cs)%list.
  destruct (code_units_scalar c Hc)
    as [(Hu & _)|(h & l & Hu & _ & _ & _ & Hsh & Hsl & Hsc)];
    rewrite Hu; simpl.
  - destruct (CodeUnits.is_space c); simpl; rewrite IH; [reflexivity|].
    change (CodeUnits.utf16 (c :: ?l))
      with (CodeUnits.code_units c ++ CodeUnits.utf16 l)%list.
    rewrite Hu. reflexivity.
  - rewrite Hsh, Hsl, Hsc, IH. simpl.
    change (CodeUnits.utf16 (c :: ?l))
      with (CodeUnits.code_units c ++ CodeUnits.utf16 l)%list.
    rewrite Hu. reflexivity.
Qed.

(** A code unit that is no surrogate is a code point of text, and a
    surrogate pair is the encoding of one. *)
Lemma unit_scalar u :
  CodeUnits.is_high_surrogate u = false ->
  CodeUnits.is_low_surrogate u = false -> (u <? 0x10000)%N = true ->
  CodeUnits.is_scalar_value u = true /\ CodeUnits.code_units u = [u].
Proof.
  unfold CodeUnits.is_high_surrogate, CodeUnits.is_low_surrogate,
    CodeUnits.is_scalar_value, CodeUnits.code_units.
  intros Hh Hl Hu. rewrite Hu. split; [|reflexivity].
  apply N.ltb_lt in Hu. compare.
Qed.

Lemma pair_scalar u v :
  CodeUnits.is_high_surrogate u = true ->
  CodeUnits.is_low_surrogate v = true ->
  CodeUnits.is_scalar_value (0x10000 + (u - 0xD800) * 0x400 + (v - 0xDC00))%N
  = true
  /\ CodeUnits.code_units (0x10000 + (u - 0xD800) * 0x400 + (v - 0xDC00))%N
     = [u; v].
Proof.
  unfold CodeUnits.is_high_surrogate, CodeUnits.is_low_surrogate.
  intros Hh Hl.
  assert (Hu : (0xD800 <= u <= 0xDBFF)%N) by (clear Hl; compare).
  assert (Hv : (0xDC00 <= v <= 0xDFFF)%N) by (clear Hh; compare).
  clear Hh Hl.
  unfold CodeUnits.is_scalar_value, CodeUnits.code_units.
  replace (0x10000 + (u - 0xD800) * 0x400 + (v - 0xDC00) - 0x10000)%N
    with ((v - 0xDC00) + (u - 0xD800) * 0x400)%N by lia.
  rewrite N.div_add by discriminate.
  rewrite N.Div0.mod_add.
  rewrite N.div_small, N.mod_small by lia.
  split; [compare|].
  destruct (N.ltb_spec (0x10000 + (u - 0xD800) * 0x400 + (v - 0xDC00))
              0x10000); [lia|].
  f_equal; [lia|f_equal; lia].
Qed.

(** The code points of a well-formed string are text, and the string is
    their encoding. *)
Lemma well_formed_code_points s :
  CodeUnits.well_formed s = true ->
  Forall (fun c => CodeUnits.is_scalar_value c = true)
         (CodeUnits.code_points s)
  /\ CodeUnits.utf16 (CodeUnits.code_points s) = s.
Proof.
  assert (Hboth : forall s,
             (CodeUnits.well_formed s = true ->
              Forall (fun c => CodeUnits.is_scalar_value c = true)
                     (CodeUnits.code_points s)
              /\ CodeUnits.utf16 (CodeUnits.code_points s) = s)
             /\ (forall u,
                   CodeUnits.well_formed (u :: s) = true ->
                   Forall (fun c => CodeUnits.is_scalar_value c = true)
                          (CodeUnits.code_points (u :: s))
                   /\ CodeUnits.utf16 (CodeUnits.code_points (u :: s))
                      = u :: s)).
  { clear s. induction s as [|v r [IHr IHv]].
    - split; [intros _; split; [constructor|reflexivity]|].
      intros u. cbn [CodeUnits.well_formed CodeUnits.code_points].
      destruct (CodeUnits.is_high_surrogate u) eqn:Hh; [discriminate|].
      intros H. apply andb_prop in H. destruct H as [H _].
      apply andb_prop in H. destruct H as [Hl Hu].
      apply negb_true_iff in Hl.
      destruct (unit_scalar u Hh Hl Hu) as [Hc Hunits].
      split; [constructor; [exact Hc|constructor]|].
      change (CodeUnits.utf16 [u]) with (CodeUnits.code_units u ++ [])%list.
      rewrite Hunits. reflexivity.
    - split; [apply IHv|].
      intros u. cbn [CodeUnits.well_formed].
      destruct (CodeUnits.is_high_surrogate u) eqn:Hh.
      + intros H. apply andb_prop in H. destruct H as [Hl Hr].
        rewrite (code_points_pair _ _ _ Hh Hl).
        destruct (IHr Hr) as [Hs He].
        destruct (pair_scalar u v Hh Hl) as [Hc Hunits].
        split; [constructor; assumption|].
        change (CodeUnits.utf16 (?c :: ?l))
          with (CodeUnits.code_units c ++ CodeUnits.utf16 l)%list.
        rewrite Hunits, He. reflexivity.
      + intros H. apply andb_prop in H. destruct H as [H Hr].
        apply andb_prop in H. destruct H as [Hl Hu].
        apply negb_true_iff in Hl.
        rewrite (code_points_cons _ _ Hh).
        destruct (IHv v Hr) as [Hs He].
        destruct (unit_scalar u Hh Hl Hu) as [Hc Hunits].
        split; [constructor; assumption|].
        change (CodeUnits.utf16 (?c :: ?l))
          with (CodeUnits.code_units c ++ CodeUnits.utf16 l)%list.
        rewrite Hunits, He. reflexivity. }
  apply Hboth.
Qed.

(** *** The upper-case mappings *)

Lemma upper_case_map_stable :
  forallb CodeUnits.stable_mapping
          (FMapPositive.PositiveMap.elements CodeUnits.upper_case_map) = true.
Proof. vm_compute. reflexivity. Qed.

(** What upper-casing gives is text without white space that upper-casing
    leaves alone, unless it is the code point itself, left alone. *)
Lemma upper_code_point_outputs c c' :
  In c' (CodeUnits.upper_code_point c) ->
  (c' = c /\ CodeUnits.upper_code_point c = [c])
  \/ (CodeUnits.is_scalar_value c' = true
      /\ CodeUnits.is_space c' = false
      /\ CodeUnits.upper_code_point c' = [c']).
Proof.
  unfold CodeUnits.upper_code_point at 1 2.
  destruct c as [|k]; [intros [<-|[]]; auto|].
  destruct (FMapPositive.PositiveMap.find k CodeUnits.upper_case_map) as [l|] eqn:Hk;
    [|intros [<-|[]]; auto].
  intros Hin. right.
  apply FMapPositive.PositiveMap.elements_correct in Hk.
  pose proof upper_case_map_stable as Hall.
  rewrite forallb_forall in Hall. specialize (Hall _ Hk).
  unfold CodeUnits.stable_mapping in Hall. simpl in Hall.
  rewrite forallb_forall in Hall. specialize (Hall _ Hin).
  apply andb_prop in Hall. destruct Hall as [Hall Hfixed].
  apply andb_prop in Hall. destruct Hall as [Hscalar Hspace].
  split; [exact Hscalar|]. split; [destruct (CodeUnits.is_space c'); auto|].
  unfold CodeUnits.upper_code_point.
  destruct c' as [|k']; [reflexivity|].
  destruct (FMapPositive.PositiveMap.find k' CodeUnits.upper_case_map);
    [discriminate|reflexivity].
Qed.

Lemma upper_code_point_fixed c c' :
  In c' (CodeUnits.upper_code_point c) ->
  CodeUnits.upper_code_point c' = [c'].
Proof.
  intros H. destruct (upper_code_point_outputs _ _ H) as [[-> Hc]|(_ & _ & Hc)];
    exact Hc.
Qed.

Lemma upper_code_point_scalar c c' :
  CodeUnits.is_scalar_value c = true ->
  In c' (CodeUnits.upper_code_point c) ->
  CodeUnits.is_scalar_value c' = true.
Proof.
  intros Hc H.
  destruct (upper_code_point_outputs _ _ H) as [[-> _]|(Hs & _)]; auto.
Qed.

(** The code units of the class [\s]. *)
Lemma is_space_cases c :
  CodeUnits.is_space c = true ->
  In c [0x9; 0xA; 0xB; 0xC; 0xD; 0x20; 0xA0; 0x1680; 0x2000; 0x2001; 0x2002;
        0x2003; 0x2004; 0x2005; 0x2006; 0x2007; 0x2008; 0x2009; 0x200A;
        0x2028; 0x2029; 0x202F; 0x205F; 0x3000; 0xFEFF]%N.
Proof.
  unfold CodeUnits.is_space. intros Hc. simpl.
  assert (H : (0x9 <= c <= 0xD \/ c = 0x20 \/ c = 0xA0 \/ c = 0x1680
               \/ 0x2000 <= c <= 0x200A \/ c = 0x2028 \/ c = 0x2029
               \/ c = 0x202F \/ c = 0x205F \/ c = 0x3000 \/ c = 0xFEFF)%N)
    by compare.
  lia.
Qed.

(** White space has no upper case, and no upper case is white space. *)
Lemma upper_code_point_space c :
  CodeUnits.is_space c = true -> CodeUnits.upper_code_point c = [c].
Proof.
  intros Hc. apply is_space_cases in Hc. simpl in Hc.
  repeat (destruct Hc as [<-|Hc]; [reflexivity|]).
  destruct Hc.
Qed.

Lemma space_scalar c :
  CodeUnits.is_space c = true ->
  CodeUnits.is_scalar_value c = true /\ CodeUnits.code_units c = [c].
Proof.
  intros Hc. apply is_space_cases in Hc. simpl in Hc.
  repeat (destruct Hc as [<-|Hc]; [split; reflexivity|]).
  destruct Hc.
Qed.

Lemma upper_code_point_no_space c c' :
  CodeUnits.is_space c = false ->
  In c' (CodeUnits.upper_code_point c) ->
  CodeUnits.is_space c' = false.
Proof.
  intros Hc H.
  destruct (upper_code_point_outputs _ _ H) as [[-> _]|(_ & Hs & _)]; auto.
Qed.

Lemma upper_text cs :
  Forall (fun c => CodeUnits.is_scalar_value c = true) cs ->
  Forall (fun c => CodeUnits.is_scalar_value c = true)
         (flat_map CodeUnits.upper_code_point cs).
Proof.
  intros H. apply Forall_forall. intros c' Hin.
  apply in_flat_map in Hin. destruct Hin as (c & Hc & Hin).
  rewrite Forall_forall in H.
  exact (upper_code_point_scalar c c' (H c Hc) Hin).
Qed.

Lemma upper_fixed cs :
  (forall c, In c cs -> CodeUnits.upper_code_point c = [c]) ->
  flat_map CodeUnits.upper_code_point cs = cs.
Proof.
  induction cs as [|c cs IH]; intros H; simpl; [reflexivity|].
  rewrite (H c) by (left; reflexivity). simpl. f_equal.
  apply IH. intros c' Hc'. apply H. right. exact Hc'.
Qed.

Lemma upper_idempotent cs :
  flat_map CodeUnits.upper_code_point
    (flat_map CodeUnits.upper_code_point cs)
  = flat_map CodeUnits.upper_code_point cs.
Proof.
  apply upper_fixed. intros c' Hin.
  apply in_flat_map in Hin. destruct Hin as (c & _ & Hin).
  exact (upper_code_point_fixed c c' Hin).
Qed.

(** Upper-casing and removing white space commute. *)
Lemma upper_without_spaces cs :
  filter (fun c => negb (CodeUnits.is_space c))
         (flat_map CodeUnits.upper_code_point cs)
  = flat_map CodeUnits.upper_code_point
      (filter (fun c => negb (CodeUnits.is_space c)) cs).
Proof.
  induction cs as [|c cs IH]; simpl; [reflexivity|].
  rewrite filter_app, IH.
  destruct (CodeUnits.is_space c) eqn:Hc; simpl.
  - rewrite (upper_code_point_space c Hc). simpl. rewrite Hc. reflexivity.
  - f_equal. apply forallb_filter_id. apply forallb_forall.
    intros c' Hin. rewrite (upper_code_point_no_space c c' Hc Hin).
    reflexivity.
Qed.

Lemma filter_idempotent {A} (f : A -> bool) l :
  filter f (filter f l) = filter f l.
Proof.
  induction l as [|a l IH]; simpl; [reflexivity|].
  destruct (f a) eqn:Ha; simpl; rewrite ?Ha, IH; reflexivity.
Qed.

(** *** The normal form on code units *)

Lemma remove_space_runs_units s :
  CodeUnits.remove_space_runs s = CodeUnits.remove_spaces s.
Proof.
  induction s as [|u r IH]; simpl; [reflexivity|].
  destruct (CodeUnits.is_space u); [|rewrite IH; reflexivity].
  rewrite <- IH. destruct r as [|v w]; reflexivity.
Qed.

Lemma normalizePlate_units s :
  CodeUnits.normalizePlate (Some s) = CodeUnits.normalizeDetected s.
Proof.
  unfold CodeUnits.normalizePlate, CodeUnits.normalizeDetected.
  rewrite remove_space_runs_units. destruct s; reflexivity.
Qed.

(** The normal form of text: the upper case of its code points without
    the white space. *)
Lemma normalizeDetected_utf16 cs :
  Forall (fun c => CodeUnits.is_scalar_value c = true) cs ->
  CodeUnits.normalizeDetected (CodeUnits.utf16 cs)
  = CodeUnits.utf16
      (filter (fun c => negb (CodeUnits.is_space c))
              (flat_map CodeUnits.upper_code_point cs)).
Proof.
  intros H. unfold CodeUnits.normalizeDetected, CodeUnits.toUpperCase.
  rewrite (code_points_utf16 cs H).
  apply remove_spaces_utf16, upper_text, H.
Qed.

Lemma filter_text (f : N -> bool) cs :
  Forall (fun c => CodeUnits.is_scalar_value c = true) cs ->
  Forall (fun c => CodeUnits.is_scalar_value c = true) (filter f cs).
Proof.
  intros H. apply Forall_forall. intros c Hin. apply filter_In in Hin.
  rewrite Forall_forall in H. apply H, Hin.
Qed.

(** A plate made of white space only has the empty normal form. *)
Lemma normalizePlate_blank s :
  forallb CodeUnits.is_space s = true ->
  CodeUnits.normalizePlate (Some s) = [].
Proof.
  intros Hs. rewrite forallb_forall in Hs.
  assert (Ht : Forall (fun c => CodeUnits.is_scalar_value c = true) s).
  { apply Forall_forall. intros c Hc. apply space_scalar, Hs, Hc. }
  assert (Hu : CodeUnits.utf16 s = s).
  { clear Ht. induction s as [|c r IH]; [reflexivity|].
    change (CodeUnits.utf16 (c :: r))
      with (CodeUnits.code_units c ++ CodeUnits.utf16 r)%list.
    rewrite (proj2 (space_scalar c (Hs c (or_introl eq_refl)))).
    rewrite IH; [reflexivity|]. intros x Hx. apply Hs. right. exact Hx. }
  rewrite normalizePlate_units. rewrite <- Hu at 1.
  rewrite (normalizeDetected_utf16 s Ht).
  rewrite upper_fixed
    by (intros c Hc; apply upper_code_point_space, Hs, Hc).
  clear Ht Hu. induction s as [|c r IH]; [reflexivity|].
  simpl. rewrite (Hs c (or_introl eq_refl)). simpl.
  apply IH. intros x Hx. apply Hs. right. exact Hx.
Qed.

(** *** ASCII text *)

(** On ASCII text the byte strings and the code units agree: a byte is a
    code unit, no code unit is a surrogate, and the upper-case mapping and
    the class [\s] are those of the bytes. *)
Lemma of_ascii_text s :
  Forall (fun c => CodeUnits.is_scalar_value c = true) (CodeUnits.of_ascii s)
  /\ CodeUnits.utf16 (CodeUnits.of_ascii s) = CodeUnits.of_ascii s.
Proof.
  induction s as [|c r [IH1 IH2]]; [split; [constructor|reflexivity]|].
  simpl CodeUnits.of_ascii. split.
  - constructor; [|exact IH1].
    destruct c as [[] [] [] [] [] [] [] []]; reflexivity.
  - change (CodeUnits.utf16 (?c :: ?l))
      with (CodeUnits.code_units c ++ CodeUnits.utf16 l)%list.
    rewrite IH2. destruct c as [[] [] [] [] [] [] [] []]; reflexivity.
Qed.

Lemma upper_code_point_of_ascii c :
  is_ascii c = true ->
  CodeUnits.upper_code_point (N_of_ascii c) = [N_of_ascii (JS.upper_char c)].
Proof.
  destruct c as [[] [] [] [] [] [] [] []]; try discriminate; reflexivity.
Qed.

Lemma toUpperCase_ascii s :
  all_chars is_ascii s = true -> all_chars is_ascii (JS.toUpperCase s) = true.
Proof.
  induction s as [|c r IH]; simpl; [reflexivity|].
  intros H. apply andb_prop in H. destruct H as [Hc Hr].
  rewrite is_ascii_upper_char, Hc. auto.
Qed.

Lemma toUpperCase_of_ascii s :
  all_chars is_ascii s = true ->
  CodeUnits.toUpperCase (CodeUnits.of_ascii s)
  = CodeUnits.of_ascii (JS.toUpperCase s).
Proof.
  intros H. unfold CodeUnits.toUpperCase.
  destruct (of_ascii_text s) as [Ht Hu].
  rewrite <- Hu at 1. rewrite (code_points_utf16 _ Ht).
  rewrite <- (proj2 (of_ascii_text (JS.toUpperCase s))). f_equal.
  induction s as [|c r IH]; [reflexivity|].
  simpl in H. apply andb_prop in H. destruct H as [Hc Hr].
  simpl. rewrite (upper_code_point_of_ascii c Hc). simpl. f_equal.
  apply IH; [exact Hr|apply of_ascii_text|apply of_ascii_text].
Qed.

Lemma is_space_of_ascii c :
  is_ascii c = true -> CodeUnits.is_space (N_of_ascii c) = JS.is_space c.
Proof.
  destruct c as [[] [] [] [] [] [] [] []]; try discriminate; reflexivity.
Qed.

Lemma remove_spaces_of_ascii s :
  all_chars is_ascii s = true ->
  CodeUnits.remove_spaces (CodeUnits.of_ascii s)
  = CodeUnits.of_ascii (JS.remove_spaces s).
Proof.
  induction s as [|c r IH]; [reflexivity|].
  simpl all_chars. intros H. apply andb_prop in H. destruct H as [Hc Hr].
  simpl. rewrite (is_space_of_ascii c Hc), (IH Hr).
  destruct (JS.is_space c); reflexivity.
Qed.

Lemma normalizeDetected_of_ascii s :
  all_chars is_ascii s = true ->
  CodeUnits.normalizeDetected (CodeUnits.of_ascii s)
  = CodeUnits.of_ascii (normalizeDetected s).
Proof.
  intros H. unfold CodeUnits.normalizeDetected, normalizeDetected.
  rewrite (toUpperCase_of_ascii s H).
  apply remove_spaces_of_ascii, toUpperCase_ascii, H.
Qed.

Lemma normalizePlate_of_ascii s :
  all_chars is_ascii s = true ->
  CodeUnits.normalizePlate (Some (CodeUnits.of_ascii s))
  = CodeUnits.of_ascii (normalizePlate (Some s)).
Proof.
  intros H. rewrite normalizePlate_normalizeDetected, normalizePlate_units.
  apply normalizeDetected_of_ascii, H.
Qed.

(** C8, for well-formed strings, those in which every surrogate has its
    partner: plate normalization is idempotent, for the trigger's
    normalization and for the client's [normalizePlate], and its result is
    well formed again; it is insensitive to case and to white space: a
    plate, its upper-case form and its form without white space normalize
    to the same string, and so do ["ab 12 cde"] and ["AB12CDE"].  On
    plates of ASCII characters the normalizations of the byte strings are
    those of the code units, and idempotent as well. *)
Theorem normalization_idempotent_on_text s :
  CodeUnits.well_formed s = true ->
  CodeUnits.normalizeDetected (CodeUnits.normalizeDetected s)
  = CodeUnits.normalizeDetected s
  /\ CodeUnits.normalizePlate (Some (CodeUnits.normalizePlate (Some s)))
     = CodeUnits.normalizePlate (Some s)
  /\ CodeUnits.normalizePlate (Some s) = CodeUnits.normalizeDetected s
  /\ CodeUnits.well_formed (CodeUnits.normalizeDetected s) = true
  /\ CodeUnits.normalizeDetected (CodeUnits.toUpperCase s)
     = CodeUnits.normalizeDetected s
  /\ CodeUnits.normalizeDetected (CodeUnits.remove_spaces s)
     = CodeUnits.normalizeDetected s
  /\ CodeUnits.normalizeDetected (CodeUnits.of_ascii "ab 12 cde")
     = CodeUnits.normalizeDetected (CodeUnits.of_ascii "AB12CDE")
  /\ (forall p,
        all_chars is_ascii p = true ->
        CodeUnits.normalizeDetected (CodeUnits.of_ascii p)
        = CodeUnits.of_ascii (normalizeDetected p)
        /\ CodeUnits.normalizePlate (Some (CodeUnits.of_ascii p))
           = CodeUnits.of_ascii (normalizePlate (Some p))
        /\ all_chars is_ascii (normalizeDetected p) = true
        /\ normalizeDetected (normalizeDetected p) = normalizeDetected p
        /\ normalizePlate (Some (normalizePlate (Some p)))
           = normalizePlate (Some p))
  /\ normalizeDetected "ab 12 cde" = normalizeDetected "AB12CDE"
  /\ normalizePlate (Some "ab 12 cde") = normalizePlate (Some "AB12CDE").
Proof.
  intros Hs.
  destruct (well_formed_code_points s Hs) as [Ht Hu].
  set (cs := CodeUnits.code_points s) in *.
  set (ns := fun c => negb (CodeUnits.is_space c)).
  assert (Hn : CodeUnits.normalizeDetected s
               = CodeUnits.utf16
                   (filter ns (flat_map CodeUnits.upper_code_point cs))).
  { rewrite <- Hu at 1. apply normalizeDetected_utf16, Ht. }
  assert (Hnt : Forall (fun c => CodeUnits.is_scalar_value c = true)
                  (filter ns (flat_map CodeUnits.upper_code_point cs)))
    by apply filter_text, upper_text, Ht.
  assert (Hidem : CodeUnits.normalizeDetected (CodeUnits.normalizeDetected s)
                  = CodeUnits.normalizeDetected s).
  { rewrite Hn. rewrite (normalizeDetected_utf16 _ Hnt). f_equal.
    fold ns. rewrite upper_without_spaces. fold ns.
    rewrite filter_idempotent, <- upper_without_spaces. fold ns.
    rewrite upper_idempotent. reflexivity. }
  split; [exact Hidem|].
  split; [rewrite !normalizePlate_units; exact Hidem|].
  split; [apply normalizePlate_units|].
  split; [rewrite Hn; apply well_formed_utf16, Hnt|].
  split.
  { unfold CodeUnits.toUpperCase at 1. fold cs.
    rewrite (normalizeDetected_utf16 _ (upper_text _ Ht)), Hn.
    rewrite upper_idempotent. reflexivity. }
  split.
  { rewrite <- Hu at 1. rewrite (remove_spaces_utf16 _ Ht). fold ns.
    rewrite (normalizeDetected_utf16 _ (filter_text ns _ Ht)), Hn.
    fold ns. rewrite <- upper_without_spaces. fold ns.
    rewrite filter_idempotent. reflexivity. }
  split; [reflexivity|].
  split; [|split; reflexivity].
  intros p Hp.
  split; [apply normalizeDetected_of_ascii, Hp|].
  split; [apply normalizePlate_of_ascii, Hp|].
  split; [apply normalizeDetected_ascii, Hp|].
  split; [apply normalizeDetected_idempotent|].
  rewrite !normalizePlate_normalizeDetected.
  apply normalizeDetected_idempotent.
Qed.

(** Sharp s, a space and a small a: the normal form is [SSA]. *)
Lemma normalization_idempotent_on_text_witness :
  CodeUnits.well_formed [0xDF; 0x20; 0x61]%N = true
  /\ CodeUnits.normalizeDetected [0xDF; 0x20; 0x61]%N = [0x53; 0x53; 0x41]%N
  /\ CodeUnits.normalizeDetected
       (CodeUnits.normalizeDetected [0xDF; 0x20; 0x61]%N)
     = CodeUnits.normalizeDetected [0xDF; 0x20; 0x61]%N.
Proof.
  split; [reflexivity|]. split; [reflexivity|].
  apply (normalization_idempotent_on_text [0xDF; 0x20; 0x61]%N).
  reflexivity.
Defined.

(** C8 as the specification states it, for every string, does not hold.
    Upper-casing leaves the two halves of a surrogate pair alone when a
    space stands between them; removing the space joins them into the
    small Deseret letter U+10428, which a second normalization turns into
    its capital U+10400. *)
Lemma normalization_not_idempotent_on_split_pair :
  CodeUnits.normalizeDetected CodeUnits.split_pair = [0xD801; 0xDC28]%N
  /\ CodeUnits.normalizeDetected
       (CodeUnits.normalizeDetected CodeUnits.split_pair)
     = [0xD801; 0xDC00]%N
  /\ CodeUnits.normalizeDetected
       (CodeUnits.normalizeDetected CodeUnits.split_pair)
     <> CodeUnits.normalizeDetected CodeUnits.split_pair
  /\ CodeUnits.normalizePlate
       (Some (CodeUnits.normalizePlate (Some CodeUnits.split_pair)))
     <> CodeUnits.normalizePlate (Some CodeUnits.split_pair).
Proof.
  split; [reflexivity|]. split; [reflexivity|].
  split; vm_compute; discriminate.
Qed.

(** ** The runs of the trigger *)

Section Runs.

Variable cloud : Services.

(** The guard lets an event through exactly when the payload, a non-empty
    image address and a non-empty key are there. *)
Lemma validate_Some key data d image k :
  validate key data = Some (d, image, k) <->
  data = Some d /\ imageUrl d = Some image /\ key = Some k
  /\ JS.truthy (Some image) = true /\ JS.truthy (Some k) = true.
Proof.
  unfold validate. split.
  - destruct data as [d0|]; [|discriminate].
    destruct (imageUrl d0) as [[|c u]|] eqn:Hi; try discriminate.
    destruct key as [[|x y]|]; try discriminate.
    intros H. inversion H. subst. auto.
  - intros (-> & Hi & -> & Ht & Hk). rewrite Hi.
    destruct image; [discriminate|]. destruct k; [discriminate|].
    reflexivity.
Qed.

Lemma validate_None key data :
  validate key data = None <->
  data = None
  \/ (exists d, data = Some d /\ JS.truthy (imageUrl d) = false)
  \/ JS.truthy key = false.
Proof.
  unfold validate. split.
  - destruct data as [d|]; [|auto].
    destruct (imageUrl d) as [[|c u]|] eqn:Hi.
    + intros _. right. left. exists d. rewrite Hi. auto.
    + destruct key as [[|x y]|]; try discriminate; auto.
    + intros _. right. left. exists d. rewrite Hi. auto.
  - intros [->|[(d & -> & Hd)|Hk]]; [reflexivity| |].
    + destruct (imageUrl d) as [[|c u]|]; try reflexivity. discriminate.
    + destruct data as [d|]; [|reflexivity].
      destruct (imageUrl d) as [[|c u]|]; try reflexivity.
      destruct key as [[|x y]|]; try reflexivity. discriminate.
Qed.

(** Every run of the [try] block ends in one of the seven states. *)
Lemma try_block_cases d image key :
  try_block_run cloud d image key (try_block cloud d image key).
Proof.
  unfold try_block.
  destruct (resolve_image cloud image) as [[e|url] pre] eqn:Hres; simpl.
  - apply resolution_failed. exact Hres.
  - destruct (plate_reader cloud (plate_request url key)) as [e|resp] eqn:Hpr;
      simpl.
    + eapply detection_failed; eauto.
    + destruct (results_of resp) as [|first rest] eqn:Hrs; simpl.
      * eapply no_plate; eauto.
      * destruct (userPlates cloud) as [e|docs] eqn:Hup; simpl.
        -- eapply registry_failed; eauto.
        -- destruct (plate_query docs (normalizeDetected (plate first)))
             as [|owner others] eqn:Hq; simpl.
           ++ eapply owner_unregistered; eauto.
           ++ destruct (fcm_send cloud _) as [e|] eqn:Hs; simpl.
              ** eapply dispatch_failed; eauto.
              ** eapply dispatched; eauto.
Qed.

End Runs.

(** ** The claims about the trigger *)

Section Claims.

Variable cloud : Services.

Lemma try_catch_throws {A} e t (h : Error -> Async A) :
  try_catch (inl e, t) h = (completion (h e), (t ++ calls (h e))%list).
Proof. unfold try_catch, completion, calls. destruct (h e). reflexivity. Qed.

(** Splits a run of the trigger that passed the guard by the state in which
    its [try] block ends, and records that the calls of the resolution are
    invisible to the observations. *)
Ltac run_cases d image k :=
  destruct (try_block_cases cloud d image k)
    as [e pre Hres
       |url pre e Hres Hpr
       |url pre resp Hres Hpr Hrs
       |url pre resp first rest e Hres Hpr Hrs Hup
       |url pre resp first rest docs Hres Hpr Hrs Hup Hq doc
       |url pre resp first rest docs owner others e Hres Hpr Hrs Hup Hq m Hs
       |url pre resp first rest docs owner others Hres Hpr Hrs Hup Hq m Hs
          doc];
  pose proof (resolve_image_storage_only cloud image) as Hpre;
  rewrite Hres in Hpre; simpl in Hpre;
  destruct (storage_only_silent _ Hpre) as (Hsends & Hreads & Haudit & Hwritten).

(** Runs the [catch] block where the [try] block threw. *)
Ltac run_catch :=
  rewrite ?try_catch_throws;
  unfold try_catch, catch_block, await_, calls, completion; simpl;
  rewrite <- ?app_assoc; simpl.

(** Computes the observations of a trace whose resolution part is
    silent. *)
Ltac observe :=
  autorewrite with trace;
  repeat match goal with
         | H : topic_sends _ = [] |- _ => rewrite H
         | H : registry_reads _ = [] |- _ => rewrite H
         | H : audit_calls _ = [] |- _ => rewrite H
         | H : written _ = [] |- _ => rewrite H
         end;
  simpl.

(** Finds the place of a call in a trace that is written out. *)
Ltac peel :=
  match goal with
  | H : _ = (?t ++ _ :: _)%list |- _ =>
      destruct t; simpl in H; inversion H; subst; clear H
  end.

(** A call of a trace that is not a call of the resolution. *)
Ltac in_trace H :=
  apply in_app_or in H;
  destruct H as [H|H];
  [ match goal with
    | Hp : storage_only _ |- _ =>
        apply (storage_only_In _ _ Hp) in H; discriminate H
    end
  | simpl in H ].

(** C7: an event without payload, without image address or without the
    key of the recognition service ends the run at once: the handler
    returns, no call is made to any collaborator, and no record is
    written to any store. *)
Theorem guard_aborts_silently key data :
  data = None
  \/ (exists d, data = Some d /\ JS.truthy (imageUrl d) = false)
  \/ JS.truthy key = false ->
  completion (alertBlockedCharger cloud key data) = inr tt
  /\ calls (alertBlockedCharger cloud key data) = []
  /\ audit_calls (calls (alertBlockedCharger cloud key data)) = []
  /\ written (calls (alertBlockedCharger cloud key data)) = [].
Proof.
  intros H. apply validate_None in H.
  unfold alertBlockedCharger. rewrite H. simpl. auto.
Qed.

(** C10: a write of an AlertRecord, stored or not, comes right after a
    topic send that returned without throwing, and that send is the only
    one of the run; the record has status ["sent"] and carries the owner
    the message names. *)
Theorem alert_record_follows_send key data t1 r ok t2 :
  calls (alertBlockedCharger cloud key data)
  = (t1 ++ (collection_add (alerts r), ok) :: t2)%list ->
  exists pre m,
    t1 = (pre ++ [(messaging_send m, true)])%list
    /\ topic_sends (calls (alertBlockedCharger cloud key data)) = [m]
    /\ fcm_send cloud m = None
    /\ alert_status r = "sent"
    /\ data_ownerId m = alert_recipientId r.
Proof.
  unfold alertBlockedCharger.
  destruct (validate key data) as [[[d image] k]|].
  2:{ simpl. intros H. destruct t1; discriminate. }
  run_cases d image k.
  all: try (destruct (firestore_add cloud doc) eqn:Hadd; simpl).
  all: run_catch.
  all: intros H.
  all: apply storage_prefix_split in H; [|assumption|reflexivity].
  all: destruct H as [t1' [-> H]].
  all: repeat peel.
  all: eexists (pre ++ [_; _])%list, m.
  all: rewrite <- app_assoc; simpl.
  all: split; [reflexivity|].
  all: observe.
  all: auto.
Qed.

(** C6: when the recognition service answers with an empty result list,
    the run ends there without an error: the call to the service is the
    last call of the run, so that nothing is written to the audit store,
    the registry is not read and nothing is sent. *)
Theorem no_plate_is_silent key data req answer :
  In (axios_post req, true) (calls (alertBlockedCharger cloud key data)) ->
  plate_reader cloud req = inr answer ->
  results_of answer = [] ->
  completion (alertBlockedCharger cloud key data) = inr tt
  /\ (exists pre,
        calls (alertBlockedCharger cloud key data)
        = (pre ++ [(axios_post req, true)])%list)
  /\ audit_calls (calls (alertBlockedCharger cloud key data)) = []
  /\ written (calls (alertBlockedCharger cloud key data)) = []
  /\ registry_reads (calls (alertBlockedCharger cloud key data)) = []
  /\ topic_sends (calls (alertBlockedCharger cloud key data)) = [].
Proof.
  unfold alertBlockedCharger.
  destruct (validate key data) as [[[d image] k]|].
  2:{ simpl. intros []. }
  run_cases d image k.
  all: try (destruct (firestore_add cloud doc) eqn:Hadd; simpl).
  all: run_catch.
  all: intros H Hreq Hempty.
  all: in_trace H.
  all: repeat match goal with
         | H : _ \/ _ |- _ => destruct H as [H|H]
         | H : False |- _ => destruct H
         | H : (_, _) = (_, _) |- _ => inversion H; subst; clear H
         end.
  all: try congruence.
  observe. repeat split; eauto.
Qed.

(** The failure branch, as far as the audit store goes along: when the
    resolution of the image address or the call to the recognition service
    throws (the call carries a timeout of 30000 ms, whose expiry is such a
    throw), the only document handed to the audit store is one
    FailedDetectionRecord with the original image address, the message of
    the error and the body of the upstream response when there is one;
    nothing is sent and the registry is not read.  The record is stored,
    and the run completes, when the audit store accepts it. *)
Theorem detection_failure_is_logged key event_data d image k error :
  validate key event_data = Some (d, image, k) ->
  completion (resolve_image cloud image) = inl error
  \/ (exists address,
        completion (resolve_image cloud image) = inr address
        /\ plate_reader cloud (plate_request address k) = inl error) ->
  let run := alertBlockedCharger cloud key event_data in
  let doc := failed_record d image error in
  audit_calls (calls run) = [failedDetections doc]
  /\ imageUrl d = Some (failed_imageUrl doc)
  /\ failed_error doc = message error
  /\ (forall r j, response error = Some r -> data r = Some j ->
      json_truthy j = true -> failed_errorDetails doc = j)
  /\ (forall address, timeout (plate_request address k) = 30000%Z)
  /\ topic_sends (calls run) = []
  /\ registry_reads (calls run) = []
  /\ completion run = settled (firestore_add cloud (failedDetections doc))
  /\ (firestore_add cloud (failedDetections doc) = None ->
      written (calls run) = [failedDetections doc]).
Proof.
  intros Hv Hfail run doc. subst run doc.
  pose proof (proj1 (validate_Some _ _ _ _ _) Hv) as (_ & Himage & _).
  unfold alertBlockedCharger. rewrite Hv.
  assert (Hdetails : forall r j, response error = Some r -> data r = Some j ->
            json_truthy j = true ->
            failed_errorDetails (failed_record d image error) = j).
  { intros r j Hr Hj Ht. simpl. unfold error_details.
    rewrite Hr, Hj, Ht. reflexivity. }
  run_cases d image k.
  all: rewrite Hres in Hfail; unfold completion in Hfail; simpl in Hfail.
  all: destruct Hfail as [Hfail|(address & Hfail & Hthrown)];
    inversion Hfail; subst; try congruence.
  all: try (assert (e = error) by congruence; subst e).
  all: run_catch; observe.
  all: repeat split; auto.
  all: intros ->; reflexivity.
Qed.

Lemma plate_query_no_match docs p :
  (forall o, In o docs -> owner_plate o <> p) -> plate_query docs p = [].
Proof.
  unfold plate_query. intros H.
  induction docs as [|o docs IH]; simpl; [reflexivity|].
  destruct (owner_plate o =? p) eqn:Ho.
  - apply String.eqb_eq in Ho. exfalso. apply (H o); simpl; auto.
  - apply IH. intros o' Ho'. apply H. simpl. auto.
Qed.

(** The unregistered branch, as far as the audit store goes along: when
    the registry has no document for the normalized plate of the first
    candidate, nothing is sent and the first document handed to the audit
    store is the UnregisteredPlateRecord of that plate; when the store
    accepts it, it is the only document written and the run completes
    without an error. *)
Theorem unregistered_plate_is_logged key data d image k address answer
    candidate candidates registry :
  validate key data = Some (d, image, k) ->
  completion (resolve_image cloud image) = inr address ->
  plate_reader cloud (plate_request address k) = inr answer ->
  results_of answer = candidate :: candidates ->
  userPlates cloud = inr registry ->
  (forall o, In o registry ->
             owner_plate o <> normalizeDetected (plate candidate)) ->
  let run := alertBlockedCharger cloud key data in
  let record := unregisteredPlates
               (unregistered_record d image
                  (normalizeDetected (plate candidate)) (score candidate)) in
  topic_sends (calls run) = []
  /\ hd_error (audit_calls (calls run)) = Some record
  /\ (firestore_add cloud record = None ->
      written (calls run) = [record]
      /\ audit_calls (calls run) = [record]
      /\ completion run = inr tt).
Proof.
  intros Hv Hresolved Hanswer Hresults Hregistry Hnone run record.
  subst run record.
  apply plate_query_no_match in Hnone.
  unfold alertBlockedCharger. rewrite Hv.
  run_cases d image k.
  all: rewrite Hres in Hresolved; unfold completion in Hresolved;
    simpl in Hresolved; try discriminate.
  all: inversion Hresolved; subst; try congruence.
  all: assert (resp = answer) by congruence; subst resp.
  all: assert (first = candidate /\ rest = candidates) as [-> ->]
    by (split; congruence).
  all: try congruence.
  all: assert (docs = registry) by congruence; subst docs.
  all: try congruence.
  subst doc.
  destruct (firestore_add cloud _) eqn:Hadd; simpl.
  all: run_catch; observe.
  all: repeat split; auto; discriminate.
Qed.

(** C5 on the reports the client writes.  When the resolution of the image
    address or the call to the recognition service throws for a report
    without [location] or without [chargerId], the FailedDetectionRecord
    of lines 210-217 holds [undefined]; an audit store that refuses such
    documents stores nothing, and its refusal is the error of the run.
    Nothing is sent and the registry is not read. *)
Theorem failed_record_is_refused key event_data d image k error :
  validate key event_data = Some (d, image, k) ->
  completion (resolve_image cloud image) = inl error
  \/ (exists address,
        completion (resolve_image cloud image) = inr address
        /\ plate_reader cloud (plate_request address k) = inl error) ->
  location d = None \/ chargerId d = None ->
  (forall a, holds_undefined a = true -> firestore_add cloud a <> None) ->
  let run := alertBlockedCharger cloud key event_data in
  let doc := failedDetections (failed_record d image error) in
  audit_calls (calls run) = [doc]
  /\ written (calls run) = []
  /\ topic_sends (calls run) = []
  /\ registry_reads (calls run) = []
  /\ exists refusal,
       firestore_add cloud doc = Some refusal
       /\ completion run = inl refusal.
Proof.
  intros Hv Hfail Hmissing Hstore run doc. subst run doc.
  assert (Hdoc : holds_undefined
                   (failedDetections (failed_record d image error)) = true).
  { simpl. destruct Hmissing as [-> | ->]; [destruct (chargerId d)|];
      reflexivity. }
  destruct (firestore_add cloud (failedDetections (failed_record d image error)))
    as [refusal|] eqn:Hadd; [|destruct (Hstore _ Hdoc Hadd)].
  unfold alertBlockedCharger. rewrite Hv.
  run_cases d image k.
  all: rewrite Hres in Hfail; unfold completion in Hfail; simpl in Hfail.
  all: destruct Hfail as [Hfail|(address & Hfail & Hthrown)];
    inversion Hfail; subst; try congruence.
  all: try (assert (e = error) by congruence; subst e).
  all: run_catch; observe.
  all: rewrite Hadd; simpl.
  all: repeat split; auto.
  all: exists refusal; auto.
Qed.

(** C4 on the reports the client writes.  When the registry has no
    document for the detected plate and the report has no [location], the
    UnregisteredPlateRecord of lines 124-132 holds [undefined]; an audit
    store that refuses such documents stores nothing.  Its refusal is
    caught, the FailedDetectionRecord of that refusal holds [undefined] as
    well and is refused in turn, and this second refusal is the error of
    the run.  Nothing is sent. *)
Theorem unregistered_record_is_refused key data d image k address answer
    candidate candidates registry :
  validate key data = Some (d, image, k) ->
  completion (resolve_image cloud image) = inr address ->
  plate_reader cloud (plate_request address k) = inr answer ->
  results_of answer = candidate :: candidates ->
  userPlates cloud = inr registry ->
  (forall o, In o registry ->
             owner_plate o <> normalizeDetected (plate candidate)) ->
  location d = None ->
  (forall a, holds_undefined a = true -> firestore_add cloud a <> None) ->
  let run := alertBlockedCharger cloud key data in
  let record := unregisteredPlates
               (unregistered_record d image
                  (normalizeDetected (plate candidate)) (score candidate)) in
  written (calls run) = []
  /\ topic_sends (calls run) = []
  /\ exists refusal refusal',
       firestore_add cloud record = Some refusal
       /\ firestore_add cloud (failedDetections (failed_record d image refusal))
          = Some refusal'
       /\ audit_calls (calls run)
          = [record; failedDetections (failed_record d image refusal)]
       /\ completion run = inl refusal'.
Proof.
  intros Hv Hresolved Hanswer Hresults Hregistry Hnone Hloc Hstore run record.
  subst run record.
  apply plate_query_no_match in Hnone.
  unfold alertBlockedCharger. rewrite Hv.
  run_cases d image k.
  all: rewrite Hres in Hresolved; unfold completion in Hresolved;
    simpl in Hresolved; try discriminate.
  all: inversion Hresolved; subst; try congruence.
  all: assert (resp = answer) by congruence; subst resp.
  all: assert (first = candidate /\ rest = candidates) as [-> ->]
    by (split; congruence).
  all: try congruence.
  all: assert (docs = registry) by congruence; subst docs.
  all: try congruence.
  subst doc.
  destruct (firestore_add cloud (unregisteredPlates _)) as [refusal|] eqn:Hadd.
  2:{ exfalso. revert Hadd. apply Hstore. simpl. rewrite Hloc. reflexivity. }
  destruct (firestore_add cloud
              (failedDetections (failed_record d image refusal)))
    as [refusal'|] eqn:Hlog.
  2:{ exfalso. revert Hlog. apply Hstore. simpl. rewrite Hloc.
      destruct (chargerId d); reflexivity. }
  simpl. run_catch; observe. rewrite Hlog. simpl.
  repeat split; auto.
  exists refusal, refusal'. auto.
Qed.

(** C1, as the code has it: when the topic send throws, the error is
    caught by the [catch] block of the run: the only document handed to
    the audit store is a FailedDetectionRecord with the message of that
    error, no AlertRecord is written, and the run completes without an
    error when the audit store accepts the record. *)
Theorem dispatch_failure_is_logged_as_failure key data msg :
  In (messaging_send msg, false) (calls (alertBlockedCharger cloud key data)) ->
  let run := alertBlockedCharger cloud key data in
  exists d image error,
    data = Some d /\ imageUrl d = Some image
    /\ fcm_send cloud msg = Some error
    /\ audit_calls (calls run)
       = [failedDetections (failed_record d image error)]
    /\ failed_error (failed_record d image error) = message error
    /\ (forall r, ~ In (alerts r) (audit_calls (calls run)))
    /\ completion run
       = settled (firestore_add cloud
                    (failedDetections (failed_record d image error)))
    /\ (firestore_add cloud
          (failedDetections (failed_record d image error)) = None ->
        written (calls run)
        = [failedDetections (failed_record d image error)]).
Proof.
  intros H run. subst run. revert H.
  unfold alertBlockedCharger.
  destruct (validate key data) as [[[d image] k]|] eqn:Hv.
  2:{ simpl. intros []. }
  apply validate_Some in Hv. destruct Hv as (-> & Himage & _).
  run_cases d image k.
  all: try (destruct (firestore_add cloud doc) eqn:Hadd; simpl).
  all: run_catch.
  all: intros H.
  all: in_trace H.
  all: repeat match goal with
         | H : _ \/ _ |- _ => destruct H as [H|H]
         | H : False |- _ => destruct H
         | H : (_, _) = (_, _) |- _ => inversion H; subst; clear H
         end.
  exists d, image, e. observe.
  repeat split; auto.
  - intros r [Hr|[]]. discriminate Hr.
  - intros ->. reflexivity.
Qed.



End Claims.

(** ** The claims on sample runs *)

Lemma guard_aborts_silently_witness :
  completion (alertBlockedCharger registered_cloud None (Some sample_report))
  = inr tt
  /\ calls (alertBlockedCharger registered_cloud None (Some sample_report))
     = [].
Proof.
  pose proof (guard_aborts_silently registered_cloud None (Some sample_report))
    as H.
  destruct H as (Hc & Ht & _).
  - right. right. reflexivity.
  - split; assumption.
Defined.

Lemma alert_record_follows_send_witness :
  exists pre m,
    [(file_exists "bucket" "x.jpg", true);
     (file_makePublic "bucket" "x.jpg", true);
     (axios_post sample_request, true);
     (userPlates_get "AB12CDE", true);
     (messaging_send sample_message, true)]
    = (pre ++ [(messaging_send m, true)])%list
    /\ topic_sends
         (calls (alertBlockedCharger registered_cloud (Some "k")
                   (Some sample_report))) = [m]
    /\ fcm_send registered_cloud m = None
    /\ alert_status sample_alert = "sent"
    /\ data_ownerId m = alert_recipientId sample_alert.
Proof.
  apply (alert_record_follows_send registered_cloud (Some "k")
           (Some sample_report) _ sample_alert true []).
  reflexivity.
Defined.

Lemma no_plate_is_silent_witness :
  let run := alertBlockedCharger no_plate_cloud (Some "k")
               (Some sample_report) in
  completion run = inr tt
  /\ (exists pre, calls run = (pre ++ [(axios_post sample_request, true)])%list)
  /\ audit_calls (calls run) = []
  /\ written (calls run) = []
  /\ registry_reads (calls run) = []
  /\ topic_sends (calls run) = [].
Proof.
  apply (no_plate_is_silent no_plate_cloud (Some "k") (Some sample_report)
           sample_request {| response_data := Some (Some []) |}).
  - vm_compute. right. right. left. reflexivity.
  - reflexivity.
  - reflexivity.
Defined.

Lemma detection_failure_is_logged_witness :
  let run := alertBlockedCharger timeout_cloud (Some "k")
               (Some full_report) in
  let doc := {| failed_imageUrl := "gs://bucket/x.jpg";
                failed_chargerId := Some "C1";
                failed_location := Some "Car park A";
                failed_error := "timeout of 30000ms exceeded";
                failed_errorDetails := JNull;
                failed_timestamp := serverTimestamp |} in
  audit_calls (calls run) = [failedDetections doc]
  /\ written (calls run) = [failedDetections doc]
  /\ topic_sends (calls run) = []
  /\ registry_reads (calls run) = []
  /\ completion run = inr tt.
Proof.
  intros run doc.
  destruct (detection_failure_is_logged timeout_cloud (Some "k")
              (Some full_report) full_report "gs://bucket/x.jpg" "k"
              timeout_error)
    as (Ha & _ & _ & _ & _ & Hs & Hr & Hc & Hw).
  - reflexivity.
  - right. exists sample_public_image. split; reflexivity.
  - split; [exact Ha|]. split; [apply Hw; reflexivity|].
    split; [exact Hs|]. split; [exact Hr|exact Hc].
Defined.

Lemma unregistered_plate_is_logged_witness :
  let run := alertBlockedCharger unregistered_cloud (Some "k")
               (Some full_report) in
  let record := unregisteredPlates
                  {| unregistered_plate := "AB12CDE";
                     unregistered_imageUrl := "gs://bucket/x.jpg";
                     unregistered_location := Some "Car park A";
                     unregistered_chargerId := Some "C1";
                     unregistered_reportedBy := Some "U7";
                     unregistered_confidence := Number "0.91";
                     unregistered_timestamp := serverTimestamp |} in
  topic_sends (calls run) = []
  /\ written (calls run) = [record]
  /\ audit_calls (calls run) = [record]
  /\ completion run = inr tt.
Proof.
  intros run record.
  destruct (unregistered_plate_is_logged unregistered_cloud (Some "k")
              (Some full_report) full_report "gs://bucket/x.jpg" "k"
              sample_public_image sample_results
              {| plate := "ab12 cde"; score := Number "0.91" |} []
              [ {| owner_plate := "XY99ZZZ"; userId := "U2" |} ])
    as (Hs & _ & Hw).
  - reflexivity.
  - reflexivity.
  - reflexivity.
  - reflexivity.
  - reflexivity.
  - intros o [<-|[]]. discriminate.
  - split; [exact Hs|]. apply Hw. reflexivity.
Defined.

Lemma dispatch_failure_is_logged_as_failure_witness :
  let run := alertBlockedCharger failing_send_cloud (Some "k")
               (Some full_report) in
  exists d image error,
    Some full_report = Some d /\ imageUrl d = Some image
    /\ fcm_send failing_send_cloud full_message = Some error
    /\ audit_calls (calls run)
       = [failedDetections (failed_record d image error)]
    /\ written (calls run)
       = [failedDetections (failed_record d image error)]
    /\ completion run = inr tt.
Proof.
  intros run. subst run.
  destruct (dispatch_failure_is_logged_as_failure failing_send_cloud
              (Some "k") (Some full_report) full_message)
    as (d & image & error & Hd & Hi & Hf & Ha & _ & _ & Hc & Hw).
  - vm_compute. do 4 right. left. reflexivity.
  - exists d, image, error.
    split; [exact Hd|]. split; [exact Hi|]. split; [exact Hf|].
    split; [exact Ha|]. split; [apply Hw; reflexivity|].
    rewrite Hc. reflexivity.
Defined.


(** The two refusals on the report and the collaborators of the
    scenarios of the specification. *)
Lemma failed_record_is_refused_witness :
  let cloud := sample_cloud (inr true) (inl timeout_error)
                 (inr sample_registry) None
                 (firestore_validation undefined_value) in
  let run := alertBlockedCharger cloud (Some "k") (Some sample_report) in
  let doc := failedDetections
               {| failed_imageUrl := "gs://bucket/x.jpg";
                  failed_chargerId := Some "C1";
                  failed_location := None;
                  failed_error := "timeout of 30000ms exceeded";
                  failed_errorDetails := JNull;
                  failed_timestamp := serverTimestamp |} in
  audit_calls (calls run) = [doc]
  /\ written (calls run) = []
  /\ topic_sends (calls run) = []
  /\ registry_reads (calls run) = []
  /\ exists refusal,
       firestore_validation undefined_value doc = Some refusal
       /\ completion run = inl refusal.
Proof.
  intros cloud run doc.
  apply (failed_record_is_refused cloud (Some "k") (Some sample_report)
           sample_report "gs://bucket/x.jpg" "k" timeout_error).
  - reflexivity.
  - right. exists sample_public_image. split; reflexivity.
  - left. reflexivity.
  - intros a Ha. simpl. unfold firestore_validation. rewrite Ha. discriminate.
Defined.

Lemma unregistered_record_is_refused_witness :
  let cloud := sample_cloud (inr true) (inr sample_results)
                 (inr [ {| owner_plate := "XY99ZZZ"; userId := "U2" |} ]) None
                 (firestore_validation undefined_value) in
  let run := alertBlockedCharger cloud (Some "k") (Some sample_report) in
  let record := unregisteredPlates
                  {| unregistered_plate := "AB12CDE";
                     unregistered_imageUrl := "gs://bucket/x.jpg";
                     unregistered_location := None;
                     unregistered_chargerId := Some "C1";
                     unregistered_reportedBy := None;
                     unregistered_confidence := Number "0.91";
                     unregistered_timestamp := serverTimestamp |} in
  written (calls run) = []
  /\ topic_sends (calls run) = []
  /\ exists refusal refusal',
       firestore_validation undefined_value record = Some refusal
       /\ firestore_validation undefined_value
            (failedDetections
               (failed_record sample_report "gs://bucket/x.jpg" refusal))
          = Some refusal'
       /\ audit_calls (calls run)
          = [record;
             failedDetections
               (failed_record sample_report "gs://bucket/x.jpg" refusal)]
       /\ completion run = inl refusal'.
Proof.
  intros cloud run record.
  apply (unregistered_record_is_refused cloud (Some "k") (Some sample_report)
           sample_report "gs://bucket/x.jpg" "k" sample_public_image
           sample_results {| plate := "ab12 cde"; score := Number "0.91" |} []
           [ {| owner_plate := "XY99ZZZ"; userId := "U2" |} ]).
  - reflexivity.
  - reflexivity.
  - reflexivity.
  - reflexivity.
  - reflexivity.
  - intros o [<-|[]]. discriminate.
  - reflexivity.
  - intros a Ha. simpl. unfold firestore_validation. rewrite Ha. discriminate.
Defined.

(** C1 as stated fails: the push service rejects the message of a run
    whose detection succeeded and whose owner is registered.  The send is
    in the trace as thrown, no AlertRecord is handed to the audit store,
    and the only document written is a FailedDetectionRecord. *)
Lemma dispatch_failure_not_contained :
  let run := alertBlockedCharger failing_send_cloud (Some "k")
               (Some full_report) in
  In (messaging_send full_message, false) (calls run)
  /\ ~ (exists r, In (alerts r) (audit_calls (calls run)))
  /\ ~ (exists r, In (alerts r) (written (calls run)))
  /\ written (calls run)
     = [failedDetections
          {| failed_imageUrl := "gs://bucket/x.jpg";
             failed_chargerId := Some "C1";
             failed_location := Some "Car park A";
             failed_error := "messaging/internal-error";
             failed_errorDetails := JNull;
             failed_timestamp := serverTimestamp |}].
Proof.
  intros run. split; [|split; [|split]].
  - vm_compute. do 4 right. left. reflexivity.
  - intros [r Hr]. vm_compute in Hr. destruct Hr as [Hr|[]]. discriminate Hr.
  - intros [r Hr]. vm_compute in Hr. destruct Hr as [Hr|[]]. discriminate Hr.
  - reflexivity.
Qed.

(** C3 on the code: the report of the scenarios, which has no location and
    no reporter, a detected plate and a registry without that plate.  The
    UnregisteredPlateRecord handed to the audit store holds [undefined]
    for the location and the reporter: no sentinel string stands in for
    them, where the AlertRecord of the same report holds ["Unknown"] and
    ["anonymous"]. *)
Theorem unregistered_record_keeps_missing_fields :
  audit_calls (calls (alertBlockedCharger unregistered_cloud (Some "k")
                        (Some sample_report)))
  = [unregisteredPlates
       {| unregistered_plate := "AB12CDE";
          unregistered_imageUrl := "gs://bucket/x.jpg";
          unregistered_location := None;
          unregistered_chargerId := Some "C1";
          unregistered_reportedBy := None;
          unregistered_confidence := Number "0.91";
          unregistered_timestamp := serverTimestamp |}]
  /\ alert_location sample_alert = "Unknown"
  /\ alert_reportedBy sample_alert = "anonymous".
Proof. repeat split. Qed.

(** * Properties of the string primitives *)

Module JSProps.

Lemma prefix_slash c r : String.prefix "/" (String c r) = (c =? "/")%char.
Proof.
  change (String.prefix "/" (String c r))
    with (match ascii_dec "/" c with
          | left _ => String.prefix EmptyString r
          | right _ => false
          end).
  destruct (ascii_dec "/" c) as [<-|Hne].
  - destruct r; reflexivity.
  - symmetry. apply Ascii.eqb_neq. congruence.
Qed.

Lemma indexOf_slash_cons c r :
  JS.indexOf "/" (String c r)
  = if (c =? "/")%char then 0%Z
    else if (JS.indexOf "/" r <? 0)%Z then (-1)%Z
         else (JS.indexOf "/" r + 1)%Z.
Proof.
  change (JS.indexOf "/" (String c r))
    with (if String.prefix "/" (String c r) then 0%Z
          else if (JS.indexOf "/" r <? 0)%Z then (-1)%Z
               else (JS.indexOf "/" r + 1)%Z).
  rewrite prefix_slash. reflexivity.
Qed.

Lemma indexOf_slash_nil : JS.indexOf "/" EmptyString = (-1)%Z.
Proof. reflexivity. Qed.

Lemma indexOf_slash_range s :
  (-1 <= JS.indexOf "/" s <= Z.of_nat (String.length s))%Z.
Proof.
  induction s as [|c r IH].
  - rewrite indexOf_slash_nil. simpl. lia.
  - rewrite indexOf_slash_cons. simpl String.length.
    destruct (c =? "/")%char; [lia|].
    destruct (JS.indexOf "/" r <? 0)%Z eqn:Hneg; [lia|].
    apply Z.ltb_ge in Hneg. lia.
Qed.

(** The first [/] of a string whose part before a [/] has none. *)
Lemma indexOf_slash_append b p :
  JS.indexOf "/" b = (-1)%Z ->
  JS.indexOf "/" (b ++ String "/" p) = Z.of_nat (String.length b).
Proof.
  induction b as [|c r IH]; intros Hb.
  - simpl append. rewrite indexOf_slash_cons. reflexivity.
  - simpl append. rewrite indexOf_slash_cons in *.
    destruct (c =? "/")%char; [discriminate|].
    destruct (JS.indexOf "/" r <? 0)%Z eqn:Hneg.
    + apply Z.ltb_lt in Hneg. pose proof (indexOf_slash_range r).
      rewrite IH by lia.
      destruct (Z.of_nat (String.length r) <? 0)%Z eqn:Hl.
      * apply Z.ltb_lt in Hl. lia.
      * simpl String.length. lia.
    + apply Z.ltb_ge in Hneg. lia.
Qed.

Lemma take_append b s : JS.take (String.length b) (b ++ s) = b.
Proof. induction b as [|c r IH]; simpl; [destruct s; reflexivity|]. rewrite IH. reflexivity. Qed.

Lemma drop_append b s : JS.drop (String.length b) (b ++ s) = s.
Proof. induction b as [|c r IH]; simpl; auto. Qed.

Lemma length_append b s :
  String.length (b ++ s) = String.length b + String.length s.
Proof. induction b as [|c r IH]; simpl; auto. Qed.

Lemma substring_prefix b s :
  JS.substring (b ++ s) 0 (Z.of_nat (String.length b)) = b.
Proof.
  unfold JS.substring, JS.clamp. rewrite length_append.
  change (0 <? 0)%Z with false. cbv iota.
  destruct (Z.of_nat (String.length b) <? 0)%Z eqn:Hl.
  { apply Z.ltb_lt in Hl. lia. }
  rewrite Nat2Z.id. simpl Z.to_nat. simpl Nat.min at 2.
  rewrite (Nat.min_l (String.length b)) by lia.
  simpl Nat.min. rewrite Nat.max_0_l, Nat.sub_0_r.
  simpl JS.drop. apply take_append.
Qed.

Lemma substring_from_suffix b p :
  JS.substring_from (b ++ String "/" p) (Z.of_nat (String.length b) + 1) = p.
Proof.
  unfold JS.substring_from, JS.clamp. rewrite length_append.
  destruct (Z.of_nat (String.length b) + 1 <? 0)%Z eqn:Hl.
  { apply Z.ltb_lt in Hl. lia. }
  replace (Z.to_nat (Z.of_nat (String.length b) + 1))
    with (String.length (b ++ "/")) by (rewrite length_append; simpl; lia).
  simpl String.length at 3.
  rewrite Nat.min_l by (rewrite length_append; simpl; lia).
  replace (b ++ String "/" p) with ((b ++ "/") ++ p).
  - apply drop_append.
  - clear. induction b as [|c r IH]; simpl; [reflexivity|].
    rewrite IH. reflexivity.
Qed.

Lemma replace_scheme rest : JS.replace "gs://" EmptyString ("gs://" ++ rest) = rest.
Proof.
  change ("gs://" ++ rest) with (String "g" (String "s" (String ":" (String "/" (String "/" rest))))).
  unfold JS.replace.
  change (String.prefix "gs://" (String "g" (String "s" (String ":" (String "/" (String "/" rest))))))
    with (String.prefix EmptyString rest).
  destruct rest; reflexivity.
Qed.

End JSProps.

(** * Further properties of the trigger *)

Section TriggerProps.

Variable cloud : Services.

Lemma recognition_requests_app t u :
  recognition_requests (t ++ u)%list
  = (recognition_requests t ++ recognition_requests u)%list.
Proof.
  induction t as [|[c b] t IH]; simpl; [reflexivity|].
  destruct c; simpl; rewrite IH; reflexivity.
Qed.

Lemma storage_only_no_recognition t :
  storage_only t -> recognition_requests t = [].
Proof.
  induction 1 as [|[c b] t Hc _ IH]; simpl; [auto|].
  destruct c; try discriminate Hc; exact IH.
Qed.

(** The case analysis of a run that passed the guard, with the
    observations of the resolution part. *)
Ltac trigger_cases d image k :=
  destruct (try_block_cases cloud d image k)
    as [e pre Hres
       |url pre e Hres Hpr
       |url pre resp Hres Hpr Hrs
       |url pre resp first rest e Hres Hpr Hrs Hup
       |url pre resp first rest docs Hres Hpr Hrs Hup Hq doc
       |url pre resp first rest docs owner others e Hres Hpr Hrs Hup Hq m Hs
       |url pre resp first rest docs owner others Hres Hpr Hrs Hup Hq m Hs
          doc];
  pose proof (resolve_image_storage_only cloud image) as Hpre;
  rewrite Hres in Hpre; simpl in Hpre;
  pose proof (storage_only_no_recognition _ Hpre) as Hposts;
  destruct (storage_only_silent _ Hpre)
    as (Hsends & Hreads & Haudit & Hwritten);
  try (destruct (firestore_add cloud doc) eqn:Hadd; simpl);
  rewrite ?try_catch_throws;
  unfold try_catch, catch_block, await_, calls, completion; simpl;
  rewrite <- ?app_assoc; simpl.

Ltac trigger_observe :=
  autorewrite with trace; rewrite ?recognition_requests_app;
  repeat match goal with
         | H : topic_sends _ = [] |- _ => rewrite H
         | H : registry_reads _ = [] |- _ => rewrite H
         | H : audit_calls _ = [] |- _ => rewrite H
         | H : written _ = [] |- _ => rewrite H
         | H : recognition_requests _ = [] |- _ => rewrite H
         end;
  simpl.

Ltac trigger_members :=
  repeat match goal with
         | H : _ \/ _ |- _ => destruct H as [H|H]
         | H : False |- _ => destruct H
         | H : (_, _) = (_, _) |- _ => inversion H; subst; clear H
         end.

(** X1: One run asks the recognition service at most once, reads the registry
    at most once, sends at most one message and leaves at most one
    document in the audit store; it hands the store at most two
    documents, the second one being the record of a failed first write. *)
Theorem run_effect_bounds key data :
  let t := calls (alertBlockedCharger cloud key data) in
  length (recognition_requests t) <= 1
  /\ length (registry_reads t) <= 1
  /\ length (topic_sends t) <= 1
  /\ length (written t) <= 1
  /\ length (audit_calls t) <= 2
  /\ (length (audit_calls t) = 2 ->
      exists first e doc,
        firestore_add cloud first = Some e
        /\ audit_calls t = [first; failedDetections doc]
        /\ failed_error doc = message e).
Proof.
  unfold alertBlockedCharger.
  destruct (validate key data) as [[[d image] k]|].
  2:{ simpl. repeat split; auto. discriminate. }
  trigger_cases d image k.
  all: trigger_observe.
  all: repeat match goal with
         | |- context [resolved ?x] => destruct x eqn:?; simpl
         end.
  all: repeat split; auto; try discriminate.
  all: intros _; eexists _, _, _; repeat split; eauto.
Qed.

(** X2: The only error that leaves a run is the one the audit store throws
    for the FailedDetectionRecord of the [catch] block, the last call of
    the run; the errors of the object store, of the recognition service,
    of the registry and of the push service never reach the caller. *)
Theorem only_audit_errors_escape key data error :
  completion (alertBlockedCharger cloud key data) = inl error ->
  exists before doc,
    calls (alertBlockedCharger cloud key data)
    = (before ++ [(collection_add (failedDetections doc), false)])%list
    /\ firestore_add cloud (failedDetections doc) = Some error.
Proof.
  unfold alertBlockedCharger.
  destruct (validate key data) as [[[d image] k]|].
  2:{ simpl. discriminate. }
  trigger_cases d image k.
  all: try discriminate.
  all: match goal with
       | |- context [firestore_add cloud (failedDetections ?r)] =>
           destruct (firestore_add cloud (failedDetections r)) eqn:Hlog
       end; simpl; try discriminate.
  all: intros H; injection H as <-.
  all: match goal with
       | |- exists _ _, (?p ++ ?l)%list = _ /\ _ =>
           exists (p ++ removelast l)%list
       end; simpl.
  all: eexists; split; [rewrite <- app_assoc; simpl; reflexivity|].
  all: assumption.
Qed.

(** X3: When the plates the recognition service answers are ASCII text, every
    plate that leaves the pipeline, in a message or in a document of the
    audit store, is in normal form: it is ASCII text without white space
    and without lower-case letters, and normalizing it again changes
    nothing. *)
Theorem published_plates_are_normalized key data :
  (forall req answer candidate candidates,
      plate_reader cloud req = inr answer ->
      results_of answer = candidate :: candidates ->
      all_chars is_ascii (plate candidate) = true) ->
  let t := calls (alertBlockedCharger cloud key data) in
  (forall m, In m (topic_sends t) ->
             all_chars is_ascii (data_plate m) = true
             /\ all_chars canonical_byte (data_plate m) = true
             /\ normalizeDetected (data_plate m) = data_plate m)
  /\ (forall a p, In a (audit_calls t) -> audit_plate a = Some p ->
                  all_chars is_ascii p = true
                  /\ all_chars canonical_byte p = true
                  /\ normalizeDetected p = p).
Proof.
  intros Hascii. unfold alertBlockedCharger.
  destruct (validate key data) as [[[d image] k]|].
  2:{ simpl. split; intros; contradiction. }
  trigger_cases d image k.
  all: trigger_observe.
  all: split; [intros x Hx|intros x p Hx Hp].
  all: trigger_members; subst; try (simpl in Hp); simpl;
    try discriminate.
  all: try (injection Hp as <-).
  all: pose proof (Hascii _ _ _ _ Hpr Hrs) as Hplate.
  all: split; [apply normalizeDetected_ascii, Hplate|].
  all: split; [apply normalizeDetected_canonical
              |apply normalizeDetected_idempotent].
Qed.

(** X4: An AlertRecord is complete: its charger, location and reporter are
    never empty, its image address is the one of the report, and its
    public image address is no [gs://] address. *)
Theorem alert_record_is_complete key data r :
  In (alerts r) (audit_calls (calls (alertBlockedCharger cloud key data))) ->
  alert_chargerId r <> EmptyString
  /\ alert_location r <> EmptyString
  /\ alert_reportedBy r <> EmptyString
  /\ alert_imageUrl r <> EmptyString
  /\ (exists d, data = Some d /\ imageUrl d = Some (alert_imageUrl r))
  /\ JS.startsWith (alert_publicImageUrl r) "gs://" = false.
Proof.
  unfold alertBlockedCharger.
  destruct (validate key data) as [[[d image] k]|] eqn:Hv.
  2:{ simpl. intros []. }
  apply validate_Some in Hv. destruct Hv as (-> & Himage & _ & Htruthy & _).
  assert (Hdefault : forall v s, s <> EmptyString ->
                                 JS.or_else v s <> EmptyString).
  { intros [[|c v]|] s Hs; simpl; auto; discriminate. }
  trigger_cases d image k.
  all: trigger_observe.
  all: intros Hin; trigger_members; try discriminate.
  all: injection Hin as <-; simpl.
  all: repeat split; try (apply Hdefault; discriminate).
  all: try (destruct image; [discriminate Htruthy|discriminate]).
  all: try (exists d; auto).
  all: unfold resolve_image in Hres;
    destruct (JS.startsWith image "gs://") eqn:Hgs;
    [ apply (getPublicUrl_result_public cloud image); rewrite Hres;
      reflexivity
    | injection Hres as <- _; exact Hgs ].
Qed.

(** A message names the user of the document the registry query found
    for its plate. *)
Lemma sent_message_owner key data msg :
  In msg (topic_sends (calls (alertBlockedCharger cloud key data))) ->
  exists registry owner others,
    userPlates cloud = inr registry
    /\ plate_query registry (data_plate msg) = owner :: others
    /\ data_ownerId msg = userId owner.
Proof.
  unfold alertBlockedCharger.
  destruct (validate key data) as [[[d image] k]|].
  2:{ simpl. intros []. }
  trigger_cases d image k.
  all: trigger_observe.
  all: intros Hin; trigger_members; subst.
  all: exists docs, owner, others; auto.
Qed.

Lemma plate_query_first_match registry p owner others :
  plate_query registry p = owner :: others ->
  exists later,
    filter (fun o => owner_plate o =? p) registry = owner :: later.
Proof.
  unfold plate_query.
  destruct (filter (fun o => owner_plate o =? p) registry) as [|x l];
    simpl; [discriminate|].
  intros H. injection H as -> _. eauto.
Qed.

(** X5: The owner a message names is the user of the first document of the
    registry whose plate is the plate of the message, and no other
    document of the registry is looked at. *)
Theorem notified_owner_is_first_match key data msg :
  In msg (topic_sends (calls (alertBlockedCharger cloud key data))) ->
  exists registry owner later,
    userPlates cloud = inr registry
    /\ filter (fun o => owner_plate o =? data_plate msg) registry
       = owner :: later
    /\ owner_plate owner = data_plate msg
    /\ data_ownerId msg = userId owner.
Proof.
  intros Hin.
  destruct (sent_message_owner key data msg Hin)
    as (registry & owner & others & Hreg & Hq & Hid).
  destruct (plate_query_first_match _ _ _ _ Hq) as [later Hf].
  exists registry, owner, later. repeat split; auto.
  assert (Hin' : In owner (filter (fun o => owner_plate o =? data_plate msg)
                             registry)).
  { rewrite Hf. left. reflexivity. }
  apply filter_In in Hin'. destruct Hin' as [_ He].
  apply String.eqb_eq in He. exact He.
Qed.

End TriggerProps.

Lemma run_effect_bounds_witness :
  exists first e doc,
    reject_all first = Some e
    /\ audit_calls
         (calls (alertBlockedCharger
                   (sample_cloud (inr true) (inr sample_results)
                      (inr sample_registry) None reject_all)
                   (Some "k") (Some full_report)))
       = [first; failedDetections doc]
    /\ failed_error doc = message e.
Proof.
  apply (run_effect_bounds
           (sample_cloud (inr true) (inr sample_results)
              (inr sample_registry) None reject_all)
           (Some "k") (Some full_report)).
  reflexivity.
Defined.

Lemma published_plates_are_normalized_witness :
  all_chars is_ascii (data_plate sample_message) = true
  /\ all_chars canonical_byte (data_plate sample_message) = true
  /\ normalizeDetected (data_plate sample_message) = data_plate sample_message.
Proof.
  assert (Hascii : forall req answer candidate candidates,
             plate_reader registered_cloud req = inr answer ->
             results_of answer = candidate :: candidates ->
             all_chars is_ascii (plate candidate) = true).
  { intros req answer candidate candidates Hanswer Hresults.
    injection Hanswer as <-. injection Hresults as <- _. reflexivity. }
  apply (proj1 (published_plates_are_normalized registered_cloud (Some "k")
                  (Some sample_report) Hascii) sample_message).
  left. reflexivity.
Defined.

Lemma only_audit_errors_escape_witness :
  exists before doc,
    calls (alertBlockedCharger
             (sample_cloud (inr true) (inl timeout_error)
                (inr sample_registry) None reject_all)
             (Some "k") (Some full_report))
    = (before ++ [(collection_add (failedDetections doc), false)])%list
    /\ reject_all (failedDetections doc)
       = Some {| message := "14 UNAVAILABLE"; response := None |}.
Proof.
  apply (only_audit_errors_escape
           (sample_cloud (inr true) (inl timeout_error)
              (inr sample_registry) None reject_all)
           (Some "k") (Some full_report)).
  reflexivity.
Defined.

Lemma alert_record_is_complete_witness :
  alert_location sample_alert <> EmptyString
  /\ JS.startsWith (alert_publicImageUrl sample_alert) "gs://" = false.
Proof.
  destruct (alert_record_is_complete registered_cloud (Some "k")
              (Some sample_report) sample_alert)
    as (_ & Hl & _ & _ & _ & Hp).
  - left. reflexivity.
  - split; assumption.
Defined.

Lemma notified_owner_is_first_match_witness :
  exists registry owner later,
    userPlates registered_cloud = inr registry
    /\ filter (fun o => owner_plate o =? data_plate sample_message) registry
       = owner :: later
    /\ owner_plate owner = data_plate sample_message
    /\ data_ownerId sample_message = userId owner.
Proof.
  apply (notified_owner_is_first_match registered_cloud (Some "k")
           (Some sample_report) sample_message).
  left. reflexivity.
Defined.



(** * Further properties of the address resolution *)

Section ResolutionProps.

Variable cloud : Services.

Lemma startsWith_gs url :
  JS.startsWith url "gs://" = true -> exists rest, url = "gs://" ++ rest.
Proof.
  unfold JS.startsWith. intros H.
  apply String.prefix_correct in H. exists (JS.drop 5 url).
  rewrite <- H at 1. clear H.
  do 5 (destruct url as [|? url]; [reflexivity|]; simpl; f_equal).
  destruct url; reflexivity.
Qed.

(** [getPublicUrl] on an internal address, step by step. *)
Lemma getPublicUrl_internal rest :
  let b := JS.substring rest 0 (JS.indexOf "/" rest) in
  let p := JS.substring_from rest (JS.indexOf "/" rest + 1) in
  getPublicUrl cloud ("gs://" ++ rest)
  = match storage_exists cloud b p with
    | inl e => (inl e, [(file_exists b p, false)])
    | inr false =>
        (inl {| message := "File does not exist: " ++ p; response := None |},
         [(file_exists b p, true)])
    | inr true =>
        match storage_makePublic cloud b p with
        | Some e =>
            (inl e, [(file_exists b p, true); (file_makePublic b p, false)])
        | None =>
            (inr ("https://storage.googleapis.com/" ++ b ++ "/"
                  ++ JS.encodeURIComponent p),
             [(file_exists b p, true); (file_makePublic b p, true)])
        end
    end.
Proof.
  intros b p. unfold getPublicUrl.
  rewrite (startsWith_append "gs://" rest). cbv iota. simpl negb. cbv iota.
  rewrite JSProps.replace_scheme. cbv zeta. fold b p.
  unfold bind, try_catch, await, await_, throw, ret.
  destruct (storage_exists cloud b p) as [e|[|]]; simpl; try reflexivity.
  destruct (storage_makePublic cloud b p); reflexivity.
Qed.

(** X6: An object is made public only after the object store has confirmed
    that it exists: the call that changes the access policy is the second
    call of the resolution and follows a successful existence check of the
    same object. *)
Theorem object_made_public_only_if_exists url b p ok :
  In (file_makePublic b p, ok) (calls (getPublicUrl cloud url)) ->
  storage_exists cloud b p = inr true
  /\ calls (getPublicUrl cloud url)
     = [(file_exists b p, true); (file_makePublic b p, ok)].
Proof.
  destruct (JS.startsWith url "gs://") eqn:Hgs.
  - destruct (startsWith_gs url Hgs) as [rest ->].
    rewrite getPublicUrl_internal.
    destruct (storage_exists cloud _ _) as [e|[|]] eqn:He; simpl.
    2: destruct (storage_makePublic cloud _ _) eqn:Hp; simpl.
    all: intros Hin;
      repeat match goal with
             | H : _ \/ _ |- _ => destruct H as [H|H]
             | H : False |- _ => destruct H
             | H : (_, _) = (_, _) |- _ => inversion H; subst; clear H
             end.
    all: auto.
  - unfold getPublicUrl. rewrite Hgs. simpl. intros [].
Qed.

(** The resolution of [gs://bucket/path] for a bucket name without
    [/], step by step. *)
Lemma getPublicUrl_named_object bucket path :
  JS.indexOf "/" bucket = (-1)%Z ->
  getPublicUrl cloud ("gs://" ++ bucket ++ "/" ++ path)
  = match storage_exists cloud bucket path with
    | inl e => (inl e, [(file_exists bucket path, false)])
    | inr false =>
        (inl {| message := "File does not exist: " ++ path;
                response := None |},
         [(file_exists bucket path, true)])
    | inr true =>
        match storage_makePublic cloud bucket path with
        | Some e =>
            (inl e, [(file_exists bucket path, true);
                     (file_makePublic bucket path, false)])
        | None =>
            (inr ("https://storage.googleapis.com/" ++ bucket ++ "/"
                  ++ JS.encodeURIComponent path),
             [(file_exists bucket path, true);
              (file_makePublic bucket path, true)])
        end
    end.
Proof.
  intros Hb. rewrite getPublicUrl_internal.
  change (bucket ++ "/" ++ path) with (bucket ++ String "/" path).
  rewrite (JSProps.indexOf_slash_append bucket path Hb).
  rewrite JSProps.substring_prefix, JSProps.substring_from_suffix.
  reflexivity.
Qed.

(** X7: For an address [gs://bucket/path] with a bucket and a path that are
    not empty, the path of ASCII characters, the resolution throws in
    three cases only, each with its own trace: the existence check of
    [path] in [bucket] throws; the object does not exist, and the error
    names its path while the object store is not asked to change
    anything; the change of the access policy throws.  The error of the
    object store is passed on as it is.  (With an empty name the storage
    client throws before any call, and [encodeURIComponent] throws on half
    a surrogate pair, which ASCII text does not have.) *)
Theorem getPublicUrl_error_origin bucket path error :
  bucket <> EmptyString -> JS.indexOf "/" bucket = (-1)%Z ->
  path <> EmptyString -> all_chars is_ascii path = true ->
  let url := "gs://" ++ bucket ++ "/" ++ path in
  completion (getPublicUrl cloud url) = inl error ->
  (storage_exists cloud bucket path = inl error
   /\ calls (getPublicUrl cloud url) = [(file_exists bucket path, false)])
  \/ (storage_exists cloud bucket path = inr false
      /\ error = {| message := "File does not exist: " ++ path;
                    response := None |}
      /\ calls (getPublicUrl cloud url) = [(file_exists bucket path, true)])
  \/ (storage_exists cloud bucket path = inr true
      /\ storage_makePublic cloud bucket path = Some error
      /\ calls (getPublicUrl cloud url)
         = [(file_exists bucket path, true);
            (file_makePublic bucket path, false)]).
Proof.
  intros _ Hb _ _ url. subst url. rewrite (getPublicUrl_named_object _ _ Hb).
  destruct (storage_exists cloud bucket path) as [e|[|]] eqn:He; simpl.
  2: destruct (storage_makePublic cloud bucket path) eqn:Hp; simpl.
  all: intros H; try discriminate H; injection H as <-.
  all: auto 6.
Qed.

(** X8: The resolution takes an address [gs://bucket/path] with a bucket and a
    path that are not empty apart as it was put together: the object it
    checks and makes public is [path] in [bucket], and the public address
    is the host, the bucket and the percent-encoded path. *)
Theorem getPublicUrl_checks_named_object bucket path :
  bucket <> EmptyString -> JS.indexOf "/" bucket = (-1)%Z ->
  path <> EmptyString ->
  let url := "gs://" ++ bucket ++ "/" ++ path in
  (exists ok rest,
      calls (getPublicUrl cloud url) = (file_exists bucket path, ok) :: rest)
  /\ (forall b p ok,
        In (file_makePublic b p, ok) (calls (getPublicUrl cloud url)) ->
        b = bucket /\ p = path)
  /\ (forall public, completion (getPublicUrl cloud url) = inr public ->
        public = "https://storage.googleapis.com/" ++ bucket ++ "/"
                 ++ JS.encodeURIComponent path).
Proof.
  intros _ Hb _ url. subst url. rewrite (getPublicUrl_named_object _ _ Hb).
  destruct (storage_exists cloud bucket path) as [e|[|]]; simpl.
  2: destruct (storage_makePublic cloud bucket path); simpl.
  all: split; [eauto|split].
  all: try (intros b p ok Hin;
            repeat match goal with
                   | H : _ \/ _ |- _ => destruct H as [H|H]
                   | H : False |- _ => destruct H
                   | H : (_, _) = (_, _) |- _ => inversion H; subst; clear H
                   end; auto).
  all: intros public H; inversion H; reflexivity.
Qed.

End ResolutionProps.

Lemma object_made_public_only_if_exists_witness :
  storage_exists registered_cloud "bucket" "x.jpg" = inr true
  /\ calls (getPublicUrl registered_cloud "gs://bucket/x.jpg")
     = [(file_exists "bucket" "x.jpg", true);
        (file_makePublic "bucket" "x.jpg", true)].
Proof.
  apply (object_made_public_only_if_exists registered_cloud
           "gs://bucket/x.jpg" "bucket" "x.jpg" true).
  right. left. reflexivity.
Defined.

Lemma getPublicUrl_error_origin_witness :
  let cloud := sample_cloud (inr false) (inr sample_results)
                 (inr sample_registry) None accept_all in
  calls (getPublicUrl cloud ("gs://" ++ "bucket" ++ "/" ++ "x.jpg"))
  = [(file_exists "bucket" "x.jpg", true)]
  /\ completion (getPublicUrl cloud ("gs://" ++ "bucket" ++ "/" ++ "x.jpg"))
     = inl {| message := "File does not exist: x.jpg"; response := None |}.
Proof.
  intros cloud.
  destruct (getPublicUrl_error_origin cloud "bucket" "x.jpg"
              {| message := "File does not exist: x.jpg"; response := None |})
    as [[He _]|[(_ & _ & Hcalls)|(He & _)]].
  - discriminate.
  - reflexivity.
  - discriminate.
  - reflexivity.
  - reflexivity.
  - discriminate He.
  - split; [exact Hcalls|reflexivity].
  - discriminate He.
Defined.

Lemma getPublicUrl_checks_named_object_witness :
  exists ok rest,
    calls (getPublicUrl registered_cloud
             ("gs://" ++ "ev-alert-web.firebasestorage.app" ++ "/"
              ++ "chargerUploads/U1/1700000000000.jpg"))
    = (file_exists "ev-alert-web.firebasestorage.app"
         "chargerUploads/U1/1700000000000.jpg", ok) :: rest.
Proof.
  apply (getPublicUrl_checks_named_object registered_cloud
           "ev-alert-web.firebasestorage.app"
           "chargerUploads/U1/1700000000000.jpg").
  - discriminate.
  - reflexivity.
  - discriminate.
Defined.

(** * Properties of the percent-encoding *)

Module EncodingProps.

Lemma encode_char_decodes c r :
  percent_decode (JS.encodeURIComponent (String c r))
  = String c (percent_decode (JS.encodeURIComponent r)).
Proof.
  destruct c as [[] [] [] [] [] [] [] []]; reflexivity.
Qed.

(** Reading back a percent-encoded string gives the string. *)
Lemma percent_decode_encodeURIComponent s :
  percent_decode (JS.encodeURIComponent s) = s.
Proof.
  induction s as [|c r IH]; [reflexivity|].
  rewrite encode_char_decodes, IH. reflexivity.
Qed.

Lemma encodeURIComponent_injective s1 s2 :
  JS.encodeURIComponent s1 = JS.encodeURIComponent s2 -> s1 = s2.
Proof.
  intros H. rewrite <- (percent_decode_encodeURIComponent s1), H.
  apply percent_decode_encodeURIComponent.
Qed.

Lemma encode_char_safe c r :
  all_chars url_safe (JS.encodeURIComponent (String c r))
  = all_chars url_safe (JS.encodeURIComponent r).
Proof.
  destruct c as [[] [] [] [] [] [] [] []]; reflexivity.
Qed.

Lemma encodeURIComponent_safe s :
  all_chars url_safe (JS.encodeURIComponent s) = true.
Proof.
  induction s as [|c r IH]; [reflexivity|].
  rewrite encode_char_safe. exact IH.
Qed.

Lemma safe_has_no_slash s :
  all_chars url_safe s = true -> JS.indexOf "/" s = (-1)%Z.
Proof.
  induction s as [|c r IH]; [reflexivity|].
  simpl all_chars. intros H. apply andb_prop in H. destruct H as [Hc Hr].
  rewrite JSProps.indexOf_slash_cons, (IH Hr).
  destruct (c =? "/")%char eqn:Hs; [|reflexivity].
  apply Ascii.eqb_eq in Hs. subst c. discriminate Hc.
Qed.

(** A string with a [/] splits at its first [/]. *)
Lemma indexOf_slash_split s :
  (0 <= JS.indexOf "/" s)%Z ->
  exists b p, s = b ++ String "/" p /\ JS.indexOf "/" b = (-1)%Z.
Proof.
  induction s as [|c r IH]; [simpl; lia|].
  rewrite JSProps.indexOf_slash_cons.
  destruct (c =? "/")%char eqn:Hc.
  - intros _. apply Ascii.eqb_eq in Hc. subst c.
    exists EmptyString, r. auto.
  - destruct (JS.indexOf "/" r <? 0)%Z eqn:Hneg; [lia|].
    apply Z.ltb_ge in Hneg. intros _.
    destruct (IH Hneg) as (b & p & -> & Hb).
    exists (String c b), p. split; [reflexivity|].
    rewrite JSProps.indexOf_slash_cons, Hc, Hb. reflexivity.
Qed.

(** The bucket name the resolution reads has no [/]. *)
Lemma bucket_has_no_slash rest :
  JS.indexOf "/" (JS.substring rest 0 (JS.indexOf "/" rest)) = (-1)%Z.
Proof.
  destruct (JS.indexOf "/" rest <? 0)%Z eqn:Hneg.
  - apply Z.ltb_lt in Hneg.
    pose proof (JSProps.indexOf_slash_range rest).
    replace (JS.indexOf "/" rest) with (-1)%Z by lia.
    unfold JS.substring, JS.clamp. simpl. destruct rest; reflexivity.
  - apply Z.ltb_ge in Hneg.
    destruct (indexOf_slash_split rest Hneg) as (b & p & -> & Hb).
    rewrite (JSProps.indexOf_slash_append b p Hb), JSProps.substring_prefix.
    exact Hb.
Qed.

(** Two strings that split at their first [/] are equal part by part. *)
Lemma split_at_slash_unique b1 s1 b2 s2 :
  JS.indexOf "/" b1 = (-1)%Z -> JS.indexOf "/" b2 = (-1)%Z ->
  b1 ++ String "/" s1 = b2 ++ String "/" s2 -> b1 = b2 /\ s1 = s2.
Proof.
  revert b2. induction b1 as [|c r IH]; intros [|c2 r2] H1 H2 H; simpl in H.
  - injection H as ->. auto.
  - injection H as <- _. rewrite JSProps.indexOf_slash_cons in H2.
    discriminate H2.
  - injection H as -> _. rewrite JSProps.indexOf_slash_cons in H1.
    discriminate H1.
  - injection H as -> H.
    rewrite JSProps.indexOf_slash_cons in H1, H2.
    destruct (c2 =? "/")%char; [discriminate|].
    destruct (JS.indexOf "/" r <? 0)%Z eqn:Hr;
      [|apply Z.ltb_ge in Hr; lia].
    destruct (JS.indexOf "/" r2 <? 0)%Z eqn:Hr2;
      [|apply Z.ltb_ge in Hr2; lia].
    apply Z.ltb_lt in Hr, Hr2.
    pose proof (JSProps.indexOf_slash_range r).
    pose proof (JSProps.indexOf_slash_range r2).
    destruct (IH r2) as [-> ->]; auto; lia.
Qed.

Section PublicAddress.

Variable cloud : Services.

(** X10: The shape of a public address: the host of the object store, a bucket
    name without [/], and one more segment, the encoded path, made of
    unreserved bytes and [%] only. *)
Theorem public_address_shape url public :
  JS.startsWith url "gs://" = true ->
  completion (getPublicUrl cloud url) = inr public ->
  exists bucket segment,
    public = "https://storage.googleapis.com/" ++ bucket ++ "/" ++ segment
    /\ JS.indexOf "/" bucket = (-1)%Z
    /\ JS.indexOf "/" segment = (-1)%Z
    /\ all_chars url_safe segment = true.
Proof.
  intros Hgs. destruct (startsWith_gs url Hgs) as [rest ->].
  rewrite getPublicUrl_internal.
  destruct (storage_exists cloud _ _) as [e|[|]]; simpl; try discriminate.
  destruct (storage_makePublic cloud _ _); simpl; try discriminate.
  intros H. injection H as <-.
  eexists _, _. split; [reflexivity|].
  split; [apply bucket_has_no_slash|].
  split; [apply safe_has_no_slash|]; apply encodeURIComponent_safe.
Qed.

(** X11: The resolution loses nothing: two addresses [gs://bucket/path], with
    buckets and paths that are not empty, that resolve to the same public
    address are the same address, bucket and path.  (These are the
    internal addresses the program resolves at all: with an empty bucket
    or path the storage client throws.) *)
Theorem public_address_determines_object bucket1 path1 bucket2 path2 public :
  bucket1 <> EmptyString -> JS.indexOf "/" bucket1 = (-1)%Z ->
  path1 <> EmptyString ->
  bucket2 <> EmptyString -> JS.indexOf "/" bucket2 = (-1)%Z ->
  path2 <> EmptyString ->
  completion (getPublicUrl cloud ("gs://" ++ bucket1 ++ "/" ++ path1))
  = inr public ->
  completion (getPublicUrl cloud ("gs://" ++ bucket2 ++ "/" ++ path2))
  = inr public ->
  bucket1 = bucket2 /\ path1 = path2.
Proof.
  intros _ Hb1 _ _ Hb2 _.
  rewrite (getPublicUrl_named_object cloud _ _ Hb1).
  rewrite (getPublicUrl_named_object cloud _ _ Hb2).
  destruct (storage_exists cloud bucket1 path1) as [e|[|]]; simpl;
    try discriminate.
  destruct (storage_makePublic cloud bucket1 path1); simpl; try discriminate.
  destruct (storage_exists cloud bucket2 path2) as [e|[|]]; simpl;
    try discriminate.
  destruct (storage_makePublic cloud bucket2 path2); simpl; try discriminate.
  intros H1 H2. injection H1 as <-. injection H2 as H2.
  destruct (split_at_slash_unique bucket2 (JS.encodeURIComponent path2)
              bucket1 (JS.encodeURIComponent path1)) as [Hb Hp]; auto.
  apply encodeURIComponent_injective in Hp. auto.
Qed.

End PublicAddress.

Lemma public_address_shape_witness :
  exists bucket segment,
    "https://storage.googleapis.com/bucket/dir%2Fx%20y.jpg"
    = "https://storage.googleapis.com/" ++ bucket ++ "/" ++ segment
    /\ JS.indexOf "/" bucket = (-1)%Z
    /\ JS.indexOf "/" segment = (-1)%Z
    /\ all_chars url_safe segment = true.
Proof.
  apply (public_address_shape registered_cloud "gs://bucket/dir/x y.jpg");
    reflexivity.
Defined.

Lemma public_address_determines_object_witness :
  completion (getPublicUrl registered_cloud
                ("gs://" ++ "bucket" ++ "/" ++ "dir/x y.jpg"))
  = inr "https://storage.googleapis.com/bucket/dir%2Fx%20y.jpg"
  /\ "bucket" = "bucket" /\ "dir/x y.jpg" = "dir/x y.jpg".
Proof.
  split; [reflexivity|].
  apply (public_address_determines_object registered_cloud
           "bucket" "dir/x y.jpg" "bucket" "dir/x y.jpg"
           "https://storage.googleapis.com/bucket/dir%2Fx%20y.jpg");
    try reflexivity; discriminate.
Defined.

End EncodingProps.

(** * Properties of the callable function *)

Module CallableProps.

Import Callable.

(** Every run of the function ends in one of the ten states. *)
Lemma manageChargerSubscription_cases admin request :
  run_of admin request (manageChargerSubscription admin request).
Proof.
  unfold manageChargerSubscription.
  destruct (auth request) as [a|] eqn:Ha; [|apply unauthenticated; auto].
  destruct (request_data request) as [o|] eqn:Ho;
    [|eapply missing_data; eauto].
  assert (Hsome : Some o <> None) by discriminate.
  change (data_token o) with (token (Some o)).
  change (data_action o) with (action (Some o)).
  destruct (token (Some o)) as [[|c0 r0]|] eqn:Ht;
    try (eapply missing_argument;
         [eauto|rewrite Ho, Ht; auto|rewrite Ho; exact Hsome]; fail).
  destruct (action (Some o)) as [[|c1 r1]|] eqn:Hact;
    try (eapply missing_argument;
         [eauto|rewrite Ho, Hact; auto|rewrite Ho; exact Hsome]; fail).
  rewrite <- Ho in Ht, Hact.
  cbv beta iota zeta.
  destruct (String c1 r1 =? "subscribe") eqn:Hs.
  - apply String.eqb_eq in Hs. rewrite Hs in *.
    unfold Effect.call_, Effect.bind, Effect.catch, Effect.pure, Effect.raise.
    destruct (messaging_subscribeToTopic admin _ _) eqn:Hm.
    + eapply subscribe_rejected; eauto.
    + destruct (doc_set admin _ _) eqn:Hd.
      * eapply subscribe_unrecorded; eauto.
      * eapply subscribed; eauto.
  - apply String.eqb_neq in Hs.
    destruct (String c1 r1 =? "unsubscribe") eqn:Hu.
    + apply String.eqb_eq in Hu. rewrite Hu in *.
      unfold Effect.call_, Effect.bind, Effect.catch, Effect.pure,
        Effect.raise.
      destruct (messaging_unsubscribeFromTopic admin _ _) eqn:Hm.
      * eapply unsubscribe_rejected; eauto.
      * destruct (doc_update admin _ _) eqn:Hd.
        -- eapply unsubscribe_unrecorded; eauto.
        -- eapply unsubscribed; eauto.
    + apply String.eqb_neq in Hu.
      eapply unknown_action; eauto.
Qed.

Ltac by_cases admin request :=
  destruct (manageChargerSubscription_cases admin request)
    as [Ha|a Ha Hmiss Hdata|a tk act Ha Ht Htk Hact Hacts Hs Hu
       |a tk e Ha Ht Htk Hact Hm|a tk e Ha Ht Htk Hact Hm Hd
       |a tk Ha Ht Htk Hact Hm Hd
       |a tk e Ha Ht Htk Hact Hm|a tk e Ha Ht Htk Hact Hm Hd
       |a tk Ha Ht Htk Hact Hm Hd
       |a Ha Hdata];
  unfold Effect.outcome, Effect.trace; simpl.

(** X12: The error tells its cause.  A request without identity is refused
    with ["unauthenticated"]; a request of a known caller without data
    fails with the [TypeError] of the destructuring of line 232, which is
    no [HttpsError]; one with data but with a missing or empty token or
    action is refused with ["invalid-argument"]; all three before any call
    is made.  An error of one of these kinds has no other cause, and every
    other error is an [HttpsError] with the code ["internal"]. *)
Theorem error_code_tells_cause admin request :
  (auth request = None ->
   manageChargerSubscription admin request
   = (inl (Https {| code := "unauthenticated";
                    https_message :=
                      "Must be logged in to change settings." |}),
      []))
  /\ (auth request <> None -> request_data request = None ->
      manageChargerSubscription admin request = (inl TypeError, []))
  /\ (auth request <> None -> request_data request <> None ->
      JS.truthy (token (request_data request)) = false
      \/ JS.truthy (action (request_data request)) = false ->
      manageChargerSubscription admin request
      = (inl (Https {| code := "invalid-argument";
                       https_message := "Missing token or action" |}), []))
  /\ (forall x,
        Effect.outcome (manageChargerSubscription admin request) = inl x ->
        (x = TypeError /\ auth request <> None
         /\ request_data request = None)
        \/ exists h,
             x = Https h
             /\ ((code h = "unauthenticated" /\ auth request = None)
                 \/ (code h = "invalid-argument" /\ auth request <> None
                     /\ request_data request <> None
                     /\ (JS.truthy (token (request_data request)) = false
                         \/ JS.truthy (action (request_data request))
                            = false))
                 \/ (code h = "internal" /\ auth request <> None
                     /\ JS.truthy (token (request_data request)) = true
                     /\ JS.truthy (action (request_data request)) = true))).
Proof.
  split; [|split; [|split]].
  - intros Hnone. by_cases admin request; congruence.
  - intros Hsome Hnone. by_cases admin request; try congruence.
    all: rewrite Hnone in Ht; discriminate Ht.
  - intros Hsome Hdata0 Hmissing.
    by_cases admin request; try congruence.
    all: rewrite Ht, Hact in Hmissing;
      destruct Hmissing as [Hm0|Hm0]; try congruence; discriminate Hm0.
  - intros x. by_cases admin request; intros H; inversion H; subst; simpl.
    1: right; eexists; split; [reflexivity|]; left; auto.
    1: right; eexists; split; [reflexivity|]; right; left;
      repeat split; auto; congruence.
    6: left; repeat split; auto; congruence.
    all: right; eexists; split; [reflexivity|]; right; right;
      rewrite Ha, Ht, Hact; repeat split; auto; congruence.
Qed.

Lemma error_code_tells_cause_witness :
  manageChargerSubscription accepting request_without_data
  = (inl TypeError, [])
  /\ manageChargerSubscription accepting
       {| auth := Some {| uid := "U1" |};
          request_data := Some {| data_token := Some EmptyString;
                                  data_action := Some "subscribe" |} |}
     = (inl (Https {| code := "invalid-argument";
                      https_message := "Missing token or action" |}), []).
Proof.
  split.
  - destruct (error_code_tells_cause accepting request_without_data)
      as (_ & Hdata & _).
    apply Hdata; [discriminate|reflexivity].
  - destruct (error_code_tells_cause accepting
                {| auth := Some {| uid := "U1" |};
                   request_data := Some {| data_token := Some EmptyString;
                                           data_action := Some "subscribe" |}
                |})
      as (_ & _ & Hmissing & _).
    apply Hmissing; [discriminate|discriminate|left; reflexivity].
Defined.

(** X13: An action that is neither ["subscribe"] nor ["unsubscribe"] makes no
    call; the [HttpsError] the [try] block throws for it is caught by the
    [catch] of the function, so that the caller gets the code ["internal"],
    not ["invalid-argument"]. *)
Theorem unknown_action_is_internal admin request identity registration verb :
  auth request = Some identity ->
  token (request_data request) = Some registration ->
  registration <> EmptyString ->
  action (request_data request) = Some verb -> verb <> EmptyString ->
  verb <> "subscribe" -> verb <> "unsubscribe" ->
  manageChargerSubscription admin request
  = (inl (Https {| code := "internal";
                   https_message :=
                     "Action must be 'subscribe' or 'unsubscribe'" |}),
     []).
Proof.
  intros Ha0 Ht0 Htk0 Hact0 Hacts0 Hs0 Hu0.
  by_cases admin request; try congruence.
  - rewrite Ht0, Hact0 in Hmiss. destruct registration; [congruence|].
    destruct verb; [congruence|]. destruct Hmiss; discriminate.
  - reflexivity.
  - rewrite Hdata in Ht0. discriminate Ht0.
Qed.

Lemma unknown_action_is_internal_witness :
  manageChargerSubscription accepting (request_of "toggle")
  = (inl (Https {| code := "internal";
                   https_message :=
                     "Action must be 'subscribe' or 'unsubscribe'" |}),
     []).
Proof.
  apply (unknown_action_is_internal accepting (request_of "toggle")
           {| uid := "U1" |} "tok" "toggle");
    try reflexivity; discriminate.
Defined.

(** X14: A write to [subscriptions] is the second and last call of a run: it
    follows the topic operation of the same token, which succeeded, and it
    goes to the document of the caller's own identity.  When the write
    throws, the caller gets an ["internal"] error although the topic
    operation has taken place. *)
Theorem record_write_follows_topic_operation admin request c ok :
  In (c, ok) (Effect.trace (manageChargerSubscription admin request)) ->
  is_store_call c = true ->
  exists a tk,
    auth request = Some a /\ token (request_data request) = Some tk
    /\ ((c = subscriptions_set (uid a) (subscription_of a tk)
         /\ Effect.trace (manageChargerSubscription admin request)
            = [(subscribeToTopic tk topic_name, true); (c, ok)])
        \/ (c = subscriptions_update (uid a) unsubscription
            /\ Effect.trace (manageChargerSubscription admin request)
               = [(unsubscribeFromTopic tk topic_name, true); (c, ok)]))
    /\ (ok = true ->
        exists res,
          Effect.outcome (manageChargerSubscription admin request) = inr res
          /\ result_status res = "success")
    /\ (ok = false ->
        exists e,
          Effect.outcome (manageChargerSubscription admin request)
          = inl (internal (message e))).
Proof.
  by_cases admin request; intros Hin Hc.
  all: repeat match goal with
         | H : _ \/ _ |- _ => destruct H as [H|H]
         | H : False |- _ => destruct H
         | H : (_, _) = (_, _) |- _ => inversion H; subst; clear H
         end; try discriminate.
  all: exists a, tk; repeat split; auto; try discriminate; eauto.
Qed.

Lemma record_write_follows_topic_operation_witness :
  Effect.trace (manageChargerSubscription without_document
                  (request_of "unsubscribe"))
  = [(unsubscribeFromTopic "tok" topic_name, true);
     (subscriptions_update "U1" unsubscription, false)]
  /\ exists e,
       Effect.outcome (manageChargerSubscription without_document
                         (request_of "unsubscribe"))
       = inl (internal (message e)).
Proof.
  destruct (record_write_follows_topic_operation without_document
              (request_of "unsubscribe")
              (subscriptions_update "U1" unsubscription) false)
    as (a & tk & Ha & Ht & Hshape & _ & Hfail).
  - right. left. reflexivity.
  - reflexivity.
  - split; [reflexivity|]. apply Hfail. reflexivity.
Defined.

(** X15: When the push service rejects the topic operation, it is the only
    call of the run: nothing is written to [subscriptions], and the caller
    gets an ["internal"] error whose message is the message of the error
    the push service threw for this operation. *)
Theorem rejected_topic_operation_writes_nothing admin request c :
  In (c, false) (Effect.trace (manageChargerSubscription admin request)) ->
  is_topic_call c = true ->
  Effect.trace (manageChargerSubscription admin request) = [(c, false)]
  /\ exists tk e,
       token (request_data request) = Some tk
       /\ ((c = subscribeToTopic tk "charger_alerts"
            /\ messaging_subscribeToTopic admin tk "charger_alerts" = Some e)
           \/ (c = unsubscribeFromTopic tk "charger_alerts"
               /\ messaging_unsubscribeFromTopic admin tk "charger_alerts"
                  = Some e))
       /\ Effect.outcome (manageChargerSubscription admin request)
          = inl (Https {| code := "internal";
                          https_message := message e |}).
Proof.
  by_cases admin request; intros Hin Hc.
  all: repeat match goal with
         | H : _ \/ _ |- _ => destruct H as [H|H]
         | H : False |- _ => destruct H
         | H : (_, _) = (_, _) |- _ => inversion H; subst; clear H
         end; try discriminate.
  all: split; [reflexivity|]; exists tk, e; auto.
Qed.

Lemma rejected_topic_operation_writes_nothing_witness :
  Effect.trace (manageChargerSubscription rejecting
                  (request_of "subscribe"))
  = [(subscribeToTopic "tok" "charger_alerts", false)]
  /\ Effect.outcome (manageChargerSubscription rejecting
                       (request_of "subscribe"))
     = inl (Https {| code := "internal";
                     https_message :=
                       "messaging/invalid-registration-token" |}).
Proof.
  destruct (rejected_topic_operation_writes_nothing rejecting
              (request_of "subscribe")
              (subscribeToTopic "tok" "charger_alerts"))
    as (Htrace & tk & e & Htk & [[Hc He]|[Hc _]] & Hout).
  - left. reflexivity.
  - reflexivity.
  - split; [exact Htrace|].
    rewrite Hout. injection He as <-. reflexivity.
  - discriminate Hc.
Defined.

(** X16: The function returns only after both effects: a result is always
    [{ status: "success", topic: "charger_alerts" }], and the run that
    gives it consists of the topic operation the action names followed by
    the write to the caller's document, both successful. *)
Theorem success_means_both_effects admin request res :
  Effect.outcome (manageChargerSubscription admin request) = inr res ->
  result_status res = "success" /\ result_topic res = "charger_alerts"
  /\ exists a tk,
       auth request = Some a /\ token (request_data request) = Some tk
       /\ ((action (request_data request) = Some "subscribe"
            /\ Effect.trace (manageChargerSubscription admin request)
               = [(subscribeToTopic tk "charger_alerts", true);
                  (subscriptions_set (uid a) (subscription_of a tk), true)])
           \/ (action (request_data request) = Some "unsubscribe"
               /\ Effect.trace (manageChargerSubscription admin request)
                  = [(unsubscribeFromTopic tk "charger_alerts", true);
                     (subscriptions_update (uid a) unsubscription, true)])).
Proof.
  by_cases admin request; intros H; inversion H; subst; simpl.
  all: repeat split; auto; exists a, tk; auto.
Qed.

Lemma success_means_both_effects_witness :
  Effect.trace (manageChargerSubscription accepting
                  (request_of "subscribe"))
  = [(subscribeToTopic "tok" "charger_alerts", true);
     (subscriptions_set "U1"
        {| subscription_userId := "U1";
           subscription_topic := "charger_alerts";
           subscription_token := "tok";
           subscription_subscribedAt := serverTimestamp;
           subscription_active := true |}, true)].
Proof.
  destruct (success_means_both_effects accepting (request_of "subscribe")
              {| result_status := "success";
                 result_message := "Subscribed to charger alerts";
                 result_topic := "charger_alerts" |})
    as (_ & _ & a & tk & Ha & Ht & [[_ Htrace]|[Hact _]]).
  - reflexivity.
  - injection Ha as <-. injection Ht as <-. exact Htrace.
  - discriminate Hact.
Defined.

(** X17: The topic a token joins or leaves is the topic the trigger
    broadcasts to. *)
Theorem topic_shared_with_trigger admin request cloud key data c ok m :
  In (c, ok) (Effect.trace (manageChargerSubscription admin request)) ->
  is_topic_call c = true ->
  In m (topic_sends (calls (alertBlockedCharger cloud key data))) ->
  match c with
  | subscribeToTopic _ t | unsubscribeFromTopic _ t => t = topic m
  | _ => False
  end.
Proof.
  intros Hin Hc Hsent.
  assert (Htopic : topic m = "charger_alerts").
  { revert Hsent. unfold alertBlockedCharger.
    destruct (validate key data) as [[[d image] k]|]; [|intros []].
    destruct (try_block_cases cloud d image k)
      as [e pre Hres|url pre e Hres Hpr|url pre resp Hres Hpr Hrs
         |url pre resp first rest e Hres Hpr Hrs Hup
         |url pre resp first rest docs Hres Hpr Hrs Hup Hq doc
         |url pre resp first rest docs owner others e Hres Hpr Hrs Hup Hq
            m0 Hs
         |url pre resp first rest docs owner others Hres Hpr Hrs Hup Hq m0 Hs
            doc].
    all: pose proof (resolve_image_storage_only cloud image) as Hpre;
      rewrite Hres in Hpre; simpl in Hpre;
      destruct (storage_only_silent _ Hpre) as (Hsends & _).
    all: try (destruct (firestore_add cloud doc) eqn:Hadd; simpl).
    all: rewrite ?try_catch_throws;
      unfold try_catch, catch_block, await_, calls, completion; simpl.
    all: autorewrite with trace; rewrite Hsends; simpl.
    all: intros Hsent;
      repeat match goal with
             | H : _ \/ _ |- _ => destruct H as [H|H]
             | H : False |- _ => destruct H
             end; subst; reflexivity. }
  clear Hsent. revert Hin Hc. rewrite Htopic.
  by_cases admin request; intros Hin Hc.
  all: repeat match goal with
         | H : _ \/ _ |- _ => destruct H as [H|H]
         | H : False |- _ => destruct H
         | H : (_, _) = (_, _) |- _ => inversion H; subst; clear H
         end; try discriminate; reflexivity.
Qed.

Lemma topic_shared_with_trigger_witness :
  "charger_alerts" = topic sample_message.
Proof.
  apply (topic_shared_with_trigger accepting (request_of "subscribe")
           registered_cloud (Some "k") (Some sample_report)
           (subscribeToTopic "tok" "charger_alerts") true sample_message).
  - left. reflexivity.
  - reflexivity.
  - left. reflexivity.
Defined.

End CallableProps.

(** * Properties of plate normalization *)

Module NormalizationProps.

(** The normal form is empty exactly for the plates made of white space
    only. *)
Lemma normalizePlate_empty_iff p :
  normalizePlate (Some p) = EmptyString <-> all_chars JS.is_space p = true.
Proof.
  rewrite normalizePlate_normalizeDetected. unfold normalizeDetected.
  induction p as [|c r IH]; simpl; [tauto|].
  rewrite is_space_upper_char.
  destruct (JS.is_space c); simpl; [exact IH|].
  split; discriminate.
Qed.

(** X18: The normal form of a plate of ASCII characters, for the client and
    for the trigger alike: it is ASCII text without white space and
    without lower-case letters, it is not longer than the plate, and it is
    empty exactly when the plate is made of white space only. *)
Theorem normal_form_of_plates p :
  all_chars is_ascii p = true ->
  normalizePlate (Some p) = normalizeDetected p
  /\ all_chars is_ascii (normalizeDetected p) = true
  /\ all_chars canonical_byte (normalizeDetected p) = true
  /\ String.length (normalizeDetected p) <= String.length p
  /\ (normalizeDetected p = EmptyString <-> all_chars JS.is_space p = true)
  /\ CodeUnits.normalizeDetected (CodeUnits.of_ascii p)
     = CodeUnits.of_ascii (normalizeDetected p).
Proof.
  intros Hp.
  split; [apply normalizePlate_normalizeDetected|].
  split; [apply normalizeDetected_ascii, Hp|].
  split; [apply normalizeDetected_canonical|].
  split; [|split].
  - unfold normalizeDetected. clear Hp.
    induction p as [|c r IH]; simpl; [lia|].
    destruct (JS.is_space (JS.upper_char c)); simpl; lia.
  - rewrite <- normalizePlate_normalizeDetected.
    apply normalizePlate_empty_iff.
  - apply normalizeDetected_of_ascii, Hp.
Qed.

Lemma normal_form_of_plates_witness :
  normalizeDetected " 	 " = EmptyString
  /\ String.length (normalizeDetected "ab 12 cde") <= String.length "ab 12 cde".
Proof.
  destruct (normal_form_of_plates " 	 ") as (_ & _ & _ & _ & Hblank & _);
    [reflexivity|].
  destruct (normal_form_of_plates "ab 12 cde") as (_ & _ & _ & Hlen & _);
    [reflexivity|].
  split; [apply Hblank; reflexivity|exact Hlen].
Defined.

End NormalizationProps.

(** * Properties of the client *)

Module ClientProps.

Import Client.

Ltac members :=
  repeat match goal with
         | H : _ \/ _ |- _ => destruct H as [H|H]
         | H : False |- _ => destruct H
         | H : (_, _) = (_, _) |- _ => inversion H; subst; clear H
         end.

Ltac effects :=
  unfold Effect.catch, Effect.bind, Effect.call, Effect.call_, Effect.show,
    Effect.pure, Effect.raise, Effect.outcome, Effect.trace, id_error in *.

Section Handlers.

Variable browser : Browser.
Variable user : option User.
Variable plate : string.

(** Asks the services of the browser for their answers, in the order of
    the calls. *)
Ltac answers :=
  repeat (match goal with
          | |- context [firestore_setDoc browser ?a ?d] =>
              destruct (firestore_setDoc browser a d) eqn:?
          | |- context [firestore_addDoc browser ?d] =>
              destruct (firestore_addDoc browser d) eqn:?
          | |- context [storage_uploadBytes browser ?a ?b ?c] =>
              destruct (storage_uploadBytes browser a b c) eqn:?
          | |- context [camera_getPhoto browser] =>
              destruct (camera_getPhoto browser) eqn:?
          | |- context [window_fetch browser ?a] =>
              destruct (window_fetch browser a) as [?|[?|?]] eqn:?
          end; simpl).

(** The document [savePlate] hands to the store. *)
Lemma savePlate_document docId doc ok :
  In (setDoc_userPlates docId doc, ok)
     (Effect.trace (savePlate browser user plate)) ->
  exists u,
    user = Some u /\ docId = user_uid u
    /\ doc = {| owner_plate := normalizePlate (Some plate);
                userId := user_uid u |}
    /\ normalizePlate (Some plate) <> EmptyString.
Proof.
  unfold savePlate. destruct user as [u|]; [|intros []].
  set (normalized := normalizePlate (Some plate)).
  destruct (JS.truthy (Some normalized)) eqn:Hn; simpl negb; cbv iota.
  2:{ effects. simpl. intros H. members. }
  effects. destruct (firestore_setDoc browser _ _); simpl.
  all: intros H; members.
  all: exists u; repeat split; auto.
  all: destruct normalized; [discriminate Hn|discriminate].
Qed.


(** X20: A plate made only of the white space of ASCII (tab, line feed,
    vertical tab, form feed, carriage return and space), the empty plate
    included, counts as no plate: [savePlate] and [occupyCharger] write
    nothing and ask for a plate.  On code units, [normalizePlate] gives
    the empty string, which is what both handlers test, for every plate
    made only of the characters of [\s]. *)
Theorem blank_plate_is_refused u chargerId :
  user = Some u -> all_chars JS.is_space plate = true ->
  savePlate browser user plate
  = (inr tt, [(alert "Please enter a license plate.", true)])
  /\ occupyCharger browser user plate chargerId
     = (inr tt, [(alert "Enter your plate first (saved or typed).", true)])
  /\ CodeUnits.normalizePlate (Some (CodeUnits.of_ascii plate)) = []
  /\ (forall units,
        forallb CodeUnits.is_space units = true ->
        CodeUnits.normalizePlate (Some units) = []).
Proof.
  intros -> Hblank.
  assert (Hunits : forallb CodeUnits.is_space (CodeUnits.of_ascii plate)
                   = true).
  { clear -Hblank. induction plate as [|c r IH]; [reflexivity|].
    simpl in Hblank. apply andb_prop in Hblank. destruct Hblank as [Hc Hr].
    simpl. rewrite (IH Hr), andb_true_r. revert Hc.
    destruct c as [[] [] [] [] [] [] [] []]; try discriminate; reflexivity. }
  apply NormalizationProps.normalizePlate_empty_iff in Hblank.
  unfold savePlate, occupyCharger. rewrite Hblank.
  split; [reflexivity|]. split; [reflexivity|].
  split; [apply normalizePlate_blank, Hunits|apply normalizePlate_blank].
Qed.

(** X21: A report created by [occupyCharger] has no image: the trigger that
    fires for it returns at its guard, without a call and without a
    record. *)
Theorem parking_report_is_ignored_by_trigger chargerId doc ok cloud key :
  In (addDoc_chargerUsage doc, ok)
     (Effect.trace (occupyCharger browser user plate chargerId)) ->
  alertBlockedCharger cloud key (Some (usage_report doc)) = (inr tt, []).
Proof.
  unfold occupyCharger. destruct user as [u|]; [|intros []].
  set (normalized := normalizePlate (Some plate)).
  destruct (JS.truthy (Some normalized)) eqn:Hn; simpl negb; cbv iota.
  2:{ effects. simpl. intros H. members. }
  effects. destruct (firestore_addDoc browser _); simpl.
  all: intros H; members.
  all: reflexivity.
Qed.

(** X22: Every report the client adds to [chargerUsage], with or without an
    image, carries the identity of the signed-in user, the status
    ["occupied"] and the normal form of the typed plate, which is not
    empty; when it has an image address, that address is a [gs://]
    address of the bucket of the application. *)
Theorem created_reports_are_well_formed chargerId file doc ok :
  In (addDoc_chargerUsage doc, ok)
     (Effect.trace (occupyCharger browser user plate chargerId))
  \/ In (addDoc_chargerUsage doc, ok)
        (Effect.trace (takePhotoForCharger browser user plate chargerId))
  \/ In (addDoc_chargerUsage doc, ok)
        (Effect.trace (uploadFileForCharger browser user plate chargerId
                         file)) ->
  exists u,
    user = Some u /\ usage_userId doc = user_uid u
    /\ usage_chargerId doc = chargerId
    /\ usage_status doc = "occupied"
    /\ usage_plate doc = normalizePlate (Some plate)
    /\ usage_plate doc <> EmptyString
    /\ (forall image, usage_imageUrl doc = Some image ->
        image = "gs://" ++ storageBucket browser ++ "/chargerUploads/"
                ++ user_uid u ++ "/" ++ toString (Date_now browser)
                ++ ".jpg").
Proof.
  unfold occupyCharger, takePhotoForCharger, uploadFileForCharger,
    createChargerUsageWithImage, uploadToStorageAndGetGsUrl, blobFromDataUrl.
  destruct user as [u|]; [|intros [[]|[[]|[]]]].
  set (normalized := normalizePlate (Some plate)).
  assert (Hne : JS.truthy (Some normalized) = true ->
                normalized <> EmptyString).
  { destruct normalized; [discriminate|discriminate]. }
  destruct (JS.truthy (Some normalized)) eqn:Hn; simpl negb; cbv iota.
  all: intros [H|[H|H]]; revert H; effects.
  all: try match goal with
           | |- context [match ?x with Some _ => _ | None => _ end] =>
               constr_eq x file; destruct file as [f|]; [|intros []]
           end.
  all: repeat match goal with
         | |- context [if ?x then _ else _] => destruct x eqn:?
         end; simpl.
  all: answers.
  all: intros H; members.
  all: exists u; simpl; repeat split; auto.
  all: try (intros image Himage; try discriminate Himage;
            injection Himage as <-; reflexivity).
Qed.

(** X23: A file is uploaded by [uploadFileForCharger] only for a signed-in user,
    when its type starts with ["image/"] and its size is at most
    8388608 bytes; it goes to [chargerUploads/<uid>/<time>.jpg] under its
    own content type. *)
Theorem upload_is_guarded chargerId file path blob contentType ok :
  In (uploadBytes path blob contentType, ok)
     (Effect.trace (uploadFileForCharger browser user plate chargerId file)) ->
  exists u t,
    user = Some u /\ file = Some blob
    /\ blob_type blob = Some t /\ JS.startsWith t "image/" = true
    /\ contentType = t
    /\ (blob_size blob <= 8388608)%Z
    /\ path = "chargerUploads/" ++ user_uid u ++ "/"
              ++ toString (Date_now browser) ++ ".jpg".
Proof.
  unfold uploadFileForCharger, createChargerUsageWithImage,
    uploadToStorageAndGetGsUrl.
  destruct user as [u|]; [|intros []].
  destruct file as [f|]; [|intros []].
  destruct (blob_type f) as [t|] eqn:Ht; simpl negb.
  2:{ effects. simpl. intros H. members. }
  destruct (JS.startsWith t "image/") eqn:Hi; simpl negb; cbv iota.
  2:{ effects. simpl. intros H. members. }
  destruct (blob_size f >? 8 * 1024 * 1024)%Z eqn:Hsize.
  1:{ effects. simpl. intros H. members. }
  destruct (normalizePlate (Some plate)) as [|n0 ns].
  all: effects; simpl.
  all: answers.
  all: intros H; members.
  all: exists u, t; repeat split; auto.
  all: try (destruct t; [discriminate Hi|reflexivity]).
  all: rewrite Z.gtb_ltb in Hsize; apply Z.ltb_ge in Hsize; lia.
Qed.

(** X24: With a blank plate [uploadFileForCharger] uploads the image and
    creates no report, and still tells the user that the report was
    created, after having asked for a plate. *)
Theorem upload_without_plate_claims_success u chargerId f t :
  user = Some u -> all_chars JS.is_space plate = true ->
  blob_type f = Some t -> JS.startsWith t "image/" = true ->
  (blob_size f <= 8388608)%Z ->
  let path := "chargerUploads/" ++ user_uid u ++ "/"
              ++ toString (Date_now browser) ++ ".jpg" in
  storage_uploadBytes browser path f t = None ->
  uploadFileForCharger browser user plate chargerId (Some f)
  = (inr tt,
     [(uploadBytes path f t, true);
      (alert "Enter your plate first (saved or typed).", true);
      (alert "Image uploaded and report created!", true)]).
Proof.
  intros -> Hblank Ht Hi Hsize path Hup.
  apply NormalizationProps.normalizePlate_empty_iff in Hblank.
  unfold uploadFileForCharger, createChargerUsageWithImage,
    uploadToStorageAndGetGsUrl.
  rewrite Ht, Hi, Hblank. simpl negb. cbv iota.
  replace (blob_size f >? 8 * 1024 * 1024)%Z with false
    by (symmetry; rewrite Z.gtb_ltb; apply Z.ltb_ge; lia).
  assert (Hct : JS.or_else (Some t) "image/jpeg" = t).
  { destruct t; [discriminate Hi|reflexivity]. }
  rewrite Hct. fold path. effects. rewrite Hup. reflexivity.
Qed.

(** X25: The handlers never throw: every error of a call ends in an alert,
    the last call of the run. *)
Theorem handlers_contain_errors chargerId file :
  let runs := [savePlate browser user plate;
               occupyCharger browser user plate chargerId;
               takePhotoForCharger browser user plate chargerId;
               uploadFileForCharger browser user plate chargerId file] in
  forall run, In run runs ->
    Effect.outcome run = inr tt
    /\ forall c, In (c, false) (Effect.trace run) ->
         exists before text,
           Effect.trace run = (before ++ [(c, false); (alert text, true)])%list.
Proof.
  intros runs run Hrun. subst runs. simpl in Hrun.
  destruct Hrun as [<-|[<-|[<-|[<-|[]]]]].
  all: unfold savePlate, occupyCharger, takePhotoForCharger,
    uploadFileForCharger, createChargerUsageWithImage,
    uploadToStorageAndGetGsUrl, blobFromDataUrl.
  all: destruct (normalizePlate (Some plate)) as [|n0 ns].
  all: effects.
  all: destruct user as [u|]; [|simpl; split; [reflexivity|intros c []]].
  all: try match goal with
           | |- context [match ?x with Some _ => _ | None => _ end] =>
               constr_eq x file; destruct file as [f|];
               [|simpl; split; [reflexivity|intros c []]]
           end.
  all: repeat match goal with
         | |- context [if ?x then _ else _] => destruct x eqn:?
         end; simpl.
  all: answers.
  all: split; [reflexivity|].
  all: intros c H; members.
  all: match goal with
       | |- exists _ _, ?l = _ =>
           exists (removelast (removelast l)); simpl; eauto
       end.
Qed.



Lemma filter_no_match (l : list OwnerRecord) p :
  (forall o, In o l -> owner_plate o <> p) ->
  filter (fun o => owner_plate o =? p) l = [].
Proof.
  induction l as [|o os IH]; intros H; [reflexivity|].
  simpl. destruct (owner_plate o =? p) eqn:He.
  - apply String.eqb_eq in He. exfalso. apply (H o); simpl; auto.
  - apply IH. intros o' Ho'. apply H. simpl. auto.
Qed.

(** X27: A saved plate reaches its owner: when the document [savePlate] wrote
    is the first of the registry with its plate, every message of the
    trigger about a plate with the normal form of the saved one names the
    user who saved it. *)
Theorem saved_plate_reaches_its_owner docId doc earlier later
    cloud key data msg :
  In (setDoc_userPlates docId doc, true)
     (Effect.trace (savePlate browser user plate)) ->
  userPlates cloud = inr (earlier ++ doc :: later)%list ->
  (forall o, In o earlier -> owner_plate o <> owner_plate doc) ->
  In msg (topic_sends (calls (alertBlockedCharger cloud key data))) ->
  data_plate msg = normalizeDetected plate ->
  user = Some {| user_uid := data_ownerId msg |}.
Proof.
  intros Hsaved Hregistry Hfirst Hsent Hplate.
  destruct (savePlate_document _ _ _ Hsaved) as (u & Hu & _ & -> & _).
  simpl in Hfirst.
  destruct (sent_message_owner cloud key data msg Hsent)
    as (registry & owner & others & Hreg & Hq & Hid).
  rewrite Hregistry in Hreg. injection Hreg as <-.
  rewrite Hplate, <- normalizePlate_normalizeDetected in Hq.
  unfold plate_query in Hq. rewrite filter_app in Hq.
  pose proof (filter_no_match earlier _ Hfirst) as Hnone.
  rewrite Hnone in Hq. simpl in Hq. rewrite String.eqb_refl in Hq.
  simpl in Hq. injection Hq as <- _. simpl in Hid.
  rewrite Hu, Hid. destruct u. reflexivity.
Qed.

End Handlers.


Lemma blank_plate_is_refused_witness :
  savePlate sample_browser (Some sample_user) "   "
  = (inr tt, [(alert "Please enter a license plate.", true)])
  /\ CodeUnits.normalizePlate (Some [0xA0; 0x2003; 0x20]%N) = [].
Proof.
  destruct (blank_plate_is_refused sample_browser (Some sample_user) "   "
              sample_user "CH1") as (Hsave & _ & _ & Hunits);
    [reflexivity|reflexivity|].
  split; [exact Hsave|apply Hunits; reflexivity].
Defined.

Lemma parking_report_is_ignored_by_trigger_witness :
  alertBlockedCharger registered_cloud (Some "k")
    (Some (usage_report {| usage_chargerId := "CH1";
                           usage_plate := "AB12CDE";
                           usage_userId := "U1";
                           usage_status := "occupied";
                           usage_imageUrl := None;
                           usage_createdAt := serverTimestamp |}))
  = (inr tt, []).
Proof.
  apply (parking_report_is_ignored_by_trigger sample_browser
           (Some sample_user) "ab 12 cde" "CH1" _ true registered_cloud
           (Some "k")).
  left. reflexivity.
Defined.

Lemma created_reports_are_well_formed_witness :
  exists u,
    Some sample_user = Some u
    /\ usage_plate {| usage_chargerId := "CH1";
                      usage_plate := "AB12CDE";
                      usage_userId := "U1";
                      usage_status := "occupied";
                      usage_imageUrl := None;
                      usage_createdAt := serverTimestamp |}
       = normalizePlate (Some "ab 12 cde").
Proof.
  destruct (created_reports_are_well_formed sample_browser (Some sample_user)
              "ab 12 cde" "CH1" None
              {| usage_chargerId := "CH1";
                 usage_plate := "AB12CDE";
                 usage_userId := "U1";
                 usage_status := "occupied";
                 usage_imageUrl := None;
                 usage_createdAt := serverTimestamp |} true)
    as (u & Hu & _ & _ & _ & Hplate & _).
  - left. left. reflexivity.
  - exists u. split; assumption.
Defined.

Lemma upload_is_guarded_witness :
  exists u t,
    Some sample_user = Some u /\ Some sample_file = Some sample_file
    /\ blob_type sample_file = Some t /\ JS.startsWith t "image/" = true
    /\ "image/png" = t
    /\ (blob_size sample_file <= 8388608)%Z
    /\ "chargerUploads/U1/1700000000000.jpg"
       = "chargerUploads/" ++ user_uid u ++ "/"
         ++ toString (Date_now sample_browser) ++ ".jpg".
Proof.
  apply (upload_is_guarded sample_browser (Some sample_user) "ab 12 cde"
           "CH1" (Some sample_file) "chargerUploads/U1/1700000000000.jpg"
           sample_file "image/png" true).
  left. reflexivity.
Defined.

Lemma upload_without_plate_claims_success_witness :
  uploadFileForCharger sample_browser (Some sample_user) " " "CH1"
    (Some sample_file)
  = (inr tt,
     [(uploadBytes "chargerUploads/U1/1700000000000.jpg" sample_file
         "image/png", true);
      (alert "Enter your plate first (saved or typed).", true);
      (alert "Image uploaded and report created!", true)]).
Proof.
  apply (upload_without_plate_claims_success sample_browser
           (Some sample_user) " " sample_user "CH1" sample_file "image/png");
    reflexivity.
Defined.

Lemma handlers_contain_errors_witness :
  Effect.outcome (savePlate offline_browser (Some sample_user) "ab 12 cde")
  = inr tt
  /\ exists before text,
       Effect.trace (savePlate offline_browser (Some sample_user)
                       "ab 12 cde")
       = (before
          ++ [(setDoc_userPlates "U1"
                 {| owner_plate := "AB12CDE"; userId := "U1" |}, false);
              (alert text, true)])%list.
Proof.
  destruct (handlers_contain_errors offline_browser (Some sample_user)
              "ab 12 cde" "CH1" None
              (savePlate offline_browser (Some sample_user) "ab 12 cde"))
    as [Ho Hc].
  - left. reflexivity.
  - split; [exact Ho|]. apply Hc. left. reflexivity.
Defined.


Lemma saved_plate_reaches_its_owner_witness :
  Some sample_user = Some {| user_uid := data_ownerId sample_message |}.
Proof.
  apply (saved_plate_reaches_its_owner sample_browser (Some sample_user)
           "ab 12 cde" "U1" {| owner_plate := "AB12CDE"; userId := "U1" |}
           [] [] registered_cloud (Some "k") (Some sample_report)
           sample_message).
  - left. reflexivity.
  - reflexivity.
  - intros o [].
  - left. reflexivity.
  - reflexivity.
Defined.

End ClientProps.

(** * Properties of the web-push set-up *)

Module WebPushProps.

Import WebPush.

Ltac members :=
  repeat match goal with
         | H : _ \/ _ |- _ => destruct H as [H|H]
         | H : False |- _ => destruct H
         | H : (_, _) = (_, _) |- _ => inversion H; subst; clear H
         end.

Ltac effects :=
  unfold Effect.catch, Effect.bind, Effect.call, Effect.call_, Effect.show,
    Effect.pure, Effect.raise, Effect.outcome, Effect.trace,
    Client.id_error in *.

Section SetUp.

Variable page : Page.

(** Takes a set-up apart along the answers of the page. *)
Ltac answers :=
  unfold initWebPush, setupWebPush, getWebMessaging; effects;
  destruct (messaging_isSupported page) as [e0|[|]] eqn:Hsup; simpl;
  try (destruct (vapidKey_env page) as [[|k0 ks]|] eqn:Hkey; simpl);
  try (destruct (messaging_getToken page _) as [e1|[[|t0 ts]|]] eqn:Htok;
       simpl);
  try (destruct (firestore_setToken page _ _) as [e2|] eqn:Hset; simpl).

(** X28: A token is asked for only where web push is supported and the VAPID
    key is set and not empty; without them [initWebPush] returns [null]
    and [setupWebPush] returns, and neither asks. *)
Theorem token_requests_are_guarded user key ok :
  In (getToken key, ok) (Effect.trace (initWebPush page))
  \/ In (getToken key, ok) (Effect.trace (setupWebPush page user)) ->
  messaging_isSupported page = inr true
  /\ vapidKey_env page = Some key
  /\ key <> EmptyString.
Proof.
  destruct user as [u|].
  all: intros [H|H]; revert H; answers.
  all: intros H; members.
  all: repeat split; auto; discriminate.
Qed.

(** X29: [initWebPush] listens for foreground messages only once the token
    request has resolved, and what it returns then is what the request
    gave; it has no handler of its own, so that the errors of the two
    calls reach its caller. *)
Theorem initWebPush_listens_after_token :
  (forall ok, In (onMessage, ok) (Effect.trace (initWebPush page)) ->
     exists key token,
       messaging_getToken page key = inr token
       /\ initWebPush page
          = (inr token,
             [(isSupported, true); (getToken key, true); (onMessage, true)]))
  /\ (forall error, Effect.outcome (initWebPush page) = inl error ->
        messaging_isSupported page = inl error
        \/ exists key, vapidKey_env page = Some key
                       /\ messaging_getToken page key = inl error).
Proof.
  split.
  - intros ok. answers.
    all: intros H; members.
    all: eexists _, _; split; [exact Htok|reflexivity].
  - intros error. answers.
    all: intros H; try discriminate H; injection H as <-.
    all: eauto.
Qed.

(** X30: [setupWebPush] stores a token only under the identity of the
    signed-in user, only a token that is not empty and that the token
    request gave, and it never throws. *)
Theorem setupWebPush_stores_own_token user :
  Effect.outcome (setupWebPush page user) = inr tt
  /\ forall docId token ok,
       In (setDoc_userTokens docId token, ok)
          (Effect.trace (setupWebPush page user)) ->
       exists u key,
         user = Some u /\ docId = Client.user_uid u
         /\ token <> EmptyString
         /\ vapidKey_env page = Some key
         /\ messaging_getToken page key = inr (Some token).
Proof.
  destruct user as [u|].
  all: answers.
  all: split; [reflexivity|].
  all: intros docId token ok H; members.
  all: eexists u, _; repeat split; eauto; discriminate.
Qed.

End SetUp.

Lemma token_requests_are_guarded_witness :
  messaging_isSupported sample_page = inr true
  /\ vapidKey_env sample_page = Some "BKey"
  /\ "BKey" <> EmptyString.
Proof.
  apply (token_requests_are_guarded sample_page None "BKey" true).
  left. right. left. reflexivity.
Defined.

Lemma initWebPush_listens_after_token_witness :
  exists key token,
    messaging_getToken sample_page key = inr token
    /\ initWebPush sample_page
       = (inr token,
          [(isSupported, true); (getToken key, true); (onMessage, true)]).
Proof.
  apply (proj1 (initWebPush_listens_after_token sample_page) true).
  right. right. left. reflexivity.
Defined.

Lemma setupWebPush_stores_own_token_witness :
  exists u key,
    Some Client.sample_user = Some u /\ "U1" = Client.user_uid u
    /\ "fcm-token" <> EmptyString
    /\ vapidKey_env sample_page = Some key
    /\ messaging_getToken sample_page key = inr (Some "fcm-token").
Proof.
  apply (proj2 (setupWebPush_stores_own_token sample_page
                  (Some Client.sample_user)) "U1" "fcm-token" true).
  right. right. left. reflexivity.
Defined.

End WebPushProps.
